(** * NHS GP supplier pipeline: a shallow embedding and its properties

    The development follows the five Python modules of the repository:

    - [execution/helpers.py]        ([Module Helpers], [Module HelpersMonths])
    - [execution/download_gpad.py]  ([Module DownloadGpad])
    - [execution/enrich_gp_data.py] ([Module EnrichGpData])
    - [execution/gp_lookup.py]      ([Module GpLookup], [Module GpLookupFiles])
    - [server.py]                   ([Module Server], [Module ServerTools])

    [Module Pipeline] puts the stages one after the other, each on the
    file the stage before wrote.

    Python values are modelled as follows.  A [str] is a [string]; its
    characters are compared by code, and [str.upper] is the ASCII case
    mapping.  A [float] is a binary64 primitive float.  A raised
    exception is the [Raise] branch of [result].  A [dict] whose
    iteration order is observed is an insertion-ordered association list
    ([pydict]); the in-memory commissioner cache, whose order is never
    observed, is a [gmap].

    Files are modelled by the rows read from them or written to them.
    Rows read with [csv.reader] are lists of cells; rows read with
    [csv.DictReader] are dicts from the header's field names to the
    cells, every row as long as the header.  The registry is a function
    from the URL requested and the number of earlier requests to a
    reply; the requests made and the cache file make up the [world] that
    the Enricher changes.  Waiting and logging are left out. *)

From Stdlib Require Import ZArith List String Ascii Bool Lia Permutation Sorted.
From Stdlib Require Import PrimFloat FloatOps SpecFloat Uint63.
From Stdlib Require Import DecimalString.
From stdpp Require Import base option list gmap strings.

Import ListNotations.
Local Open Scope string_scope.
Local Open Scope list_scope.
Set Warnings "-register-all".
Set Warnings "-abstract-large-number".

(** ** Python built-ins used by the sources *)

Module Py.

(** Exceptions the modelled code can raise.  The two messages of
    [get_download_link_from_response] are kept apart. *)
Inductive exn : Type :=
| IndexError
| KeyError (key : string)
| AttributeError
| TypeError
| ZeroDivisionError
| NoDownloadsFound
| NoAnnexCsvFound (n_downloads : nat).

Inductive result (A : Type) : Type :=
| Ok (a : A)
| Raise (e : exn).
Arguments Ok {A} a.
Arguments Raise {A} e.

Definition bind {A B} (m : result A) (k : A -> result B) : result B :=
  match m with
  | Ok a => k a
  | Raise e => Raise e
  end.

Definition is_ok {A} (m : result A) : bool :=
  match m with Ok _ => true | Raise _ => false end.

(** [l[i]] for a non-negative literal index. *)
Definition list_getitem {A} (l : list A) (i : nat) : result A :=
  match nth_error l i with
  | Some x => Ok x
  | None => Raise IndexError
  end.

(** [s.split(sep)] for a one-character separator: never empty, an empty
    text gives one empty token. *)
Fixpoint str_split (sep : ascii) (s : string) : list string :=
  match s with
  | EmptyString => [EmptyString]
  | String c rest =>
      if Ascii.eqb c sep then EmptyString :: str_split sep rest
      else match str_split sep rest with
           | tok :: toks => String c tok :: toks
           | [] => [String c EmptyString]
           end
  end.

(** [needle in hay] on strings. *)
Fixpoint str_in (needle hay : string) : bool :=
  String.prefix needle hay ||
  match hay with
  | EmptyString => false
  | String _ rest => str_in needle rest
  end.

Definition upper_char (c : ascii) : ascii :=
  let n := nat_of_ascii c in
  if (97 <=? n)%nat && (n <=? 122)%nat then ascii_of_nat (n - 32) else c.

(** [s.upper()]. *)
Fixpoint str_upper (s : string) : string :=
  match s with
  | EmptyString => EmptyString
  | String c rest => String (upper_char c) (str_upper rest)
  end.

(** *** dict

    An insertion-ordered dict with string keys: an association list in
    insertion order, at most one entry per key when built with
    [dict_set]. *)
Definition pydict (V : Type) : Type := list (string * V).

Definition dict_get {V} (d : pydict V) (k : string) : option V :=
  match find (fun kv => String.eqb (fst kv) k) d with
  | Some kv => Some (snd kv)
  | None => None
  end.

(** [k in d]. *)
Definition dict_contains {V} (d : pydict V) (k : string) : bool :=
  match dict_get d k with Some _ => true | None => false end.

(** [d[k]]. *)
Definition dict_getitem {V} (d : pydict V) (k : string) : result V :=
  match dict_get d k with
  | Some v => Ok v
  | None => Raise (KeyError k)
  end.

(** [d[k] = v]: an existing key keeps its position, a new key goes last. *)
Fixpoint dict_set {V} (d : pydict V) (k : string) (v : V) : pydict V :=
  match d with
  | [] => [(k, v)]
  | (k', v') :: rest =>
      if String.eqb k' k then (k', v) :: rest
      else (k', v') :: dict_set rest k v
  end.

(** [dict(items)]. *)
Definition dict_of_items {V} (items : list (string * V)) : pydict V :=
  fold_left (fun d kv => dict_set d (fst kv) (snd kv)) items [].

Definition dict_keys {V} (d : pydict V) : list string := map fst d.

(** *** sorted

    [sorted] is stable and compares with [<] only.  For a strict weak
    order there is one stable sorted arrangement of a list, so the
    insertion sort below returns what the built-in returns.  With
    [reverse=True] the built-in keeps equal elements in their original
    order: it is the same sort under the converse order. *)
Fixpoint sorted_insert {A} (lt : A -> A -> bool) (x : A) (l : list A) : list A :=
  match l with
  | [] => [x]
  | y :: rest =>
      if lt y x then y :: sorted_insert lt x rest else x :: y :: rest
  end.

Definition sorted {A} (lt : A -> A -> bool) (l : list A) : list A :=
  fold_right (sorted_insert lt) [] l.

(** [<] on [(str, (str, str))] tuples: the first differing component
    decides. *)
Definition pair_lt (x y : string * string) : bool :=
  if String.eqb (fst x) (fst y) then String.ltb (snd x) (snd y)
  else String.ltb (fst x) (fst y).

Definition item_lt (x y : string * (string * string)) : bool :=
  if String.eqb (fst x) (fst y) then pair_lt (snd x) (snd y)
  else String.ltb (fst x) (fst y).

(** *** float

    Binary64 arithmetic.  [int_truediv a b] is [a / b] on non-negative
    ints below 2^53, where the conversion to float is exact. *)
Definition float_of_nat (n : nat) : float :=
  PrimFloat.of_uint63 (Uint63.of_Z (Z.of_nat n)).

Definition int_truediv (a b : nat) : result float :=
  if (b =? 0)%nat then Raise ZeroDivisionError
  else Ok (PrimFloat.div (float_of_nat a) (float_of_nat b)).

(** [round(x, 2)]: the exact value of [x] is rounded to the nearest
    multiple of 1/100, a tie going to the even multiple, and the decimal
    obtained is converted back to the nearest float.  At 2^46 and above
    the floats are more than 1/100 apart and [x] is its own rounding. *)
Definition round2 (x : float) : float :=
  match Prim2SF x with
  | S754_finite s m e =>
      if (-6 <=? e)%Z then x
      else
        let num := (Z.pos m * 100)%Z in
        let den := Z.pow 2 (- e) in
        let q := (num / den)%Z in
        let r := (num mod den)%Z in
        let n := if (2 * r <? den)%Z then q
                 else if (den <? 2 * r)%Z then (q + 1)%Z
                 else if Z.even q then q else (q + 1)%Z in
        let y := PrimFloat.div (PrimFloat.of_uint63 (Uint63.of_Z n)) 100%float in
        if s then PrimFloat.opp y else y
  | _ => x
  end.

End Py.
Export Py.

Notation "'let!' x ':=' m 'in' k" := (Py.bind m (fun x => k))
  (at level 10, x name, m at level 100, k at level 200).

(** ** helpers.py *)

Module Helpers.

Definition EVERGREENLIFE : string := "EVERGREENLIFE".

Definition get_main_system_from_value (value : string) : result string :=
  let systems := str_split "/" value in
  if (length systems =? 1)%nat then list_getitem systems 0
  else
    let! s0 := list_getitem systems 0 in
    if String.eqb s0 EVERGREENLIFE then list_getitem systems 1
    else
      let! s1 := list_getitem systems 1 in
      if String.eqb s1 EVERGREENLIFE then list_getitem systems 0
      else list_getitem systems 0.

End Helpers.

(** ** download_gpad.py *)

Module DownloadGpad.

(** A [div.nhsd-m-download-card] element as the function reads it: the
    text of its first [p] ([None] when it has no [p]) and the [href] of its
    first [a] ([None] when it has no [a], [Some None] when the [a] has no
    [href]). *)
Record download_card : Type := {
  p_text : option string;
  a_href : option (option string)
}.

Definition is_annex1_csv (download_title : string) : bool :=
  str_in "Annex 1" download_title && str_in "CSV" download_title.

(** The [for download in downloads] loop: [Ok (Some href)] when it
    returns, [Ok None] when it runs to its end. *)
Fixpoint scan_downloads (downloads : list download_card)
  : result (option (option string)) :=
  match downloads with
  | [] => Ok None
  | download :: rest =>
      match p_text download with
      | None => Raise AttributeError
      | Some download_title =>
          if is_annex1_csv download_title then
            match a_href download with
            | None => Raise AttributeError
            | Some href => Ok (Some href)
            end
          else scan_downloads rest
      end
  end.

(** [downloads] is [soup.select("div.nhsd-m-download-card")]; the value
    returned is the [href], [None] when the anchor has none. *)
Definition get_download_link_from_response (downloads : list download_card)
  : result (option string) :=
  let! found := scan_downloads downloads in
  match found with
  | Some href => Ok href
  | None =>
      if (length downloads =? 0)%nat then Raise NoDownloadsFound
      else Raise (NoAnnexCsvFound (length downloads))
  end.

(** A row of a region file as [csv.reader] yields it, and a file as the
    list of its rows, header first. *)
Definition csv_row : Type := list string.
Definition csv_file : Type := list csv_row.

(** [data] and [gp_code_to_name]. *)
Definition tables : Type := (pydict (string * string) * pydict string)%type.

(** The body of the inner loop for the row at [idx]. *)
Definition process_row (st : tables) (idx : nat) (row : csv_row) : result tables :=
  let '(data, gp_code_to_name) := st in
  if (idx =? 0)%nat then Ok st
  else if (length row <? 4)%nat then Ok st
  else
    let! gp_code := list_getitem row 1 in
    let! gp_name := list_getitem row 2 in
    let! appointments_systems := list_getitem row 3 in
    let! main_system := Helpers.get_main_system_from_value appointments_systems in
    let data :=
      if negb (dict_contains data gp_code)
      then dict_set data gp_code (appointments_systems, main_system)
      else data in
    let gp_code_to_name :=
      if negb (dict_contains gp_code_to_name gp_code)
      then dict_set gp_code_to_name gp_code gp_name
      else gp_code_to_name in
    Ok (data, gp_code_to_name).

(** [for index, row in enumerate(reader)], from index [idx] on. *)
Fixpoint process_rows (st : tables) (idx : nat) (rows : list csv_row) : result tables :=
  match rows with
  | [] => Ok st
  | row :: rest =>
      let! st' := process_row st idx row in
      process_rows st' (S idx) rest
  end.

(** [for input_file_path in input_file_paths], on the files' contents. *)
Fixpoint process_files (st : tables) (files : list csv_file) : result tables :=
  match files with
  | [] => Ok st
  | file :: rest =>
      let! st' := process_rows st 0 file in
      process_files st' rest
  end.

Definition process_data_files (files : list csv_file) : result tables :=
  let! st := process_files ([], []) files in
  let '(data, gp_code_to_name) := st in
  Ok (dict_of_items (sorted item_lt data), gp_code_to_name).

Definition OUTPUT_HEADER : csv_row :=
  ["GP_ODS_CODE"; "GP_NAME"; "GP_GPAD_SYSTEMS"; "GP_SYSTEM"].

(** The rows handed to [writer.writerow] after the header. *)
Fixpoint write_rows (items : list (string * (string * string)))
    (gp_code_to_name : pydict string) : result (list csv_row) :=
  match items with
  | [] => Ok []
  | (gp_code, (appointment_systems, main_system)) :: rest =>
      let! gp_name := dict_getitem gp_code_to_name gp_code in
      let! rows := write_rows rest gp_code_to_name in
      Ok ([gp_code; gp_name; appointment_systems; main_system] :: rows)
  end.

(** The rows of the output file. *)
Definition write_output_file (data : pydict (string * string))
    (gp_code_to_name : pydict string) : result (list csv_row) :=
  let! rows := write_rows data gp_code_to_name in
  Ok (OUTPUT_HEADER :: rows).

(** [process_data_files] followed by [write_output_file], as [main] calls
    them. *)
Definition normalize_and_write (files : list csv_file) : result (list csv_row) :=
  let! st := process_data_files files in
  write_output_file (fst st) (snd st).

End DownloadGpad.

(** ** enrich_gp_data.py *)

Module EnrichGpData.

(** A value decoded by [response.json()].  Python's [None] is [JNull];
    the items of a [JDict] are those of the decoded dict. *)
Inductive json : Type :=
| JNull
| JBool (b : bool)
| JInt (n : Z)
| JFloat (x : float)
| JStr (s : string)
| JList (items : list json)
| JDict (items : list (string * json)).

(** [bool(v)]. *)
Definition truthy (v : json) : bool :=
  match v with
  | JNull => false
  | JBool b => b
  | JInt n => negb (n =? 0)%Z
  | JFloat x => negb (PrimFloat.eqb x 0%float)
  | JStr s => negb (String.eqb s "")
  | JList items => match items with [] => false | _ => true end
  | JDict items => match items with [] => false | _ => true end
  end.

(** [v == s] for a string literal [s]. *)
Definition eq_str (v : json) (s : string) : bool :=
  match v with
  | JStr t => String.eqb t s
  | _ => false
  end.

(** [k in v] for a string [k]. *)
Definition py_in (k : string) (v : json) : result bool :=
  match v with
  | JDict items => Ok (dict_contains items k)
  | JList items => Ok (existsb (fun x => eq_str x k) items)
  | JStr s => Ok (str_in k s)
  | _ => Raise TypeError
  end.

(** [v[k]] for a string [k]. *)
Definition py_getitem (v : json) (k : string) : result json :=
  match v with
  | JDict items => dict_getitem items k
  | _ => Raise TypeError
  end.

(** [v.get(k, dflt)]. *)
Definition py_get (v : json) (k : string) (dflt : json) : result json :=
  match v with
  | JDict items => Ok (default dflt (dict_get items k))
  | _ => Raise AttributeError
  end.

(** What [requests.get] gives: the status and the decoded body of a
    response ([None] for a body that is not JSON), or a transport
    failure. *)
Record response : Type := {
  status_code : Z;
  json_body : option json
}.

Inductive reply : Type :=
| RequestException
| Response (r : response).

(** The registry: its reply to a URL, given how many requests were made
    before. *)
Definition registry : Type := string -> nat -> reply.

(** The state outside the process: the URLs requested so far and the
    rows of [MAP_FILE] under its header [ICB Sub location,GP_ODS_CODE]
    ([None] while the file does not exist), each row as the pair of its
    two cells. *)
Record world : Type := {
  requests : list string;
  map_file : option (list (string * string))
}.

Definition ODS_API_URL : string :=
  "https://directory.spineservices.nhs.uk/ORD/2-0-0/organisations".

Definition api_url (ods_code : string) : string := ODS_API_URL ++ "/" ++ ods_code.

Definition requests_get (net : registry) (url : string) (w : world) : reply * world :=
  (net url (length (requests w)),
   {| requests := requests w ++ [url]; map_file := map_file w |}).

Definition load_map (file : option (list (string * string))) : gmap string json :=
  match file with
  | None => ∅
  | Some rows =>
      fold_left (fun mapping row => <[snd row := JStr (fst row)]> mapping) rows ∅
  end.

(** [response.raise_for_status()] raises on these. *)
Definition is_http_error (r : response) : bool :=
  (400 <=? status_code r)%Z && (status_code r <? 600)%Z.

(** The [for rel in relationships] loop: [Ok (Some v)] when it returns
    [v], [Ok None] when it runs to its end. *)
Fixpoint scan_relationships (relationships : list json) : result (option json) :=
  match relationships with
  | [] => Ok None
  | rel :: rest =>
      let! status := py_get rel "Status" JNull in
      if eq_str status "Active" then
        let! id := py_get rel "id" JNull in
        if eq_str id "RE4" then
          let! target := py_get rel "Target" JNull in
          if truthy target then
            let! org_id := py_get target "OrgId" (JDict []) in
            match org_id with
            | JDict items => Ok (Some (default JNull (dict_get items "extension")))
            | _ => scan_relationships rest
            end
          else scan_relationships rest
        else scan_relationships rest
      else scan_relationships rest
  end.

(** The statements between [data = response.json()] and the handlers. *)
Definition find_commissioner (data : json) : result json :=
  let! has_organisation := py_in "Organisation" data in
  if has_organisation then
    let! organisation := py_getitem data "Organisation" in
    let! has_rels := py_in "Rels" organisation in
    if has_rels then
      let! rels_container := py_getitem organisation "Rels" in
      match rels_container with
      | JDict items =>
          if dict_contains items "Rel" then
            let! relationships := dict_getitem items "Rel" in
            let relationships :=
              match relationships with
              | JList l => l
              | other => [other]
              end in
            let! found := scan_relationships relationships in
            Ok (default JNull found)
          else Ok JNull
      | _ => Ok JNull
      end
    else Ok JNull
  else Ok JNull.

(** Both handlers return [None]; the waits are not modelled. *)
Definition get_commissioner_code (net : registry) (ods_code : string) (w : world)
  : json * world :=
  let url := api_url ods_code in
  let '(first, w1) := requests_get net url w in
  match first with
  | RequestException => (JNull, w1)
  | Response r1 =>
      let '(second, w2) :=
        if (status_code r1 =? 429)%Z then requests_get net url w1
        else (first, w1) in
      match second with
      | RequestException => (JNull, w2)
      | Response r =>
          if (status_code r =? 404)%Z then (JNull, w2)
          else if is_http_error r then (JNull, w2)
          else
            match json_body r with
            | None => (JNull, w2)
            | Some data =>
                match find_commissioner data with
                | Ok v => (v, w2)
                | Raise _ => (JNull, w2)
                end
            end
      end
  end.

Section Writer.

(** [str(v)] for a value that is neither a string nor [None], as
    [csv.writer] writes such a cell. *)
Variable str_of : json -> string.

Definition csv_cell (v : json) : string :=
  match v with
  | JStr s => s
  | JNull => ""
  | other => str_of other
  end.

Definition append_to_map (ods_code : string) (icb_code : json) (w : world) : world :=
  {| requests := requests w;
     map_file := Some (default [] (map_file w) ++ [(csv_cell icb_code, ods_code)]) |}.

(** The variables of [main] that its loop updates. *)
Record run_state : Type := {
  ods_map : gmap string json;
  new_rows : list (pydict json);
  processed_count : nat;
  api_calls : nat
}.

(** The body of [for row in reader]. *)
Definition enrich_row (net : registry) (st : run_state) (w : world) (row : pydict string)
  : result run_state * world :=
  match dict_getitem row "GP_ODS_CODE" with
  | Raise e => (Raise e, w)
  | Ok ods_code =>
      let cached := default JNull (ods_map st !! ods_code) in
      let '(icb_code, ods_map', api_calls', w') :=
        if negb (truthy cached) then
          let '(found, w1) := get_commissioner_code net ods_code w in
          if truthy found then
            (found, <[ods_code := found]> (ods_map st), S (api_calls st),
             append_to_map ods_code found w1)
          else (JStr "UNKNOWN", ods_map st, S (api_calls st), w1)
        else (cached, ods_map st, api_calls st, w) in
      let row' :=
        dict_set (map (fun kv => (fst kv, JStr (snd kv))) row) "ICB Sub location" icb_code in
      (Ok {| ods_map := ods_map';
             new_rows := new_rows st ++ [row'];
             processed_count := S (processed_count st);
             api_calls := api_calls' |}, w')
  end.

Fixpoint enrich_rows (net : registry) (st : run_state) (w : world)
    (rows : list (pydict string)) : result run_state * world :=
  match rows with
  | [] => (Ok st, w)
  | row :: rest =>
      match enrich_row net st w row with
      | (Ok st', w') => enrich_rows net st' w' rest
      | (Raise e, w') => (Raise e, w')
      end
  end.

(** [main] on the rows of an existing [gp_suppliers] file: the rows given
    to [writer.writerows], one line of the output file each. *)
Definition main (net : registry) (rows : list (pydict string)) (w : world)
  : result (list (pydict json)) * world :=
  let st := {| ods_map := load_map (map_file w); new_rows := [];
               processed_count := 0; api_calls := 0 |} in
  match enrich_rows net st w rows with
  | (Ok st', w') => (Ok (new_rows st'), w')
  | (Raise e, w') => (Raise e, w')
  end.

End Writer.

End EnrichGpData.

(** ** gp_lookup.py *)

Module GpLookup.

(** [self.data]: the rows of the dataset file. *)
Definition dataset : Type := list (pydict string).

Fixpoint lookup_by_ods_code (data : dataset) (ods_code : string)
  : result (option (pydict string)) :=
  match data with
  | [] => Ok None
  | row :: rest =>
      let! code := dict_getitem row "GP_ODS_CODE" in
      if String.eqb code (str_upper ods_code) then Ok (Some row)
      else lookup_by_ods_code rest ods_code
  end.

(** The first loop of [get_statistics]. *)
Fixpoint count_systems (data : dataset) (system_counts : pydict nat) : result (pydict nat) :=
  match data with
  | [] => Ok system_counts
  | row :: rest =>
      let! system := dict_getitem row "GP_SYSTEM" in
      count_systems rest
        (dict_set system_counts system (default 0%nat (dict_get system_counts system) + 1)%nat)
  end.

Record system_stats : Type := {
  count : nat;
  percentage : float
}.

Record statistics : Type := {
  total_practices : nat;
  systems : pydict system_stats
}.

(** [key=lambda x: x[1], reverse=True]: before, strictly, is a greater
    count. *)
Definition count_desc (x y : string * nat) : bool := (snd y <? snd x)%nat.

(** The second loop, over the sorted items. *)
Fixpoint fill_systems (total : nat) (items : list (string * nat))
    (systems : pydict system_stats) : result (pydict system_stats) :=
  match items with
  | [] => Ok systems
  | (system, count) :: rest =>
      let! ratio := int_truediv count total in
      fill_systems total rest
        (dict_set systems system
           {| count := count; percentage := round2 (PrimFloat.mul ratio 100%float) |})
  end.

Definition get_statistics (data : dataset) : result statistics :=
  let total := length data in
  let! system_counts := count_systems data [] in
  let! systems := fill_systems total (sorted count_desc system_counts) [] in
  Ok {| total_practices := total; systems := systems |}.

(** The loop of [search_by_name], [results] being the list built so far. *)
Fixpoint search_rows (search_term : string) (exact : bool)
    (results : list (pydict string)) (data : dataset) : result (list (pydict string)) :=
  match data with
  | [] => Ok results
  | row :: rest =>
      let! gp_name := dict_getitem row "GP_NAME" in
      let gp_name := str_upper gp_name in
      if exact then
        if String.eqb gp_name search_term
        then search_rows search_term exact (results ++ [row]) rest
        else search_rows search_term exact results rest
      else
        if str_in search_term gp_name
        then search_rows search_term exact (results ++ [row]) rest
        else search_rows search_term exact results rest
  end.

Definition search_by_name (data : dataset) (name : string) (exact : bool)
  : result (list (pydict string)) :=
  search_rows (str_upper name) exact [] data.

(** The loop of [filter_by_system]. *)
Fixpoint filter_rows (search_term : string) (results : list (pydict string))
    (data : dataset) : result (list (pydict string)) :=
  match data with
  | [] => Ok results
  | row :: rest =>
      let! system := dict_getitem row "GP_SYSTEM" in
      if String.eqb system search_term
      then filter_rows search_term (results ++ [row]) rest
      else filter_rows search_term results rest
  end.

Definition filter_by_system (data : dataset) (system : string)
  : result (list (pydict string)) :=
  filter_rows (str_upper system) [] data.

End GpLookup.

(** ** Files and paths *)

Module PyOs.

(** [s.endswith(suffix)]. *)
Definition str_endswith (suffix s : string) : bool :=
  (String.length suffix <=? String.length s)%nat &&
  String.eqb (substring (String.length s - String.length suffix) (String.length suffix) s)
             suffix.

(** [os.path.join(a, b)] of [posixpath]. *)
Definition path_join (a b : string) : string :=
  if String.prefix "/" b then b
  else if String.eqb a "" || str_endswith "/" a then a ++ b
  else a ++ "/" ++ b.

(** [max(l)] on strings: the first of the greatest items; [None] for the
    [ValueError] on an empty list. *)
Fixpoint max_from (best : string) (l : list string) : string :=
  match l with
  | [] => best
  | item :: rest => max_from (if String.ltb best item then item else best) rest
  end.

Definition py_max (l : list string) : option string :=
  match l with
  | [] => None
  | first :: rest => Some (max_from first rest)
  end.

(** The file system as the query side reads it: [os.path.exists], the
    paths [glob.glob] returns for a pattern, in its order, and the rows
    [list(csv.DictReader(f))] gives for the file at a path ([None] when
    opening or reading it raises). *)
Record filesystem : Type := {
  path_exists : string -> bool;
  glob : string -> list string;
  read_dicts : string -> option (list (pydict string))
}.

(** The failures of the query side: the three [FileNotFoundError]s, by
    the place that raises them, [sys.exit(1)], and whatever [open] or
    the reader raises. *)
Inductive failure : Type :=
| NoFileForMonth (month : string)
| NoDataFiles
| DataFileNotFound (data_file : option string)
| SystemExit1
| ReadError (data_file : string).

Inductive outcome (A : Type) : Type :=
| Found (a : A)
| Failed (e : failure).
Arguments Found {A} a.
Arguments Failed {A} e.

(** [if month:] on an optional string. *)
Definition given (month : option string) : option string :=
  match month with
  | Some m => if String.eqb m "" then None else Some m
  | None => None
  end.

End PyOs.
Export PyOs.

(** ** gp_lookup.py: the instance and the file [main] opens *)

Module GpLookupFiles.

Definition DATA_DIR : string := "execution/data".

(** A [GPSupplierLookup] instance. *)
Record lookup : Type := {
  data_file : option string;
  data : GpLookup.dataset
}.

(** [GPSupplierLookup(data_file=data_file)]: [__init__] and
    [load_data]. *)
Definition GPSupplierLookup (fs : filesystem) (data_file : option string) : outcome lookup :=
  match given data_file with
  | None => Failed (DataFileNotFound data_file)
  | Some path =>
      if negb (path_exists fs path) then Failed (DataFileNotFound data_file)
      else
        match read_dicts fs path with
        | Some rows => Found {| data_file := data_file; data := rows |}
        | None => Failed (ReadError path)
        end
  end.

(** The statements of [main] that set [data_file]. *)
Definition main_data_file (fs : filesystem) (month : option string) : outcome string :=
  match given month with
  | Some m => Found (path_join DATA_DIR ("icb_gp_suppliers_" ++ m ++ ".csv"))
  | None =>
      let files := glob fs (path_join DATA_DIR "icb_gp_suppliers_*.csv") in
      match py_max files with
      | None =>
          let legacy_file := path_join DATA_DIR "icb_gp_suppliers.csv" in
          if path_exists fs legacy_file then Found legacy_file
          else Failed SystemExit1
      | Some latest => Found latest
      end
  end.

End GpLookupFiles.

(** ** server.py *)

Module Server.
Import GpLookupFiles.

Section DataDir.

(** [str(PROJECT_ROOT / "execution" / "data")]. *)
Variable DATA_DIR : string.

Definition _find_data_file (fs : filesystem) (month : option string) : outcome string :=
  match given month with
  | Some m =>
      let path := path_join DATA_DIR ("icb_gp_suppliers_" ++ m ++ ".csv") in
      if path_exists fs path then Found path
      else Failed (NoFileForMonth m)
  | None =>
      let files := glob fs (path_join DATA_DIR "icb_gp_suppliers_*.csv") in
      match py_max files with
      | Some latest => Found latest
      | None => Failed NoDataFiles
      end
  end.

(** The two globals. *)
Record cache : Type := {
  _lookup_instance : option lookup;
  _lookup_month : option string
}.

(** [month != _lookup_month] is [negb] of this. *)
Definition month_eqb (a b : option string) : bool :=
  match a, b with
  | None, None => true
  | Some x, Some y => String.eqb x y
  | _, _ => false
  end.

Definition _get_lookup (fs : filesystem) (st : cache) (month : option string)
  : outcome lookup * cache :=
  let reload :=
    match _find_data_file fs month with
    | Failed e => (Failed e, st)
    | Found data_file =>
        match GPSupplierLookup fs (Some data_file) with
        | Failed e => (Failed e, st)
        | Found instance =>
            (Found instance,
             {| _lookup_instance := Some instance; _lookup_month := month |})
        end
    end in
  match _lookup_instance st with
  | None => reload
  | Some instance =>
      if negb (month_eqb month (_lookup_month st)) then reload
      else (Found instance, st)
  end.

Definition _invalidate_cache (st : cache) : cache :=
  {| _lookup_instance := None; _lookup_month := None |}.

End DataDir.

End Server.

(** ** The three stages on files *)

Module Pipeline.
Import DownloadGpad EnrichGpData.

(** Why a stage stops: an exception of the stage's loop; [TypeError] for
    [['ICB Sub location'] + reader.fieldnames] on a file without a
    header row; the [ValueError] of [csv.DictWriter] for a row with a
    key that is no field name.  [RaggedRow] marks the end of what is
    modelled: for a row that is not as long as the header
    [csv.DictReader] gives a dict with [None] in it, which the rows
    modelled here cannot hold, and nothing is said of such a run. *)
Inductive stop : Type :=
| Raised (e : exn)
| NoFieldnames
| ExtraFields
| RaggedRow (row : csv_row).

Inductive run (A : Type) : Type :=
| Done (a : A)
| Stopped (s : stop).
Arguments Done {A} a.
Arguments Stopped {A} s.

(** The dicts [csv.DictReader] yields after the header row: blank rows
    are passed over, the others are [dict(zip(fieldnames, row))]. *)
Fixpoint next_dicts (fieldnames : list string) (rows : list csv_row)
  : run (list (pydict string)) :=
  match rows with
  | [] => Done []
  | row :: rest =>
      match row with
      | [] => next_dicts fieldnames rest
      | _ =>
          if (length row =? length fieldnames)%nat then
            match next_dicts fieldnames rest with
            | Done dicts => Done (dict_of_items (combine fieldnames row) :: dicts)
            | Stopped s => Stopped s
            end
          else Stopped (RaggedRow row)
      end
  end.

Section Writer.
Variable str_of : json -> string.

(** [DictWriter._dict_to_list], the cells as [csv.writer] writes them;
    [restval] is the empty string. *)
Definition dict_to_list (fieldnames : list string) (rowdict : pydict json) : run csv_row :=
  let wrong_fields :=
    List.filter (fun k => negb (existsb (String.eqb k) fieldnames)) (dict_keys rowdict) in
  match wrong_fields with
  | [] =>
      Done (map (fun key => csv_cell str_of (default (JStr "") (dict_get rowdict key)))
                fieldnames)
  | _ => Stopped ExtraFields
  end.

(** [writer.writerows(new_rows)]. *)
Fixpoint writerows (fieldnames : list string) (rowdicts : list (pydict json))
  : run (list csv_row) :=
  match rowdicts with
  | [] => Done []
  | rowdict :: rest =>
      match dict_to_list fieldnames rowdict with
      | Stopped s => Stopped s
      | Done row =>
          match writerows fieldnames rest with
          | Done rows => Done (row :: rows)
          | Stopped s => Stopped s
          end
      end
  end.

(** [enrich_gp_data.main] from the rows of the [gp_suppliers] file to
    the rows of the [icb_gp_suppliers] file. *)
Definition enrich_file (net : registry) (gp_suppliers_file : list csv_row) (w : world)
  : run (list csv_row) * world :=
  match gp_suppliers_file with
  | [] => (Stopped NoFieldnames, w)
  | header :: rows =>
      let fieldnames := "ICB Sub location" :: header in
      match next_dicts header rows with
      | Stopped s => (Stopped s, w)
      | Done dicts =>
          match main str_of net dicts w with
          | (Raise e, w') => (Stopped (Raised e), w')
          | (Ok new_rows, w') =>
              match writerows fieldnames new_rows with
              | Done rows => (Done (fieldnames :: rows), w')
              | Stopped s => (Stopped s, w')
              end
          end
      end
  end.

(** [GPSupplierLookup.load_data] on the rows of the data file. *)
Definition load_data (data_file : list csv_row) : run GpLookup.dataset :=
  match data_file with
  | [] => Done []
  | header :: rows => next_dicts header rows
  end.

(** The Normalizer, the Enricher on the file it wrote, and the load of
    the file the Enricher wrote. *)
Definition pipeline (net : registry) (files : list csv_file) (w : world)
  : run GpLookup.dataset * world :=
  match normalize_and_write files with
  | Raise e => (Stopped (Raised e), w)
  | Ok gp_suppliers_file =>
      match enrich_file net gp_suppliers_file w with
      | (Stopped s, w') => (Stopped s, w')
      | (Done icb_gp_suppliers_file, w') => (load_data icb_gp_suppliers_file, w')
      end
  end.

End Writer.
End Pipeline.

(** ** helpers.py: months and data files *)

Module HelpersMonths.

(** What these functions raise: [ValueError] from [int] and from the
    unpacking of the split, [KeyError] from the table of month names. *)
Inductive error : Type :=
| ValueError
| KeyError (key : Z).

Inductive outcome (A : Type) : Type :=
| Returns (a : A)
| Raises (e : error).
Arguments Returns {A} a.
Arguments Raises {A} e.

(** *** [int(s)] on ASCII text *)

Definition is_space (c : ascii) : bool :=
  let n := nat_of_ascii c in
  ((9 <=? n)%nat && (n <=? 13)%nat) || (n =? 32)%nat.

Definition is_digit (c : ascii) : bool :=
  let n := nat_of_ascii c in (48 <=? n)%nat && (n <=? 57)%nat.

Definition digit_value (c : ascii) : Z := Z.of_nat (nat_of_ascii c - 48).

Fixpoint lstrip (s : string) : string :=
  match s with
  | String c rest => if is_space c then lstrip rest else s
  | EmptyString => EmptyString
  end.

Fixpoint rstrip (s : string) : string :=
  match s with
  | String c rest =>
      match rstrip rest with
      | EmptyString => if is_space c then EmptyString else String c EmptyString
      | kept => String c kept
      end
  | EmptyString => EmptyString
  end.

(** The digits after the first one: single underscores are allowed
    between digits.  [count] is the number of digits read. *)
Fixpoint more_digits (acc : Z) (count : nat) (after_underscore : bool) (s : string)
  : option (Z * nat) :=
  match s with
  | EmptyString => if after_underscore then None else Some (acc, count)
  | String c rest =>
      if is_digit c then more_digits (10 * acc + digit_value c) (S count) false rest
      else if Ascii.eqb c "_" && negb after_underscore then more_digits acc count true rest
      else None
  end.

Definition unsigned (s : string) : option Z :=
  match s with
  | String c rest =>
      if is_digit c then
        match more_digits (digit_value c) 1 false rest with
        | Some (n, count) => if (count <=? 4300)%nat then Some n else None
        | None => None
        end
      else None
  | EmptyString => None
  end.

(** [int(s)]: [None] for [ValueError].  White space around the number, a
    sign, underscores between digits and zeros in front are accepted;
    more than 4300 digits are refused. *)
Definition py_int (s : string) : option Z :=
  match rstrip (lstrip s) with
  | String "+" rest => unsigned rest
  | String "-" rest => option_map Z.opp (unsigned rest)
  | body => unsigned body
  end.

(** *** [s.capitalize()] on ASCII text *)

Definition lower_char (c : ascii) : ascii :=
  let n := nat_of_ascii c in
  if (65 <=? n)%nat && (n <=? 90)%nat then ascii_of_nat (n + 32) else c.

Fixpoint str_lower (s : string) : string :=
  match s with
  | EmptyString => EmptyString
  | String c rest => String (lower_char c) (str_lower rest)
  end.

Definition str_capitalize (s : string) : string :=
  match s with
  | EmptyString => EmptyString
  | String c rest => String (upper_char c) (str_lower rest)
  end.

(** *** The functions *)

Definition MONTH_NAMES : list (Z * string) :=
  [(1, "january"); (2, "february"); (3, "march"); (4, "april"); (5, "may");
   (6, "june"); (7, "july"); (8, "august"); (9, "september"); (10, "october");
   (11, "november"); (12, "december")]%Z.

Definition month_to_name (month : string) : outcome string :=
  match py_int month with
  | None => Raises ValueError
  | Some month =>
      match find (fun entry => Z.eqb (fst entry) month) MONTH_NAMES with
      | Some entry => Returns (snd entry)
      | None => Raises (KeyError month)
      end
  end.

Definition get_month_and_year_from_iso_month (iso_month : string)
  : outcome (string * string) :=
  match str_split "-" iso_month with
  | [year; month] =>
      match month_to_name month with
      | Returns month => Returns (month, year)
      | Raises e => Raises e
      end
  | _ => Raises ValueError
  end.

(** [listdir] is [os.listdir(unzip_dir)]. *)
Definition get_data_file_paths (listdir : list string) (unzip_dir iso_month : string)
  : outcome (list string) :=
  match get_month_and_year_from_iso_month iso_month with
  | Raises e => Raises e
  | Returns (month, year) =>
      let abbreviated_month := str_capitalize (substring 0 3 month) in
      let abbreviated_year := substring 2 2 year in
      let search_string := (abbreviated_month ++ "_" ++ abbreviated_year ++ ".csv")%string in
      Returns (map (fun f => path_join unzip_dir f)
                   (List.filter (fun f => str_endswith search_string f) listdir))
  end.

End HelpersMonths.

(** ** server.py: the query tools *)

Module ServerTools.
Import GpLookupFiles Server.

(** The line feed of ["\n"]. *)
Definition NL : string := String (ascii_of_nat 10) EmptyString.

(** [sep.join(l)]. *)
Fixpoint str_join (sep : string) (l : list string) : string :=
  match l with
  | [] => EmptyString
  | [s] => s
  | s :: rest => (s ++ sep ++ str_join sep rest)%string
  end.

(** [str(n)] for a non-negative int. *)
Definition str_of_nat (n : nat) : string := NilEmpty.string_of_uint (Nat.to_uint n).

(** What a tool gives back: the text it returns; the text [str(e)] of
    one of the three [FileNotFoundError]s, which it catches; an
    exception of the query or of the formatting, which it lets through;
    or an error of [open] or of the reader, returned as text when it is
    a [FileNotFoundError] and let through otherwise. *)
Inductive reply : Type :=
| Text (text : string)
| NotFoundText (e : failure)
| Uncaught (e : exn)
| ReadFailure (e : failure).

Definition failure_reply (e : failure) : reply :=
  match e with
  | NoFileForMonth _ | NoDataFiles | DataFileNotFound _ => NotFoundText e
  | SystemExit1 | ReadError _ => ReadFailure e
  end.

Definition _format_practice (row : pydict string) : result string :=
  let! gp_name := dict_getitem row "GP_NAME" in
  let! gp_ods_code := dict_getitem row "GP_ODS_CODE" in
  let! gp_system := dict_getitem row "GP_SYSTEM" in
  let lines :=
    [("**" ++ gp_name ++ "** (`" ++ gp_ods_code ++ "`)")%string;
     ("- IT System: " ++ gp_system)%string;
     ("- Raw Systems: " ++ default "N/A" (dict_get row "GP_GPAD_SYSTEMS"))%string] in
  match dict_get row "ICB Sub location" with
  | Some icb =>
      if negb (String.eqb icb "")
      then Ok (str_join NL (lines ++ [("- ICB Sub Location: " ++ icb)%string]))
      else Ok (str_join NL lines)
  | None => Ok (str_join NL lines)
  end.

(** The loop of [gp_search_by_name] from the [i]-th result on, [total]
    being [len(results)]; [i] never exceeds [total]. *)
Fixpoint search_lines (total i : nat) (rows : list (pydict string)) (lines : list string)
  : result (list string) :=
  match rows with
  | [] => Ok lines
  | row :: rest =>
      let! practice := _format_practice row in
      let lines := lines ++ [(str_of_nat i ++ ". " ++ practice)%string; ""] in
      if (50 <=? i)%nat then
        Ok (lines ++ [("*... and " ++ str_of_nat (total - 50) ++ " more results. "
                       ++ "Try a more specific search term.*")%string])
      else search_lines total (S i) rest lines
  end.

(** The first loop of [gp_filter_by_system]. *)
Definition count_by_icb (results : list (pydict string)) : pydict nat :=
  fold_left (fun by_icb row =>
               let icb := default "Unknown" (dict_get row "ICB Sub location") in
               dict_set by_icb icb (default 0%nat (dict_get by_icb icb) + 1)%nat)
            results [].

Section DataDir.
Variable DATA_DIR : string.

Definition gp_search_by_name (fs : filesystem) (st : cache) (name : string) (exact : bool)
    (month : option string) : reply * cache :=
  match _get_lookup DATA_DIR fs st month with
  | (Failed e, st') => (failure_reply e, st')
  | (Found lookup, st') =>
      match GpLookup.search_by_name (data lookup) name exact with
      | Raise e => (Uncaught e, st')
      | Ok [] => (Text ("No GP practices found matching '" ++ name ++ "'."), st')
      | Ok results =>
          let lines :=
            [("Found **" ++ str_of_nat (length results) ++ "** practices matching '"
              ++ name ++ "':" ++ NL)%string] in
          match search_lines (length results) 1 results lines with
          | Ok lines => (Text (str_join NL lines), st')
          | Raise e => (Uncaught e, st')
          end
      end
  end.

Definition gp_filter_by_system (fs : filesystem) (st : cache) (system : string)
    (month : option string) : reply * cache :=
  match _get_lookup DATA_DIR fs st month with
  | (Failed e, st') => (failure_reply e, st')
  | (Found lookup, st') =>
      match GpLookup.filter_by_system (data lookup) system with
      | Raise e => (Uncaught e, st')
      | Ok [] =>
          (Text ("No GP practices found using system '" ++ str_upper system ++ "'. "
                 ++ "Common systems: TPP, EMIS, CEGEDIM, MICROTEST."), st')
      | Ok results =>
          let by_icb := count_by_icb results in
          let lines :=
            [("**" ++ str_of_nat (length results) ++ "** practices use **"
              ++ str_upper system ++ "**" ++ NL)%string;
             ("### Breakdown by ICB Sub Location" ++ NL)%string;
             "| ICB Sub Location | Count |";
             "|---|---|"] in
          let lines :=
            lines ++ map (fun item => ("| " ++ fst item ++ " | " ++ str_of_nat (snd item)
                                       ++ " |")%string)
                         (sorted GpLookup.count_desc by_icb) in
          (Text (str_join NL lines), st')
      end
  end.

End DataDir.
End ServerTools.

(** * Notions used in the statements *)

(** ** Canonical supplier *)

(** The rule as the specification words it, on the token list: one token
    is itself; exactly two tokens with EVERGREENLIFE first give the
    second; every other field gives its first token. *)
Definition resolveCanonical_spec (tokens : list string) : option string :=
  match tokens with
  | [] => None
  | [t] => Some t
  | [a; b] => if String.eqb a Helpers.EVERGREENLIFE then Some b else Some a
  | a :: _ => Some a
  end.

(** The rule the code implements, on the token list. *)
Definition resolveCanonical_code (tokens : list string) : option string :=
  match tokens with
  | [] => None
  | [t] => Some t
  | a :: b :: _ => if String.eqb a Helpers.EVERGREENLIFE then Some b else Some a
  end.

Definition main_system_of (value : string) : string :=
  match resolveCanonical_code (str_split "/" value) with
  | Some t => t
  | None => ""
  end.

(** ** Download cards *)

(** The cards whose title matches. *)
Definition matching_cards (downloads : list DownloadGpad.download_card)
  : list DownloadGpad.download_card :=
  List.filter (fun d => match DownloadGpad.p_text d with
                        | Some t => DownloadGpad.is_annex1_csv t
                        | None => false
                        end) downloads.

(** A card the loop steps over: it has a title and the title does not
    match. *)
Definition skipped (c : DownloadGpad.download_card) : Prop :=
  exists t, DownloadGpad.p_text c = Some t /\ DownloadGpad.is_annex1_csv t = false.

Definition annex_card (title url : string) : DownloadGpad.download_card :=
  {| DownloadGpad.p_text := Some title; DownloadGpad.a_href := Some (Some url) |}.

(** ** Rows of the region files *)

Definition long_enough (row : DownloadGpad.csv_row) : bool :=
  negb (length row <? 4)%nat.

(** The rows [process_data_files] does not skip, in file-then-row order:
    all but the first row of each file, and of these the rows of four
    cells or more. *)
Definition data_rows (files : list DownloadGpad.csv_file) : list DownloadGpad.csv_row :=
  concat (map (fun file => List.filter long_enough (tl file)) files).

(** The cells the Normalizer reads in a row. *)
Definition gp_code (row : DownloadGpad.csv_row) : string := nth 1 row "".

Definition gp_name (row : DownloadGpad.csv_row) : string := nth 2 row "".

Definition appointments_systems (row : DownloadGpad.csv_row) : string := nth 3 row "".

Definition data_item (row : DownloadGpad.csv_row) : string * (string * string) :=
  (gp_code row, (appointments_systems row, main_system_of (appointments_systems row))).

Definition name_item (row : DownloadGpad.csv_row) : string * string :=
  (gp_code row, gp_name row).

(** [if k not in d: d[k] = v], and the same for a list of pairs in turn. *)
Definition setdefault {V} (d : pydict V) (k : string) (v : V) : pydict V :=
  if negb (dict_contains d k) then dict_set d k v else d.

Definition setdefaults {V} (kvs : list (string * V)) (d : pydict V) : pydict V :=
  fold_left (fun d kv => setdefault d (fst kv) (snd kv)) kvs d.

(** What one kept row does to the two dicts. *)
Definition absorb (st : DownloadGpad.tables) (row : DownloadGpad.csv_row)
  : DownloadGpad.tables :=
  (setdefault (fst st) (gp_code row)
     (appointments_systems row, main_system_of (appointments_systems row)),
   setdefault (snd st) (gp_code row) (gp_name row)).

(** The two dicts when the loops of [process_data_files] end. *)
Definition raw_data (files : list DownloadGpad.csv_file) : pydict (string * string) :=
  setdefaults (map data_item (data_rows files)) [].

Definition raw_names (files : list DownloadGpad.csv_file) : pydict string :=
  setdefaults (map name_item (data_rows files)) [].

(** The row written for an item of [data]. *)
Definition output_row (names : pydict string) (item : string * (string * string))
  : DownloadGpad.csv_row :=
  [fst item; default "" (dict_get names (fst item)); fst (snd item); snd (snd item)].

Definition key_lt (x y : string * (string * string)) : bool :=
  String.ltb (fst x) (fst y).

Definition two_spellings : list DownloadGpad.csv_file :=
  [[["H1"; "H2"; "H3"; "H4"];
    ["_"; "a81001"; "DENSHAM SURGERY"; "TPP"];
    ["_"; "A81001"; "DENSHAM SURGERY"; "TPP"]]].

Definition duplicated_code : list DownloadGpad.csv_file :=
  [[["H1"; "H2"; "H3"; "H4"];
    ["_"; "A81001"; "DENSHAM SURGERY"; "TPP"];
    ["_"; "A81002"; "PARK MEDICAL"; "EVERGREENLIFE/EMIS"]];
   [["H1"; "H2"; "H3"; "H4"];
    ["_"; "A81001"; "ANOTHER NAME"; "EMIS"]]].

(** The key as the specification words it, in its two parts.  Every
    code of the output is in upper case; and of two kept rows whose
    codes differ only in letter case exactly one record is output, under
    the upper-cased code. *)
Definition upper_case_keys_spec (data : pydict (string * string)) : Prop :=
  Forall (fun c => str_upper c = c) (dict_keys data).

Definition case_insensitive_key_spec (files : list DownloadGpad.csv_file)
    (data : pydict (string * string)) : Prop :=
  forall r1 r2,
    In r1 (data_rows files) -> In r2 (data_rows files) ->
    gp_code r1 <> gp_code r2 ->
    str_upper (gp_code r1) = str_upper (gp_code r2) ->
    List.filter (fun k => String.eqb (str_upper k) (str_upper (gp_code r1))) (dict_keys data)
    = [str_upper (gp_code r1)].

(** ** The commissioner cache and the registry *)

(** The rows of the cache file, none while it does not exist. *)
Definition file_rows (w : EnrichGpData.world) : list (string * string) :=
  default [] (EnrichGpData.map_file w).

(** The test [if not icb_code] of [main] on the entry of a code: an
    absent entry and an empty cell both count as a miss. *)
Definition cached (m : gmap string EnrichGpData.json) (ods_code : string) : bool :=
  EnrichGpData.truthy (default EnrichGpData.JNull (m !! ods_code)).

(** The output row of an input row. *)
Definition with_icb (row : pydict string) (icb_code : EnrichGpData.json)
  : pydict EnrichGpData.json :=
  dict_set (map (fun kv => (fst kv, EnrichGpData.JStr (snd kv))) row)
           "ICB Sub location" icb_code.

Definition has_code (row : pydict string) : Prop :=
  dict_contains row "GP_ODS_CODE" = true.

(** The registry answers every request for a code with status 404. *)
Definition always_404 (net : EnrichGpData.registry) (ods_code : string) : Prop :=
  forall t, exists body,
    net (EnrichGpData.api_url ods_code) t =
    EnrichGpData.Response {| EnrichGpData.status_code := 404;
                             EnrichGpData.json_body := body |}.

(** The variables of [main] when its loop starts. *)
Definition initial_state (w : EnrichGpData.world) : EnrichGpData.run_state :=
  {| EnrichGpData.ods_map := EnrichGpData.load_map (EnrichGpData.map_file w);
     EnrichGpData.new_rows := [];
     EnrichGpData.processed_count := 0;
     EnrichGpData.api_calls := 0 |}.

(** Enrichment runs one after the other, each with its registry and its
    input, on the world the run before left. *)
Fixpoint enrichment_runs (str_of : EnrichGpData.json -> string)
    (jobs : list (EnrichGpData.registry * list (pydict string)))
    (w : EnrichGpData.world) : EnrichGpData.world :=
  match jobs with
  | [] => w
  | (net, rows) :: rest =>
      enrichment_runs str_of rest (snd (EnrichGpData.main str_of net rows w))
  end.

(** A cache of one row; a registry that knows A81003, answers 404 for
    A81002 and cannot be reached for A81004; four practices as input. *)
Definition plain_str (v : EnrichGpData.json) : string := "?".

Definition one_row_cache : EnrichGpData.world :=
  {| EnrichGpData.requests := [];
     EnrichGpData.map_file := Some [("15E", "A81001")] |}.

Definition commissioned_by (extension : string) : EnrichGpData.json :=
  EnrichGpData.JDict
    [("Organisation",
      EnrichGpData.JDict
        [("Name", EnrichGpData.JStr "A PRACTICE");
         ("Rels",
          EnrichGpData.JDict
            [("Rel",
              EnrichGpData.JList
                [EnrichGpData.JDict
                   [("Status", EnrichGpData.JStr "Inactive");
                    ("id", EnrichGpData.JStr "RE4");
                    ("Target",
                     EnrichGpData.JDict
                       [("OrgId",
                         EnrichGpData.JDict [("extension", EnrichGpData.JStr "00K")])])];
                 EnrichGpData.JDict
                   [("Status", EnrichGpData.JStr "Active");
                    ("id", EnrichGpData.JStr "RE4");
                    ("Target",
                     EnrichGpData.JDict
                       [("OrgId",
                         EnrichGpData.JDict [("extension", EnrichGpData.JStr extension)])])]])])])].

Definition small_registry : EnrichGpData.registry :=
  fun url _ =>
    if String.eqb url (EnrichGpData.api_url "A81003") then
      EnrichGpData.Response {| EnrichGpData.status_code := 200;
                               EnrichGpData.json_body := Some (commissioned_by "16C") |}
    else if String.eqb url (EnrichGpData.api_url "A81004") then
      EnrichGpData.RequestException
    else
      EnrichGpData.Response {| EnrichGpData.status_code := 404;
                               EnrichGpData.json_body := None |}.

Definition supplier_row (code system : string) : pydict string :=
  [("GP_ODS_CODE", code); ("GP_NAME", "A PRACTICE");
   ("GP_GPAD_SYSTEMS", system); ("GP_SYSTEM", system)].

Definition four_rows : list (pydict string) :=
  [supplier_row "A81001" "TPP"; supplier_row "A81002" "EMIS";
   supplier_row "A81003" "TPP"; supplier_row "A81004" "EMIS"].

(** ** The loaded dataset *)

(** A row the lookup loop steps over: it has a code, another one. *)
Definition other_code (code : string) (row : pydict string) : Prop :=
  exists c, dict_get row "GP_ODS_CODE" = Some c /\ c <> code.

Definition has_system (row : pydict string) : Prop :=
  dict_contains row "GP_SYSTEM" = true.

Definition system_of (row : pydict string) : string :=
  default "" (dict_get row "GP_SYSTEM").

(** [system_counts[s] = system_counts.get(s, 0) + 1]. *)
Definition bump (d : pydict nat) (s : string) : pydict nat :=
  dict_set d s (default 0%nat (dict_get d s) + 1)%nat.


(** [round((count / total) * 100, 2)]. *)
Definition percent (count total : nat) : float :=
  round2 (PrimFloat.mul (PrimFloat.div (float_of_nat count) (float_of_nat total)) 100%float).

Definition to_stats (total : nat) (item : string * nat) : string * GpLookup.system_stats :=
  (fst item, {| GpLookup.count := snd item; GpLookup.percentage := percent (snd item) total |}).

Definition practice (code name system : string) : pydict string :=
  [("ICB Sub location", "15E"); ("GP_ODS_CODE", code); ("GP_NAME", name);
   ("GP_GPAD_SYSTEMS", system); ("GP_SYSTEM", system)].

Definition four_practices : GpLookup.dataset :=
  [practice "A81001" "DENSHAM SURGERY" "EMIS";
   practice "A81002" "PARK MEDICAL" "TPP";
   practice "A81003" "VICTORIA ROAD" "VISION";
   practice "A81004" "ACKLAM MEDICAL" "TPP"].

(** ** Replies of the registry *)

(** The reply is a response with status 429, on which the query is
    repeated. *)
Definition is_429 (r : EnrichGpData.reply) : bool :=
  match r with
  | EnrichGpData.Response resp => (EnrichGpData.status_code resp =? 429)%Z
  | EnrichGpData.RequestException => false
  end.

(** The reply [get_commissioner_code] settles on gives no commissioner: no
    response at all, status 404, another status from 400 to 599, or a
    body that is not JSON. *)
Definition rejected (r : EnrichGpData.reply) : Prop :=
  match r with
  | EnrichGpData.RequestException => True
  | EnrichGpData.Response resp =>
      (400 <= EnrichGpData.status_code resp < 600)%Z \/
      EnrichGpData.json_body resp = None
  end.

(** A relationship the loop of [get_commissioner_code] passes over: a
    dict that is not both Active and of type RE4. *)
Definition passed_over (rel : EnrichGpData.json) : Prop :=
  exists items,
    rel = EnrichGpData.JDict items /\
    EnrichGpData.eq_str (default EnrichGpData.JNull (dict_get items "Status")) "Active"
    && EnrichGpData.eq_str (default EnrichGpData.JNull (dict_get items "id")) "RE4" = false.

(** An Active relationship of type RE4 whose target is a dict with a
    dict as OrgId; [extension] is the OrgId's extension, [None] when it
    has none. *)
Definition commissioned (rel extension : EnrichGpData.json) : Prop :=
  exists items target org_id,
    rel = EnrichGpData.JDict items /\
    dict_get items "Status" = Some (EnrichGpData.JStr "Active") /\
    dict_get items "id" = Some (EnrichGpData.JStr "RE4") /\
    dict_get items "Target" = Some (EnrichGpData.JDict target) /\
    target <> [] /\
    dict_get target "OrgId" = Some (EnrichGpData.JDict org_id) /\
    extension = default EnrichGpData.JNull (dict_get org_id "extension").

(** The body of a response with the given relationships. *)
Definition organisation_body (rel : EnrichGpData.json) : EnrichGpData.json :=
  EnrichGpData.JDict
    [("Organisation",
      EnrichGpData.JDict [("Rels", EnrichGpData.JDict [("Rel", rel)])])].

(** Every true entry of the in-memory cache is what a load of the cache
    file gives for its code. *)
Definition cache_backed (str_of : EnrichGpData.json -> string)
    (m : gmap string EnrichGpData.json) (w : EnrichGpData.world) : Prop :=
  forall k v,
    m !! k = Some v -> EnrichGpData.truthy v = true ->
    EnrichGpData.load_map (EnrichGpData.map_file w) !! k
      = Some (EnrichGpData.JStr (EnrichGpData.csv_cell str_of v)).

(** ** Names and systems of the loaded rows *)

Definition has_name (row : pydict string) : Prop :=
  dict_contains row "GP_NAME" = true.

Definition name_of (row : pydict string) : string :=
  default "" (dict_get row "GP_NAME").

(** ** Records of the region files *)

(** What the Normalizer reads of a kept row: its code, and under it its
    name and its raw supplier field. *)
Definition record_of (row : DownloadGpad.csv_row) : string * (string * string) :=
  (gp_code row, (gp_name row, appointments_systems row)).

Definition records (files : list DownloadGpad.csv_file) : list (string * (string * string)) :=
  map record_of (data_rows files).

(** The rows that repeat a code repeat its name and its supplier field. *)
Definition one_record_per_code (recs : list (string * (string * string))) : Prop :=
  forall c v1 v2, In (c, v1) recs -> In (c, v2) recs -> v1 = v2.

Definition shuffled_regions : list DownloadGpad.csv_file :=
  [[["H1"; "H2"; "H3"; "H4"];
    ["_"; "A81002"; "PARK MEDICAL"; "EVERGREENLIFE/EMIS"];
    ["_"; "A81001"; "DENSHAM SURGERY"; "TPP"]];
   [["H1"; "H2"; "H3"; "H4"];
    ["_"; "A81002"; "PARK MEDICAL"; "EVERGREENLIFE/EMIS"; "extra"]]].

Definition ordered_regions : list DownloadGpad.csv_file :=
  [[["H1"; "H2"; "H3"; "H4"];
    ["x"; "A81001"; "DENSHAM SURGERY"; "TPP"]];
   [["H1"; "H2"; "H3"; "H4"];
    ["y"; "A81002"; "PARK MEDICAL"; "EVERGREENLIFE/EMIS"]]].

(** The item of [data] and the item of [gp_code_to_name] a record gives. *)
Definition data_of_record (rec : string * (string * string)) : string * (string * string) :=
  (fst rec, (snd (snd rec), main_system_of (snd (snd rec)))).

Definition name_of_record (rec : string * (string * string)) : string * string :=
  (fst rec, fst (snd rec)).

(** ** Months and dataset files *)

Definition digit (n : nat) : ascii := ascii_of_nat (48 + n).

(** [n] in [width] decimal digits, zeros in front. *)
Fixpoint zero_padded (width n : nat) : string :=
  match width with
  | O => ""
  | S w => String (digit (n / 10 ^ w)) (zero_padded w (n mod 10 ^ w))
  end.

(** [YYYY-MM] for a year and a month. *)
Definition iso_month (ym : nat * nat) : string :=
  zero_padded 4 (fst ym) ++ "-" ++ zero_padded 2 (snd ym).

Definition month_before (a b : nat * nat) : bool :=
  (fst a <? fst b)%nat || ((fst a =? fst b)%nat && (snd a <? snd b)%nat).

(** A year of four digits and a month of two. *)
Definition in_calendar (ym : nat * nat) : Prop :=
  (fst ym < 10 ^ 4)%nat /\ (snd ym < 10 ^ 2)%nat.

Definition dataset_path (dir : string) (ym : nat * nat) : string :=
  path_join dir ("icb_gp_suppliers_" ++ iso_month ym ++ ".csv").

(** ** The server's cache *)

(** A call that touches the two globals: a query tool calling
    [_get_lookup] on the file system of that moment, or
    [_invalidate_cache]. *)
Inductive call : Type :=
| Query (fs : filesystem) (month : option string)
| Invalidate.

Definition no_cache : Server.cache :=
  {| Server._lookup_instance := None; Server._lookup_month := None |}.

Definition apply_call (DATA_DIR : string) (st : Server.cache) (c : call) : Server.cache :=
  match c with
  | Query fs month => snd (Server._get_lookup DATA_DIR fs st month)
  | Invalidate => Server._invalidate_cache st
  end.

(** The globals after a series of calls on a fresh server. *)
Definition after (DATA_DIR : string) (calls : list call) : Server.cache :=
  fold_left (apply_call DATA_DIR) calls no_cache.

(** The file systems the calls saw. *)
Definition snapshots (calls : list call) : list filesystem :=
  flat_map (fun c => match c with Query fs _ => [fs] | Invalidate => [] end) calls.

(** A load from scratch: the file found for the month, read. *)
Definition fresh (DATA_DIR : string) (fs : filesystem) (month : option string)
  : outcome GpLookupFiles.lookup :=
  match Server._find_data_file DATA_DIR fs month with
  | Found data_file => GpLookupFiles.GPSupplierLookup fs (Some data_file)
  | Failed e => Failed e
  end.

Definition month_file (DATA_DIR month : string) : string :=
  path_join DATA_DIR ("icb_gp_suppliers_" ++ month ++ ".csv").

Definition three_months : list (nat * nat) := [(2024, 12); (2025, 2); (2025, 1)].

Definition three_files (dir : string) : filesystem :=
  {| path_exists := fun _ => true;
     glob := fun _ => map (dataset_path dir) three_months;
     read_dicts := fun path => Some [[("GP_ODS_CODE", path)]] |}.

Definition empty_directory : filesystem :=
  {| path_exists := fun _ => false;
     glob := fun _ => [];
     read_dicts := fun _ => None |}.

(** ** Records of the loaded dataset *)

Definition normalized_record (code name systems system : string) : pydict string :=
  [("GP_ODS_CODE", code); ("GP_NAME", name); ("GP_GPAD_SYSTEMS", systems);
   ("GP_SYSTEM", system)].

Definition enriched_record (icb code name systems system : string) : pydict string :=
  ("ICB Sub location", icb) :: normalized_record code name systems system.

(** The record the pipeline makes of an item of the Normalizer's dict. *)
Definition record_of_item (str_of : EnrichGpData.json -> string) (names : pydict string)
    (icb : EnrichGpData.json) (item : string * (string * string)) : pydict string :=
  enriched_record (EnrichGpData.csv_cell str_of icb) (fst item)
                  (default "" (dict_get names (fst item))) (fst (snd item)) (snd (snd item)).

(** ** Month names *)

Definition month_name (m : nat) : string :=
  nth (m - 1) ["january"; "february"; "march"; "april"; "may"; "june"; "july";
               "august"; "september"; "october"; "november"; "december"] "".

Definition month_abbreviation (m : nat) : string :=
  nth (m - 1) ["Jan"; "Feb"; "Mar"; "Apr"; "May"; "Jun"; "Jul"; "Aug"; "Sep"; "Oct";
               "Nov"; "Dec"] "".

(** The end of the names of the region files of a month: the month's
    abbreviation and the last two digits of the year. *)
Definition search_suffix (y m : nat) : string :=
  month_abbreviation m ++ "_" ++ zero_padded 2 (y mod 100) ++ ".csv".

Definition january_listing : list string :=
  ["Practice_Level_Crosstab_Midlands_Jan_25.csv"; "Mapping.csv";
   "Practice_Level_Crosstab_London_Jan_25.csv"; "Practice_Level_Crosstab_London_Feb_25.csv"].

(** ** Texts of the query tools *)

(** The commissioner a practice is counted under. *)
Definition icb_of (row : pydict string) : string :=
  default "Unknown" (dict_get row "ICB Sub location").

Definition breakdown_head (n : nat) (system : string) : list string :=
  [("**" ++ ServerTools.str_of_nat n ++ "** practices use **" ++ system ++ "**"
    ++ ServerTools.NL)%string;
   ("### Breakdown by ICB Sub Location" ++ ServerTools.NL)%string;
   "| ICB Sub Location | Count |";
   "|---|---|"].

Definition breakdown_line (item : string * nat) : string :=
  "| " ++ fst item ++ " | " ++ ServerTools.str_of_nat (snd item) ++ " |".

(** A row with the three columns [_format_practice] reads by index. *)
Definition printable (row : pydict string) : Prop :=
  dict_contains row "GP_NAME" = true /\ dict_contains row "GP_ODS_CODE" = true /\
  dict_contains row "GP_SYSTEM" = true.

Definition cell (row : pydict string) (column : string) : string :=
  default "" (dict_get row column).

(** The text of a practice. *)
Definition practice_text (row : pydict string) : string :=
  ServerTools.str_join ServerTools.NL
    ([("**" ++ cell row "GP_NAME" ++ "** (`" ++ cell row "GP_ODS_CODE" ++ "`)")%string;
      ("- IT System: " ++ cell row "GP_SYSTEM")%string;
      ("- Raw Systems: " ++ default "N/A" (dict_get row "GP_GPAD_SYSTEMS"))%string]
     ++ (if String.eqb (cell row "ICB Sub location") "" then []
         else [("- ICB Sub Location: " ++ cell row "ICB Sub location")%string])).

Definition search_head (n : nat) (name : string) : string :=
  "Found **" ++ ServerTools.str_of_nat n ++ "** practices matching '" ++ name ++ "':"
  ++ ServerTools.NL.

(** The two lines of the [i]-th result. *)
Definition search_entry (numbered_row : nat * pydict string) : list string :=
  [(ServerTools.str_of_nat (fst numbered_row) ++ ". " ++ practice_text (snd numbered_row))%string;
   ""].

Definition more_results_note (n : nat) : string :=
  "*... and " ++ ServerTools.str_of_nat n ++ " more results. "
  ++ "Try a more specific search term.*".

(** The rows of a list with their numbers from [first] on. *)
Definition numbered (first : nat) (rows : list (pydict string)) : list (nat * pydict string) :=
  combine (seq first (length rows)) rows.

Definition data_only (rows : GpLookup.dataset) : filesystem :=
  {| path_exists := fun _ => true;
     glob := fun pattern => [pattern];
     read_dicts := fun _ => Some rows |}.

Definition fifty_one_practices : GpLookup.dataset :=
  repeat (practice "A81002" "PARK MEDICAL" "TPP") 51.

(** * Properties *)

(** ** Canonical supplier resolution *)

Lemma str_split_nonempty sep s : str_split sep s <> [].
Proof.
  destruct s as [|c rest]; simpl; [discriminate|].
  destruct (Ascii.eqb c sep); [discriminate|].
  destruct (str_split sep rest); discriminate.
Qed.

Lemma get_main_system_resolves value :
  exists t, resolveCanonical_code (str_split "/" value) = Some t /\
            Helpers.get_main_system_from_value value = Ok t /\
            In t (str_split "/" value).
Proof.
  unfold Helpers.get_main_system_from_value.
  pose proof (str_split_nonempty "/" value) as Hne.
  destruct (str_split "/" value) as [|a [|b rest]]; [congruence| |].
  - exists a. simpl. auto.
  - simpl. destruct (String.eqb a Helpers.EVERGREENLIFE).
    + exists b. simpl. auto.
    + exists a. destruct (String.eqb b Helpers.EVERGREENLIFE); simpl; auto.
Qed.

(** C1 (as the code has it): for every raw supplier field, the function
    returns without raising exactly one of the field's slash-separated
    tokens: the only token of a one-token field; the second token of any
    field of two or more tokens whose first token is EVERGREENLIFE; the
    first token of every other field (in particular of a two-token field
    whose second token is EVERGREENLIFE).  The four documented examples
    evaluate as stated. *)
Theorem C1_canonical_supplier_resolution :
  (forall value, exists t,
      Helpers.get_main_system_from_value value = Ok t /\
      In t (str_split "/" value) /\
      match str_split "/" value with
      | [] => False
      | [only] => t = only
      | first :: second :: _ =>
          if String.eqb first Helpers.EVERGREENLIFE then t = second else t = first
      end) /\
  Helpers.get_main_system_from_value "EMIS" = Ok "EMIS" /\
  Helpers.get_main_system_from_value "EVERGREENLIFE/TPP" = Ok "TPP" /\
  Helpers.get_main_system_from_value "TPP/EVERGREENLIFE" = Ok "TPP" /\
  Helpers.get_main_system_from_value "EMIS/TPP" = Ok "EMIS".
Proof.
  split; [|repeat split; reflexivity].
  intros value.
  destruct (get_main_system_resolves value) as (t & Hc & Hr & Hin).
  exists t. repeat split; try assumption.
  destruct (str_split "/" value) as [|a [|b rest]]; simpl in Hc.
  - discriminate.
  - congruence.
  - destruct (String.eqb a Helpers.EVERGREENLIFE); congruence.
Qed.

(** C1 as worded fails on a three-token field that starts with
    EVERGREENLIFE: the wording sends it to its first token, the code
    returns the second. *)
Lemma C1_three_tokens_counterexample :
  str_split "/" "EVERGREENLIFE/TPP/EMIS" = ["EVERGREENLIFE"; "TPP"; "EMIS"] /\
  resolveCanonical_spec (str_split "/" "EVERGREENLIFE/TPP/EMIS")
    = Some "EVERGREENLIFE" /\
  Helpers.get_main_system_from_value "EVERGREENLIFE/TPP/EMIS" = Ok "TPP" /\
  ~ (forall value t,
        Helpers.get_main_system_from_value value = Ok t ->
        resolveCanonical_spec (str_split "/" value) = Some t).
Proof.
  repeat split.
  intros H.
  specialize (H "EVERGREENLIFE/TPP/EMIS" "TPP" eq_refl).
  vm_compute in H. discriminate.
Qed.

(** ** Download-link resolution *)

Section DownloadLink.
Import DownloadGpad.

Lemma scan_downloads_skipped downloads :
  Forall skipped downloads -> scan_downloads downloads = Ok None.
Proof.
  induction 1 as [|c rest (t & Ht & Hno) _ IH]; simpl; [reflexivity|].
  now rewrite Ht, Hno.
Qed.

Lemma scan_downloads_app pre rest :
  Forall skipped pre -> scan_downloads (pre ++ rest) = scan_downloads rest.
Proof.
  induction 1 as [|c pre (t & Ht & Hno) _ IH]; simpl; [reflexivity|].
  now rewrite Ht, Hno.
Qed.

Lemma scan_downloads_found downloads href :
  scan_downloads downloads = Ok (Some href) ->
  exists pre d post title,
    downloads = pre ++ d :: post /\ Forall skipped pre /\
    p_text d = Some title /\ is_annex1_csv title = true /\ a_href d = Some href.
Proof.
  induction downloads as [|c rest IH]; simpl; [discriminate|].
  destruct (p_text c) as [t|] eqn:Ht; [|discriminate].
  destruct (is_annex1_csv t) eqn:Hm.
  - destruct (a_href c) as [h|] eqn:Hh; [|discriminate].
    intros [= <-]. exists [], c, rest, t. repeat split; auto.
  - intros Hrest. destruct (IH Hrest) as (pre & d & post & title & -> & Hpre & H1 & H2 & H3).
    exists (c :: pre), d, post, title. repeat split; auto.
    constructor; [exists t; auto | assumption].
Qed.

End DownloadLink.

(** C2 (as the code has it): the resolution returns the link of the first
    download card, in document order, whose title contains both
    "Annex 1" and "CSV", whether or not later cards match too; it fails
    when no card matches, with the "no downloads" error on an empty page
    and the "no Annex 1 CSV" error otherwise. *)
Theorem C2_download_link_first_match (downloads : list DownloadGpad.download_card) :
  (forall href,
      DownloadGpad.get_download_link_from_response downloads = Ok href <->
      exists pre d post title,
        downloads = pre ++ d :: post /\ Forall skipped pre /\
        DownloadGpad.p_text d = Some title /\
        DownloadGpad.is_annex1_csv title = true /\
        DownloadGpad.a_href d = Some href) /\
  (Forall skipped downloads ->
   DownloadGpad.get_download_link_from_response downloads =
     Raise (if (length downloads =? 0)%nat then NoDownloadsFound
            else NoAnnexCsvFound (length downloads))).
Proof.
  unfold DownloadGpad.get_download_link_from_response. split.
  - intros href. split.
    + destruct (DownloadGpad.scan_downloads downloads) as [[h|]|e] eqn:Hscan; simpl.
      * intros [= <-]. now apply scan_downloads_found.
      * destruct (length downloads =? 0)%nat; discriminate.
      * discriminate.
    + intros (pre & d & post & title & -> & Hpre & Ht & Hm & Hh).
      rewrite (scan_downloads_app _ _ Hpre). simpl. now rewrite Ht, Hm, Hh.
  - intros Hall. rewrite (scan_downloads_skipped _ Hall). simpl.
    destruct (length downloads =? 0)%nat; reflexivity.
Qed.

Lemma C2_download_link_witness :
  DownloadGpad.get_download_link_from_response
    [annex_card "Annex 2 (Excel)" "u0"; annex_card "Annex 1 (CSV)" "u1"]
  = Ok (Some "u1") /\
  DownloadGpad.get_download_link_from_response [annex_card "Annex 2 (Excel)" "u0"]
  = Raise (NoAnnexCsvFound 1).
Proof.
  split.
  - apply (proj1 (C2_download_link_first_match _)).
    exists [annex_card "Annex 2 (Excel)" "u0"], (annex_card "Annex 1 (CSV)" "u1"), [], "Annex 1 (CSV)".
    repeat split. repeat constructor. exists "Annex 2 (Excel)". split; reflexivity.
  - apply (proj2 (C2_download_link_first_match [annex_card "Annex 2 (Excel)" "u0"])).
    repeat constructor. exists "Annex 2 (Excel)". split; reflexivity.
Defined.

(** C2 as worded fails when two cards match: the first one's link is
    returned and no error is raised. *)
Lemma C2_two_matches_counterexample :
  let downloads := [annex_card "Annex 1 (CSV)" "u1"; annex_card "Annex 1 - CSV, old" "u2"] in
  length (matching_cards downloads) = 2%nat /\
  DownloadGpad.get_download_link_from_response downloads = Ok (Some "u1") /\
  ~ (forall ds, length (matching_cards ds) <> 1%nat ->
                is_ok (DownloadGpad.get_download_link_from_response ds) = false).
Proof.
  cbv zeta. repeat split.
  intros H.
  specialize (H [annex_card "Annex 1 (CSV)" "u1"; annex_card "Annex 1 - CSV, old" "u2"]).
  vm_compute in H. specialize (H ltac:(discriminate)). discriminate.
Qed.

(** ** Dicts *)

Section DictFacts.
Context {V : Type}.
Implicit Types (d : pydict V) (k : string) (v : V).

Lemma dict_get_cons d k k' v :
  dict_get ((k', v) :: d) k = if String.eqb k' k then Some v else dict_get d k.
Proof. unfold dict_get. simpl. destruct (String.eqb k' k); reflexivity. Qed.

Lemma dict_get_set_eq d k v : dict_get (dict_set d k v) k = Some v.
Proof.
  induction d as [|[k' v'] d IH]; simpl.
  - now rewrite dict_get_cons, String.eqb_refl.
  - destruct (String.eqb k' k) eqn:E; rewrite dict_get_cons, E; auto.
Qed.

Lemma dict_get_set_ne d k k' v :
  k <> k' -> dict_get (dict_set d k v) k' = dict_get d k'.
Proof.
  intros Hne. induction d as [|[k0 v0] d IH]; simpl.
  - rewrite dict_get_cons. apply String.eqb_neq in Hne. now rewrite Hne.
  - destruct (String.eqb k0 k) eqn:E.
    + apply String.eqb_eq in E. subst k0. rewrite !dict_get_cons.
      apply String.eqb_neq in Hne. now rewrite Hne.
    + rewrite !dict_get_cons. now rewrite IH.
Qed.

Lemma dict_get_None_keys d k : dict_get d k = None <-> ~ In k (dict_keys d).
Proof.
  induction d as [|[k' v'] d IH]; simpl.
  - split; auto.
  - rewrite dict_get_cons. destruct (String.eqb k' k) eqn:E.
    + apply String.eqb_eq in E. split; [discriminate | intros H; exfalso; auto].
    + apply String.eqb_neq in E. rewrite IH. tauto.
Qed.

Lemma dict_get_Some_In d k v : dict_get d k = Some v -> In (k, v) d.
Proof.
  induction d as [|[k' v'] d IH]; simpl; [discriminate|].
  rewrite dict_get_cons. destruct (String.eqb k' k) eqn:E.
  - apply String.eqb_eq in E. intros [= ->]. left. now subst.
  - auto.
Qed.

Lemma dict_get_In_NoDup d k v :
  List.NoDup (dict_keys d) -> In (k, v) d -> dict_get d k = Some v.
Proof.
  induction d as [|[k' v'] d IH]; simpl; [tauto|].
  intros Hnd Hin. inversion Hnd as [|? ? Hnotin Hnd']; subst.
  rewrite dict_get_cons. destruct Hin as [[= -> ->]|Hin].
  - now rewrite String.eqb_refl.
  - destruct (String.eqb k' k) eqn:E; [|auto].
    apply String.eqb_eq in E. subst k'. exfalso. apply Hnotin.
    change k with (fst (k, v)). now apply in_map.
Qed.

Lemma dict_set_absent d k v :
  dict_get d k = None -> dict_set d k v = d ++ [(k, v)].
Proof.
  induction d as [|[k' v'] d IH]; simpl; [reflexivity|].
  rewrite dict_get_cons. destruct (String.eqb k' k); [discriminate|].
  intros H. now rewrite IH.
Qed.

Lemma dict_of_items_acc (items acc : pydict V) :
  List.NoDup (dict_keys (acc ++ items)) ->
  fold_left (fun d kv => dict_set d (fst kv) (snd kv)) items acc = acc ++ items.
Proof.
  revert acc. induction items as [|[k v] items IH]; intros acc Hnd; simpl.
  - now rewrite app_nil_r.
  - rewrite dict_set_absent.
    + rewrite IH; rewrite <- app_assoc; [reflexivity | exact Hnd].
    + apply dict_get_None_keys. unfold dict_keys in *. rewrite map_app in Hnd. simpl in Hnd.
      apply NoDup_remove_2 in Hnd. intros Hin. apply Hnd. apply in_or_app. now left.
Qed.

Lemma dict_of_items_NoDup (items : pydict V) :
  List.NoDup (dict_keys items) -> dict_of_items items = items.
Proof. intros H. unfold dict_of_items. now rewrite dict_of_items_acc. Qed.

End DictFacts.

(** ** The order of strings *)

Section StringOrder.

Lemma ascii_compare_refl c : Ascii.compare c c = Eq.
Proof. unfold Ascii.compare. apply N.compare_refl. Qed.

Lemma ascii_compare_lt_trans a b c :
  Ascii.compare a b = Lt -> Ascii.compare b c = Lt -> Ascii.compare a c = Lt.
Proof.
  unfold Ascii.compare. rewrite !N.compare_lt_iff. apply N.lt_trans.
Qed.

Lemma string_compare_refl s : String.compare s s = Eq.
Proof. induction s as [|c s IH]; simpl; [reflexivity|]. now rewrite ascii_compare_refl. Qed.

Lemma string_compare_lt_trans s1 : forall s2 s3,
  String.compare s1 s2 = Lt -> String.compare s2 s3 = Lt -> String.compare s1 s3 = Lt.
Proof.
  induction s1 as [|c1 s1 IH]; intros [|c2 s2] [|c3 s3]; simpl; try discriminate; auto.
  destruct (Ascii.compare c1 c2) eqn:E12; try discriminate;
    destruct (Ascii.compare c2 c3) eqn:E23; try discriminate; intros H1 H2.
  - apply Ascii.compare_eq_iff in E12, E23. subst. rewrite ascii_compare_refl. eauto.
  - apply Ascii.compare_eq_iff in E12. subst. now rewrite E23.
  - apply Ascii.compare_eq_iff in E23. subst. now rewrite E12.
  - now rewrite (ascii_compare_lt_trans _ _ _ E12 E23).
Qed.

Lemma string_ltb_irrefl s : String.ltb s s = false.
Proof. unfold String.ltb. now rewrite string_compare_refl. Qed.

Lemma string_ltb_trans s1 s2 s3 :
  String.ltb s1 s2 = true -> String.ltb s2 s3 = true -> String.ltb s1 s3 = true.
Proof.
  unfold String.ltb. intros H1 H2.
  destruct (String.compare s1 s2) eqn:E1; try discriminate.
  destruct (String.compare s2 s3) eqn:E2; try discriminate.
  now rewrite (string_compare_lt_trans _ _ _ E1 E2).
Qed.

Lemma string_ltb_asym s1 s2 : String.ltb s1 s2 = true -> String.ltb s2 s1 = false.
Proof.
  unfold String.ltb. rewrite (String.compare_antisym s1 s2).
  destruct (String.compare s2 s1); simpl; congruence.
Qed.

Lemma string_ltb_total s1 s2 :
  String.ltb s2 s1 = false -> s1 <> s2 -> String.ltb s1 s2 = true.
Proof.
  unfold String.ltb. rewrite (String.compare_antisym s1 s2).
  destruct (String.compare s2 s1) eqn:E; simpl; try congruence.
  apply String.compare_eq_iff in E. congruence.
Qed.

End StringOrder.

(** ** The stable sort *)

Section SortedFacts.
Context {A : Type}.
Implicit Types (lt : A -> A -> bool) (l : list A).

Lemma sorted_insert_perm lt x l : Permutation (sorted_insert lt x l) (x :: l).
Proof.
  induction l as [|y l IH]; simpl; [reflexivity|].
  destruct (lt y x); [|reflexivity].
  rewrite IH. apply perm_swap.
Qed.

Lemma sorted_perm lt l : Permutation (sorted lt l) l.
Proof.
  induction l as [|x l IH]; simpl; [reflexivity|].
  rewrite sorted_insert_perm. now constructor.
Qed.

Lemma sorted_In lt l x : In x (sorted lt l) <-> In x l.
Proof.
  split; apply Permutation_in; [|symmetry]; apply sorted_perm.
Qed.

Lemma sorted_insert_ext lt lt' x l :
  (forall y, In y l -> lt y x = lt' y x) ->
  sorted_insert lt x l = sorted_insert lt' x l.
Proof.
  induction l as [|y l IH]; simpl; intros H; [reflexivity|].
  rewrite <- (H y) by auto. destruct (lt y x); [|reflexivity].
  f_equal. apply IH. auto.
Qed.

(** Two orders that agree on the elements of a list sort it alike. *)
Lemma sorted_ext lt lt' l :
  (forall x y, In x l -> In y l -> lt x y = lt' x y) ->
  sorted lt l = sorted lt' l.
Proof.
  induction l as [|x l IH]; simpl; intros H; [reflexivity|].
  rewrite <- IH by auto.
  apply sorted_insert_ext. intros y Hy. apply H; [right|left; reflexivity].
  now apply (sorted_In lt).
Qed.

Section Ordered.
Variable lt : A -> A -> bool.
Hypothesis lt_asym : forall x y, lt x y = true -> lt y x = false.
Hypothesis ge_trans :
  forall x y z, lt y x = false -> lt z y = false -> lt z x = false.

(** [x] is not above [y]: what holds of [x] before [y] in a sorted list. *)
Let not_above (x y : A) : Prop := lt y x = false.

Lemma sorted_insert_sorted x l :
  StronglySorted not_above l -> StronglySorted not_above (sorted_insert lt x l).
Proof.
  induction 1 as [|y l Hl IH Hy]; simpl.
  - repeat constructor.
  - destruct (lt y x) eqn:E.
    + constructor; [exact IH|].
      rewrite List.Forall_forall in *. intros z Hz.
      apply (Permutation_in _ (sorted_insert_perm lt x l)) in Hz.
      destruct Hz as [<-|Hz]; [now apply lt_asym | auto].
    + constructor; [now constructor|].
      constructor; [exact E|].
      rewrite List.Forall_forall in *. intros z Hz. unfold not_above.
      apply ge_trans with y; auto. now apply Hy.
Qed.

Lemma sorted_sorted l : StronglySorted not_above (sorted lt l).
Proof.
  induction l as [|x l IH]; simpl; [constructor|].
  now apply sorted_insert_sorted.
Qed.

End Ordered.



End SortedFacts.

(** ** The Normalizer *)

Section SetDefault.
Context {V : Type}.
Implicit Types (d : pydict V) (k : string) (v : V).

Lemma dict_contains_keys d k : dict_contains d k = true <-> In k (dict_keys d).
Proof.
  unfold dict_contains. pose proof (dict_get_None_keys d k) as H.
  destruct (dict_get d k).
  - split; [intros _|auto]. destruct (in_dec string_dec k (dict_keys d)) as [Hin|Hout]; auto.
    apply H in Hout. discriminate.
  - split; [discriminate|]. intros Hin. exfalso. now apply H.
Qed.

Lemma setdefault_keys d k v :
  dict_keys (setdefault d k v) =
  if dict_contains d k then dict_keys d else dict_keys d ++ [k].
Proof.
  unfold setdefault, dict_contains.
  destruct (dict_get d k) eqn:E; simpl; [reflexivity|].
  rewrite dict_set_absent by assumption. unfold dict_keys. now rewrite map_app.
Qed.

Lemma setdefault_get_same d k v :
  dict_get (setdefault d k v) k =
  match dict_get d k with Some v0 => Some v0 | None => Some v end.
Proof.
  unfold setdefault, dict_contains.
  destruct (dict_get d k) eqn:E; simpl; [exact E | apply dict_get_set_eq].
Qed.

Lemma setdefault_get_other d k k' v :
  k <> k' -> dict_get (setdefault d k v) k' = dict_get d k'.
Proof.
  intros Hne. unfold setdefault.
  destruct (negb (dict_contains d k)); [now apply dict_get_set_ne | reflexivity].
Qed.

Lemma setdefault_NoDup d k v :
  List.NoDup (dict_keys d) -> List.NoDup (dict_keys (setdefault d k v)).
Proof.
  intros Hnd. rewrite setdefault_keys.
  destruct (dict_contains d k) eqn:E; [assumption|].
  apply List.NoDup_app; auto.
  - repeat constructor. simpl. tauto.
  - intros x Hx [<-|[]]. apply dict_contains_keys in Hx. congruence.
Qed.

Lemma setdefaults_NoDup kvs d :
  List.NoDup (dict_keys d) -> List.NoDup (dict_keys (setdefaults kvs d)).
Proof.
  revert d. induction kvs as [|[k v] kvs IH]; intros d Hnd; simpl; [assumption|].
  apply IH. now apply setdefault_NoDup.
Qed.

Lemma setdefaults_keep kvs d k v :
  dict_get d k = Some v -> dict_get (setdefaults kvs d) k = Some v.
Proof.
  revert d. induction kvs as [|[k0 v0] kvs IH]; intros d Hd; simpl; [assumption|].
  apply IH. destruct (string_dec k0 k) as [->|Hne].
  - rewrite setdefault_get_same. now rewrite Hd.
  - now rewrite setdefault_get_other.
Qed.

(** First wins: the first pair of [kvs] for a key absent from [d] decides
    the key's value, whatever follows. *)
Lemma setdefaults_first pre k v post d :
  ~ In k (map fst pre) -> dict_get d k = None ->
  dict_get (setdefaults (pre ++ (k, v) :: post) d) k = Some v.
Proof.
  revert d. induction pre as [|[k0 v0] pre IH]; intros d Hpre Hd; simpl.
  - apply setdefaults_keep. rewrite setdefault_get_same. now rewrite Hd.
  - simpl in Hpre. apply IH; [tauto|].
    rewrite setdefault_get_other; [assumption | tauto].
Qed.

Lemma setdefaults_keys_In kvs d k :
  In k (dict_keys (setdefaults kvs d)) <-> In k (dict_keys d) \/ In k (map fst kvs).
Proof.
  revert d. induction kvs as [|[k0 v0] kvs IH]; intros d; simpl; [tauto|].
  rewrite IH, setdefault_keys.
  destruct (dict_contains d k0) eqn:E.
  - apply dict_contains_keys in E. split; [tauto|]. intros [H|[<-|H]]; auto.
  - rewrite in_app_iff. simpl. tauto.
Qed.

End SetDefault.

Lemma setdefaults_same_keys {V W} (kvs : list (string * V)) (kws : list (string * W))
    (d : pydict V) (e : pydict W) :
  map fst kvs = map fst kws -> dict_keys d = dict_keys e ->
  dict_keys (setdefaults kvs d) = dict_keys (setdefaults kws e).
Proof.
  revert kws d e. induction kvs as [|[k v] kvs IH]; intros [|[k' w] kws] d e Hk Hd;
    simpl in *; try discriminate; [assumption|].
  injection Hk as -> Hk. apply IH; [assumption|].
  rewrite !setdefault_keys.
  assert (dict_contains d k' = dict_contains e k') as ->.
  { apply eq_true_iff_eq. rewrite !dict_contains_keys. now rewrite Hd. }
  destruct (dict_contains e k'); now rewrite Hd.
Qed.

Section Normalizer.
Import DownloadGpad.

Lemma get_main_system_total value :
  Helpers.get_main_system_from_value value = Ok (main_system_of value).
Proof.
  destruct (get_main_system_resolves value) as (t & Hc & Hr & _).
  unfold main_system_of. now rewrite Hc.
Qed.

Lemma index_nth (row : csv_row) i :
  (i < length row)%nat -> list_getitem row i = Ok (nth i row "").
Proof.
  intros Hi. unfold list_getitem.
  destruct (nth_error row i) eqn:E.
  - now rewrite (nth_error_nth _ _ _ E).
  - apply nth_error_None in E. lia.
Qed.

Lemma process_row_kept st idx row :
  idx <> 0%nat -> long_enough row = true -> process_row st idx row = Ok (absorb st row).
Proof.
  intros Hidx Hlen. unfold process_row, long_enough in *. destruct st as [data names].
  apply Nat.eqb_neq in Hidx. rewrite Hidx.
  apply negb_true_iff in Hlen. rewrite Hlen. apply Nat.ltb_ge in Hlen.
  rewrite !index_nth by lia. simpl.
  rewrite get_main_system_total. reflexivity.
Qed.

Lemma process_row_skipped st idx row :
  long_enough row = false -> process_row st idx row = Ok st.
Proof.
  intros Hlen. unfold process_row, long_enough in *. destruct st as [data names].
  apply negb_false_iff in Hlen. rewrite Hlen. now destruct (idx =? 0)%nat.
Qed.

Lemma process_rows_body st idx rows :
  process_rows st (S idx) rows = Ok (fold_left absorb (List.filter long_enough rows) st).
Proof.
  revert st idx. induction rows as [|row rows IH]; intros st idx; simpl; [reflexivity|].
  destruct (long_enough row) eqn:E.
  - rewrite process_row_kept by auto. simpl. apply IH.
  - rewrite process_row_skipped by auto. simpl. apply IH.
Qed.

Lemma process_rows_file st file :
  process_rows st 0 file = Ok (fold_left absorb (List.filter long_enough (tl file)) st).
Proof.
  destruct file as [|header rows]; simpl; [reflexivity|].
  destruct st as [data names]. simpl. apply process_rows_body.
Qed.

Lemma process_files_fold st files :
  process_files st files = Ok (fold_left absorb (data_rows files) st).
Proof.
  revert st. induction files as [|file files IH]; intros st; simpl; [reflexivity|].
  rewrite process_rows_file. simpl. rewrite IH.
  unfold data_rows. simpl. now rewrite fold_left_app.
Qed.

Lemma absorb_fold rows st :
  fold_left absorb rows st =
  (setdefaults (map data_item rows) (fst st), setdefaults (map name_item rows) (snd st)).
Proof.
  revert st. induction rows as [|row rows IH]; intros [data names]; simpl; [reflexivity|].
  now rewrite IH.
Qed.

Lemma raw_keys_agree files : dict_keys (raw_data files) = dict_keys (raw_names files).
Proof.
  apply setdefaults_same_keys; [|reflexivity].
  rewrite !map_map. reflexivity.
Qed.

Lemma raw_data_NoDup files : List.NoDup (dict_keys (raw_data files)).
Proof. apply setdefaults_NoDup. constructor. Qed.

Lemma item_lt_keys (x y : string * (string * string)) (d : pydict (string * string)) :
  List.NoDup (dict_keys d) -> In x d -> In y d ->
  item_lt x y = String.ltb (fst x) (fst y).
Proof.
  intros Hnd Hx Hy. unfold item_lt.
  destruct (String.eqb (fst x) (fst y)) eqn:E; [|reflexivity].
  apply String.eqb_eq in E. destruct x as [k v], y as [k' v']. simpl in *. subst k'.
  apply (dict_get_In_NoDup _ _ _ Hnd) in Hx, Hy.
  assert (v = v') as -> by congruence.
  rewrite string_ltb_irrefl. unfold pair_lt.
  rewrite String.eqb_refl. apply string_ltb_irrefl.
Qed.

Lemma sorted_items_keys (d : pydict (string * string)) :
  List.NoDup (dict_keys d) -> sorted item_lt d = sorted key_lt d.
Proof. intros Hnd. apply sorted_ext. intros x y. now apply item_lt_keys. Qed.

Lemma key_ge_trans (x y z : string * (string * string)) :
  key_lt y x = false -> key_lt z y = false -> key_lt z x = false.
Proof.
  unfold key_lt. intros H1 H2.
  destruct (String.ltb (fst z) (fst x)) eqn:E; [|reflexivity].
  destruct (string_dec (fst x) (fst y)) as [Hxy|Hxy]; [congruence|].
  pose proof (string_ltb_total _ _ H1 Hxy) as Hlt.
  rewrite (string_ltb_trans _ _ _ E Hlt) in H2. discriminate.
Qed.

(** The sorted items have strictly ascending codes. *)
Lemma sorted_items_ascending (d : pydict (string * string)) :
  List.NoDup (dict_keys d) ->
  StronglySorted (fun a b => String.ltb a b = true) (dict_keys (sorted item_lt d)).
Proof.
  intros Hnd. rewrite sorted_items_keys by assumption.
  assert (List.NoDup (dict_keys (sorted key_lt d))) as Hnd'.
  { eapply Permutation_NoDup; [|exact Hnd].
    apply Permutation_map. symmetry. apply sorted_perm. }
  pose proof (sorted_sorted key_lt
                (fun x y => string_ltb_asym (fst x) (fst y)) key_ge_trans d) as Hs.
  induction Hs as [|x l Hl IH Hx]; simpl; [constructor|].
  inversion Hnd' as [|? ? Hnotin Hnd'']; subst.
  constructor; [now apply IH|].
  rewrite List.Forall_forall in *. intros k Hk.
  apply in_map_iff in Hk. destruct Hk as (y & <- & Hy).
  apply string_ltb_total; [now apply Hx|].
  intros Heq. apply Hnotin. rewrite Heq. now apply in_map.
Qed.

Lemma process_data_files_eq files :
  process_data_files files = Ok (sorted item_lt (raw_data files), raw_names files).
Proof.
  unfold process_data_files. rewrite process_files_fold, absorb_fold. simpl.
  fold (raw_data files). fold (raw_names files).
  rewrite dict_of_items_NoDup; [reflexivity|].
  eapply Permutation_NoDup; [|apply (raw_data_NoDup files)].
  apply Permutation_map. symmetry. apply sorted_perm.
Qed.

Lemma write_rows_ok (items : pydict (string * string)) (names : pydict string) :
  (forall k, In k (dict_keys items) -> In k (dict_keys names)) ->
  write_rows items names = Ok (map (output_row names) items).
Proof.
  induction items as [|[k [a m]] items IH]; intros Hk; simpl; [reflexivity|].
  unfold dict_getitem.
  destruct (dict_get names k) as [n|] eqn:E.
  - simpl. rewrite IH by (intros; apply Hk; now right). simpl.
    unfold output_row. simpl. now rewrite E.
  - apply dict_get_None_keys in E. exfalso. apply E, Hk. now left.
Qed.

Lemma normalize_and_write_eq files :
  normalize_and_write files =
  Ok (OUTPUT_HEADER :: map (output_row (raw_names files)) (sorted item_lt (raw_data files))).
Proof.
  unfold normalize_and_write. rewrite process_data_files_eq. simpl.
  unfold write_output_file. rewrite write_rows_ok; [reflexivity|].
  intros k Hk. rewrite <- raw_keys_agree.
  unfold dict_keys in *. apply in_map_iff in Hk. destruct Hk as (x & <- & Hx).
  apply in_map. now apply (sorted_In item_lt).
Qed.

End Normalizer.

Lemma dict_get_sorted {V} (lt : string * V -> string * V -> bool) (d : pydict V) k :
  List.NoDup (dict_keys d) -> dict_get (sorted lt d) k = dict_get d k.
Proof.
  intros Hnd.
  assert (List.NoDup (dict_keys (sorted lt d))) as Hnd'.
  { eapply Permutation_NoDup; [|exact Hnd].
    apply Permutation_map. symmetry. apply sorted_perm. }
  destruct (dict_get d k) as [v|] eqn:E.
  - apply dict_get_In_NoDup; [assumption|].
    apply sorted_In. now apply dict_get_Some_In.
  - apply dict_get_None_keys. apply dict_get_None_keys in E.
    intros Hin. apply E. unfold dict_keys in *.
    apply in_map_iff in Hin. destruct Hin as (x & <- & Hx).
    apply in_map. exact (proj1 (sorted_In lt _ _) Hx).
Qed.

Lemma data_keys_codes files c :
  In c (dict_keys (sorted item_lt (raw_data files))) <->
  In c (map gp_code (data_rows files)).
Proof.
  transitivity (In c (dict_keys (raw_data files))).
  - unfold dict_keys. rewrite !in_map_iff.
    split; intros (x & Hx & Hin); exists x; split; auto.
    + now apply (proj1 (sorted_In item_lt _ _)).
    + now apply (proj2 (sorted_In item_lt _ _)).
  - unfold raw_data. rewrite setdefaults_keys_In, map_map. simpl. tauto.
Qed.

Lemma sorted_data_NoDup files : List.NoDup (dict_keys (sorted item_lt (raw_data files))).
Proof.
  eapply Permutation_NoDup; [|apply (raw_data_NoDup files)].
  apply Permutation_map. symmetry. apply sorted_perm.
Qed.

(** Of two distinct keys of a dict without repeated keys, the keys that
    are one of the two are these two, in the dict's order. *)
Lemma two_keys_filter (keys : list string) (a b : string) :
  List.NoDup keys -> In a keys -> In b keys -> a <> b ->
  List.filter (fun k => String.eqb k a || String.eqb k b) keys = [a; b] \/
  List.filter (fun k => String.eqb k a || String.eqb k b) keys = [b; a].
Proof.
  assert (forall l c d, ~ In c l -> ~ In d l ->
            List.filter (fun k => String.eqb k c || String.eqb k d) l = []) as Hnone.
  { induction l as [|x l IH]; intros c d Hc Hd; [reflexivity|]. simpl in *.
    assert (String.eqb x c = false) as -> by (apply String.eqb_neq; tauto).
    assert (String.eqb x d = false) as -> by (apply String.eqb_neq; tauto).
    simpl. apply IH; tauto. }
  assert (forall l c d, List.NoDup l -> In c l -> ~ In d l ->
            List.filter (fun k => String.eqb k c || String.eqb k d) l = [c]) as Hsingle.
  { induction l as [|x l IH]; intros c d Hnd Hc Hd; [destruct Hc|]. simpl in *.
    inversion Hnd as [|? ? Hx Hnd']; subst.
    assert (String.eqb x d = false) as -> by (apply String.eqb_neq; tauto).
    destruct (String.eqb x c) eqn:E; simpl.
    - apply String.eqb_eq in E. subst x. f_equal. apply Hnone; tauto.
    - apply String.eqb_neq in E. apply IH; tauto. }
  induction keys as [|x keys IH]; intros Hnd Ha Hb Hne; [destruct Ha|].
  inversion Hnd as [|? ? Hx Hnd']; subst. simpl.
  destruct (String.eqb x a) eqn:Ea; simpl.
  - apply String.eqb_eq in Ea. subst x. left. f_equal.
    destruct Hb as [Hb|Hb]; [congruence|].
    rewrite (filter_ext _ (fun k => String.eqb k b || String.eqb k a))
      by (intros k; apply orb_comm).
    now apply Hsingle.
  - apply String.eqb_neq in Ea. destruct (String.eqb x b) eqn:Eb; simpl.
    + apply String.eqb_eq in Eb. subst x. right. f_equal.
      destruct Ha as [Ha|Ha]; [congruence|]. now apply Hsingle.
    + apply String.eqb_neq in Eb. apply IH; try assumption.
      * destruct Ha; [congruence | assumption].
      * destruct Hb; [congruence | assumption].
Qed.

(** C5 (as the code has it): the Normalizer keeps every ODS code exactly
    as the input row spells it and never changes its case.  The key is
    case-sensitive and unique: a string is a key of the output exactly
    when a kept input row carries it, every code a kept row carries has
    one entry in the dict and one row in the written file, the written
    rows carry the keys as they are, and two kept rows whose codes
    differ - in letter case only, or otherwise - give two records, one
    under each spelling. *)
Theorem C5_ods_code_kept_verbatim (files : list DownloadGpad.csv_file) :
  exists data names rows,
    DownloadGpad.process_data_files files = Ok (data, names) /\
    List.NoDup (dict_keys data) /\
    (forall c, In c (dict_keys data) <->
               In c (map gp_code (data_rows files))) /\
    DownloadGpad.normalize_and_write files = Ok (DownloadGpad.OUTPUT_HEADER :: rows) /\
    map (fun r => nth 0 r "") rows = dict_keys data /\
    (forall r, In r (data_rows files) ->
               count_occ string_dec (dict_keys data) (gp_code r) = 1%nat /\
               count_occ string_dec (map (fun r => nth 0 r "") rows) (gp_code r) = 1%nat) /\
    (forall r1 r2,
        In r1 (data_rows files) -> In r2 (data_rows files) ->
        gp_code r1 <> gp_code r2 ->
        List.filter (fun k => String.eqb k (gp_code r1) || String.eqb k (gp_code r2))
                    (dict_keys data)
        = [gp_code r1; gp_code r2] \/
        List.filter (fun k => String.eqb k (gp_code r1) || String.eqb k (gp_code r2))
                    (dict_keys data)
        = [gp_code r2; gp_code r1]).
Proof.
  set (data := sorted item_lt (raw_data files)).
  assert (forall r, In r (data_rows files) ->
                    count_occ string_dec (dict_keys data) (gp_code r) = 1%nat) as Hone.
  { intros r Hr. apply NoDup_count_occ'; [apply sorted_data_NoDup|].
    apply data_keys_codes. now apply in_map. }
  exists data, (raw_names files), (map (output_row (raw_names files)) data).
  split; [apply process_data_files_eq|].
  split; [apply sorted_data_NoDup|].
  split; [intros c; apply data_keys_codes|].
  split; [apply normalize_and_write_eq|].
  assert (map (fun r => nth 0 r "") (map (output_row (raw_names files)) data)
          = dict_keys data) as Hcodes by (rewrite map_map; reflexivity).
  split; [exact Hcodes|].
  split; [intros r Hr; rewrite Hcodes; auto|].
  intros r1 r2 H1 H2 Hne.
  apply two_keys_filter; [apply sorted_data_NoDup | | | exact Hne];
    apply data_keys_codes; now apply in_map.
Qed.

(** C5 as worded fails, in both its parts, on two rows that spell one
    code in two cases: both spellings are output, the lower-case one
    unchanged, where the wording wants the single record A81001. *)
Lemma C5_case_counterexample :
  str_upper "a81001" = "A81001" /\
  data_rows two_spellings =
    [["_"; "a81001"; "DENSHAM SURGERY"; "TPP"]; ["_"; "A81001"; "DENSHAM SURGERY"; "TPP"]] /\
  DownloadGpad.normalize_and_write two_spellings =
    Ok [DownloadGpad.OUTPUT_HEADER;
        ["A81001"; "DENSHAM SURGERY"; "TPP"; "TPP"];
        ["a81001"; "DENSHAM SURGERY"; "TPP"; "TPP"]] /\
  ~ (forall files data names,
        DownloadGpad.process_data_files files = Ok (data, names) ->
        Forall (fun c => str_upper c = c) (dict_keys data)) /\
  ~ (forall files data names,
        DownloadGpad.process_data_files files = Ok (data, names) ->
        upper_case_keys_spec data) /\
  ~ (forall files data names,
        DownloadGpad.process_data_files files = Ok (data, names) ->
        case_insensitive_key_spec files data).
Proof.
  assert (~ (forall files data names,
                DownloadGpad.process_data_files files = Ok (data, names) ->
                Forall (fun c => str_upper c = c) (dict_keys data))) as Hupper.
  { intros H. specialize (H two_spellings _ _ eq_refl).
    vm_compute in H. inversion H as [|? ? _ Hrest]. inversion Hrest as [|? ? Hlow _].
    discriminate. }
  split; [reflexivity|]. split; [reflexivity|]. split; [reflexivity|].
  split; [exact Hupper|]. split; [exact Hupper|].
  intros H.
  specialize (H two_spellings _ _ eq_refl
                ["_"; "a81001"; "DENSHAM SURGERY"; "TPP"]
                ["_"; "A81001"; "DENSHAM SURGERY"; "TPP"]).
  assert (List.filter
            (fun k => String.eqb (str_upper k) (str_upper "a81001"))
            ["A81001"; "a81001"] = ["A81001"; "a81001"]) as Htwo by reflexivity.
  cbv beta in H.
  assert (List.filter
            (fun k => String.eqb (str_upper k)
                        (str_upper (gp_code ["_"; "a81001"; "DENSHAM SURGERY"; "TPP"])))
            (dict_keys [("A81001", ("TPP", "TPP")); ("a81001", ("TPP", "TPP"))])
          = [str_upper (gp_code ["_"; "a81001"; "DENSHAM SURGERY"; "TPP"])]) as Hone.
  { apply H.
    - left. reflexivity.
    - right. left. reflexivity.
    - discriminate.
    - reflexivity. }
  vm_compute in Hone. discriminate.
Qed.

(** C6: when several kept rows carry one ODS code, the output holds the
    practice name, the raw supplier field and the canonical supplier of
    the first of them in file-then-row order, whatever the later rows
    say; the code has one entry in the output map and one row in the
    written file. *)
Theorem C6_deduplication_first_wins (files : list DownloadGpad.csv_file)
    (pre post : list DownloadGpad.csv_row) (row : DownloadGpad.csv_row) :
  data_rows files = pre ++ row :: post ->
  ~ In (gp_code row) (map gp_code pre) ->
  exists data names main_system rows,
    DownloadGpad.process_data_files files = Ok (data, names) /\
    Helpers.get_main_system_from_value (appointments_systems row) = Ok main_system /\
    dict_get data (gp_code row) = Some (appointments_systems row, main_system) /\
    dict_get names (gp_code row) = Some (gp_name row) /\
    count_occ string_dec (dict_keys data) (gp_code row) = 1%nat /\
    DownloadGpad.normalize_and_write files = Ok (DownloadGpad.OUTPUT_HEADER :: rows) /\
    (forall r, In r rows ->
       nth 0 r "" = gp_code row <->
       r = [gp_code row; gp_name row; appointments_systems row; main_system]) /\
    count_occ (List.list_eq_dec string_dec) rows
      [gp_code row; gp_name row; appointments_systems row; main_system] = 1%nat.
Proof.
  intros Hrows Hfirst.
  set (data := sorted item_lt (raw_data files)).
  set (names := raw_names files).
  exists data, names, (main_system_of (appointments_systems row)),
         (map (output_row names) data).
  assert (dict_get data (gp_code row) =
          Some (appointments_systems row, main_system_of (appointments_systems row)))
    as Hdata.
  { unfold data. rewrite dict_get_sorted by apply raw_data_NoDup.
    unfold raw_data. rewrite Hrows, map_app. simpl.
    apply (setdefaults_first (map data_item pre)); [|reflexivity].
    now rewrite map_map. }
  assert (dict_get names (gp_code row) = Some (gp_name row)) as Hname.
  { unfold names, raw_names. rewrite Hrows, map_app. simpl.
    apply (setdefaults_first (map name_item pre)); [|reflexivity].
    now rewrite map_map. }
  assert (map (fun r => nth 0 r "") (map (output_row names) data) = dict_keys data)
    as Hcodes by (rewrite map_map; reflexivity).
  assert (In [gp_code row; gp_name row; appointments_systems row;
              main_system_of (appointments_systems row)]
             (map (output_row names) data)) as Hin.
  { apply in_map_iff. eexists. split; [|apply (dict_get_Some_In _ _ _ Hdata)].
    unfold output_row. simpl. now rewrite Hname. }
  split; [apply process_data_files_eq|].
  split; [apply get_main_system_total|].
  split; [exact Hdata|]. split; [exact Hname|].
  split.
  { apply NoDup_count_occ'; [apply sorted_data_NoDup|].
    apply dict_get_Some_In in Hdata. now apply (in_map fst) in Hdata. }
  split; [apply normalize_and_write_eq|].
  split.
  - intros r Hr. split; [|intros ->; reflexivity].
    apply in_map_iff in Hr. destruct Hr as ([k v] & <- & Hitem). simpl. intros ->.
    apply (dict_get_In_NoDup _ _ _ (sorted_data_NoDup files)) in Hitem.
    fold data in Hitem. rewrite Hdata in Hitem. injection Hitem as <-.
    unfold output_row. simpl. now rewrite Hname.
  - apply NoDup_count_occ'; [|exact Hin].
    apply (NoDup_map_inv (fun r => nth 0 r "")). rewrite Hcodes.
    apply sorted_data_NoDup.
Qed.

Lemma C6_deduplication_witness :
  exists data names main_system rows,
    DownloadGpad.process_data_files duplicated_code = Ok (data, names) /\
    Helpers.get_main_system_from_value "TPP" = Ok main_system /\
    dict_get data "A81001" = Some ("TPP", main_system) /\
    dict_get names "A81001" = Some "DENSHAM SURGERY" /\
    count_occ string_dec (dict_keys data) "A81001" = 1%nat /\
    DownloadGpad.normalize_and_write duplicated_code
      = Ok (DownloadGpad.OUTPUT_HEADER :: rows) /\
    (forall r, In r rows ->
       nth 0 r "" = "A81001" <-> r = ["A81001"; "DENSHAM SURGERY"; "TPP"; main_system]) /\
    count_occ (List.list_eq_dec string_dec) rows
      ["A81001"; "DENSHAM SURGERY"; "TPP"; main_system] = 1%nat.
Proof.
  apply (C6_deduplication_first_wins duplicated_code []
           [["_"; "A81002"; "PARK MEDICAL"; "EVERGREENLIFE/EMIS"];
            ["_"; "A81001"; "ANOTHER NAME"; "EMIS"]]
           ["_"; "A81001"; "DENSHAM SURGERY"; "TPP"]).
  - reflexivity.
  - simpl. tauto.
Defined.

(** C7: the Normalizer always returns; the dict it returns and the rows
    it writes after the header are in strictly ascending order of ODS
    code (strings compared character by character, by code); and both
    are a function of the kept rows in file-then-row order, so that a
    re-run on the same files writes the same rows. *)
Theorem C7_sorted_deterministic_output (files : list DownloadGpad.csv_file) :
  exists data names rows,
    DownloadGpad.process_data_files files = Ok (data, names) /\
    DownloadGpad.normalize_and_write files = Ok (DownloadGpad.OUTPUT_HEADER :: rows) /\
    map (fun r => nth 0 r "") rows = dict_keys data /\
    StronglySorted (fun a b => String.ltb a b = true) (dict_keys data) /\
    (forall files',
        data_rows files' = data_rows files ->
        DownloadGpad.process_data_files files' = DownloadGpad.process_data_files files /\
        DownloadGpad.normalize_and_write files' = DownloadGpad.normalize_and_write files).
Proof.
  exists (sorted item_lt (raw_data files)), (raw_names files),
         (map (output_row (raw_names files)) (sorted item_lt (raw_data files))).
  split; [apply process_data_files_eq|].
  split; [apply normalize_and_write_eq|].
  split; [rewrite map_map; reflexivity|].
  split; [apply sorted_items_ascending, raw_data_NoDup|].
  intros files' Hsame.
  rewrite !process_data_files_eq, !normalize_and_write_eq.
  unfold raw_data, raw_names. now rewrite Hsame.
Qed.

Lemma normalizer_example :
  DownloadGpad.normalize_and_write
    [[["H1"; "H2"; "H3"; "H4"];
      ["_"; "A81002"; "PARK MEDICAL"; "EVERGREENLIFE/EMIS"];
      ["_"; "A81001"; "DENSHAM SURGERY"; "TPP"]]]
  = Ok [DownloadGpad.OUTPUT_HEADER;
        ["A81001"; "DENSHAM SURGERY"; "TPP"; "TPP"];
        ["A81002"; "PARK MEDICAL"; "EVERGREENLIFE/EMIS"; "EMIS"]].
Proof. reflexivity. Qed.

(** ** The query engine: lookup *)

Lemma upper_char_idem c : upper_char (upper_char c) = upper_char c.
Proof. destruct c as [[] [] [] [] [] [] [] []]; reflexivity. Qed.

Lemma upper_idem s : str_upper (str_upper s) = str_upper s.
Proof.
  induction s as [|c s IH]; simpl; [reflexivity|].
  now rewrite upper_char_idem, IH.
Qed.

Section Lookup.
Import GpLookup.

Lemma lookup_upper data c :
  lookup_by_ods_code data (str_upper c) = lookup_by_ods_code data c.
Proof.
  induction data as [|row data IH]; simpl; [reflexivity|].
  now rewrite upper_idem, IH.
Qed.

Lemma lookup_steps_over pre rest c :
  Forall (other_code (str_upper c)) pre ->
  lookup_by_ods_code (pre ++ rest) c = lookup_by_ods_code rest c.
Proof.
  induction 1 as [|row pre (code & Hcode & Hne) _ IH]; simpl; [reflexivity|].
  unfold dict_getitem. rewrite Hcode. simpl.
  apply String.eqb_neq in Hne. now rewrite Hne.
Qed.

Lemma lookup_found data c row :
  lookup_by_ods_code data c = Ok (Some row) ->
  exists pre post,
    data = pre ++ row :: post /\ Forall (other_code (str_upper c)) pre /\
    dict_get row "GP_ODS_CODE" = Some (str_upper c).
Proof.
  induction data as [|r data IH]; simpl; [discriminate|].
  unfold dict_getitem. destruct (dict_get r "GP_ODS_CODE") as [code|] eqn:Hcode;
    simpl; [|discriminate].
  destruct (String.eqb code (str_upper c)) eqn:E.
  - apply String.eqb_eq in E. intros [= <-].
    exists [], data. repeat split; auto. congruence.
  - apply String.eqb_neq in E. intros H.
    destruct (IH H) as (pre & post & -> & Hpre & Hrow).
    exists (r :: pre), post. repeat split; auto.
    constructor; [exists code; auto | assumption].
Qed.

Lemma lookup_not_found data c :
  lookup_by_ods_code data c = Ok None <-> Forall (other_code (str_upper c)) data.
Proof.
  split.
  - induction data as [|r data IH]; simpl; [constructor|].
    unfold dict_getitem. destruct (dict_get r "GP_ODS_CODE") as [code|] eqn:Hcode;
      simpl; [|discriminate].
    destruct (String.eqb code (str_upper c)) eqn:E; [discriminate|].
    apply String.eqb_neq in E. intros H. constructor; [exists code; auto | auto].
  - intros H. rewrite <- (app_nil_r data). now rewrite lookup_steps_over.
Qed.

End Lookup.

(** C8: a lookup with a code and a lookup with the code in upper case
    give the same result, an error included; the record returned is the
    first one in file order whose GP_ODS_CODE cell equals the upper-cased
    query, later records with that code being ignored, and the result is
    [None] exactly when every record has another code. *)
Theorem C8_lookup_case_insensitive (data : GpLookup.dataset) (c : string) :
  GpLookup.lookup_by_ods_code data c = GpLookup.lookup_by_ods_code data (str_upper c) /\
  GpLookup.lookup_by_ods_code data "a81001" = GpLookup.lookup_by_ods_code data "A81001" /\
  (forall row,
      GpLookup.lookup_by_ods_code data c = Ok (Some row) <->
      exists pre post,
        data = pre ++ row :: post /\ Forall (other_code (str_upper c)) pre /\
        dict_get row "GP_ODS_CODE" = Some (str_upper c)) /\
  (GpLookup.lookup_by_ods_code data c = Ok None <->
   Forall (other_code (str_upper c)) data).
Proof.
  split; [symmetry; apply lookup_upper|].
  split; [symmetry; exact (lookup_upper data "a81001")|].
  split; [|apply lookup_not_found].
  intros row. split; [apply lookup_found|].
  intros (pre & post & -> & Hpre & Hrow).
  rewrite lookup_steps_over by assumption. simpl.
  unfold dict_getitem. rewrite Hrow. simpl. now rewrite String.eqb_refl.
Qed.

Lemma lookup_example :
  let data := [practice "A81002" "PARK MEDICAL" "EMIS";
               practice "A81001" "DENSHAM SURGERY" "TPP";
               practice "A81001" "A LATER DUPLICATE" "EMIS"] in
  GpLookup.lookup_by_ods_code data "a81001"
    = Ok (Some (practice "A81001" "DENSHAM SURGERY" "TPP")) /\
  GpLookup.lookup_by_ods_code data "A81001"
    = Ok (Some (practice "A81001" "DENSHAM SURGERY" "TPP")) /\
  GpLookup.lookup_by_ods_code data "a81003" = Ok None.
Proof. repeat split. Qed.

(** ** The query engine: statistics *)

Section Counting.
Implicit Types (d : pydict nat) (l : list string) (s : string).

Lemma dict_set_keys {V} (d : pydict V) s (v : V) :
  dict_keys (dict_set d s v) =
  if existsb (String.eqb s) (dict_keys d) then dict_keys d else dict_keys d ++ [s].
Proof.
  induction d as [|[k w] d IH]; simpl; [reflexivity|].
  rewrite (String.eqb_sym s k).
  destruct (String.eqb k s); simpl; [reflexivity|]. rewrite IH.
  now destruct (existsb (String.eqb s) (dict_keys d)).
Qed.

Lemma dict_set_NoDup {V} (d : pydict V) s (v : V) :
  List.NoDup (dict_keys d) -> List.NoDup (dict_keys (dict_set d s v)).
Proof.
  intros Hnd. rewrite dict_set_keys.
  destruct (existsb (String.eqb s) (dict_keys d)) eqn:E; [assumption|].
  apply List.NoDup_app; auto.
  - repeat constructor. simpl. tauto.
  - intros x Hx [<-|[]].
    assert (existsb (String.eqb s) (dict_keys d) = true) as Hex; [|congruence].
    apply existsb_exists. exists s. split; [assumption | apply String.eqb_refl].
Qed.

Lemma bump_sum d s :
  list_sum (map snd (bump d s)) = S (list_sum (map snd d)).
Proof.
  unfold bump. induction d as [|[k n] d IH]; simpl; [reflexivity|].
  rewrite dict_get_cons. destruct (String.eqb k s) eqn:E; simpl; [lia|].
  rewrite IH. lia.
Qed.

Lemma bumps_sum l d :
  list_sum (map snd (fold_left bump l d)) = (list_sum (map snd d) + length l)%nat.
Proof.
  revert d. induction l as [|s l IH]; intros d; simpl; [lia|].
  rewrite IH, bump_sum. lia.
Qed.

Lemma bumps_NoDup l d :
  List.NoDup (dict_keys d) -> List.NoDup (dict_keys (fold_left bump l d)).
Proof.
  revert d. induction l as [|s l IH]; intros d Hnd; simpl; [assumption|].
  apply IH. now apply dict_set_NoDup.
Qed.


Lemma bumps_get l d s :
  dict_get (fold_left bump l d) s =
  match dict_get d s with
  | Some n => Some (n + count_occ string_dec l s)%nat
  | None => if (count_occ string_dec l s =? 0)%nat then None
            else Some (count_occ string_dec l s)
  end.
Proof.
  revert d. induction l as [|x l IH]; intros d; simpl.
  - destruct (dict_get d s); [f_equal; lia | reflexivity].
  - rewrite IH. unfold bump. destruct (string_dec x s) as [->|Hne].
    + rewrite dict_get_set_eq. destruct (dict_get d s); simpl; f_equal; lia.
    + rewrite dict_get_set_ne by assumption. reflexivity.
Qed.

Lemma counted_items l s n :
  In (s, n) (fold_left bump l []) -> n = count_occ string_dec l s /\ (0 < n)%nat.
Proof.
  intros Hin.
  apply dict_get_In_NoDup in Hin; [|apply bumps_NoDup; constructor].
  rewrite bumps_get in Hin. simpl in Hin.
  destruct (count_occ string_dec l s =? 0)%nat eqn:E; [discriminate|].
  apply Nat.eqb_neq in E. injection Hin as <-. split; [reflexivity | lia].
Qed.

Lemma counted_keys l s : In s l -> In s (dict_keys (fold_left bump l [])).
Proof.
  intros Hin. apply (count_occ_In string_dec) in Hin.
  destruct (in_dec string_dec s (dict_keys (fold_left bump l []))) as [|Hout]; [assumption|].
  apply dict_get_None_keys in Hout. rewrite bumps_get in Hout. simpl in Hout.
  destruct (count_occ string_dec l s =? 0)%nat eqn:E; [|discriminate].
  apply Nat.eqb_eq in E. lia.
Qed.

End Counting.

Section Statistics.
Import GpLookup.

Lemma count_systems_fold data acc :
  Forall has_system data ->
  count_systems data acc = Ok (fold_left bump (map system_of data) acc).
Proof.
  intros Hall. revert acc.
  induction Hall as [|row data Hrow _ IH]; intros acc; simpl; [reflexivity|].
  unfold has_system, dict_contains in Hrow. unfold dict_getitem, system_of.
  destruct (dict_get row "GP_SYSTEM") as [system|]; [|discriminate].
  simpl. apply IH.
Qed.

Lemma fill_systems_map total items acc :
  total <> 0%nat -> List.NoDup (dict_keys acc ++ dict_keys items) ->
  fill_systems total items acc = Ok (acc ++ map (to_stats total) items).
Proof.
  intros Htotal. revert acc.
  induction items as [|[s n] items IH]; intros acc Hnd; simpl.
  - now rewrite app_nil_r.
  - unfold int_truediv. apply Nat.eqb_neq in Htotal. rewrite Htotal. simpl.
    rewrite dict_set_absent.
    + rewrite IH.
      * now rewrite <- app_assoc.
      * unfold dict_keys in *. rewrite map_app. simpl. now rewrite <- app_assoc.
    + apply dict_get_None_keys. simpl in Hnd. apply NoDup_remove_2 in Hnd.
      intros Hin. apply Hnd. apply in_or_app. now left.
Qed.

Lemma count_desc_asym x y : count_desc x y = true -> count_desc y x = false.
Proof. unfold count_desc. rewrite Nat.ltb_lt, Nat.ltb_ge. lia. Qed.

Lemma count_desc_ge_trans x y z :
  count_desc y x = false -> count_desc z y = false -> count_desc z x = false.
Proof. unfold count_desc. rewrite !Nat.ltb_ge. lia. Qed.

End Statistics.

Lemma get_statistics_eq (data : GpLookup.dataset) :
  Forall has_system data ->
  GpLookup.get_statistics data =
  Ok {| GpLookup.total_practices := length data;
        GpLookup.systems :=
          map (to_stats (length data))
              (sorted GpLookup.count_desc (fold_left bump (map system_of data) [])) |}.
Proof.
  intros Hall. unfold GpLookup.get_statistics.
  rewrite (count_systems_fold _ _ Hall). simpl.
  destruct data as [|row data]; [reflexivity|].
  rewrite fill_systems_map; [reflexivity | discriminate |].
  cbn [dict_keys map app].
  eapply Permutation_NoDup; [apply Permutation_map; symmetry; apply sorted_perm|].
  apply (bumps_NoDup (map system_of (row :: data)) []). constructor.
Qed.





(** The statistics of four practices: the greater count first, the two
    suppliers of one practice each in the order of their first rows. *)
Lemma statistics_example :
  GpLookup.get_statistics four_practices =
  Ok {| GpLookup.total_practices := 4;
        GpLookup.systems :=
          [("TPP", {| GpLookup.count := 2; GpLookup.percentage := 50%float |});
           ("EMIS", {| GpLookup.count := 1; GpLookup.percentage := 25%float |});
           ("VISION", {| GpLookup.count := 1; GpLookup.percentage := 25%float |})] |}.
Proof. vm_compute. reflexivity. Qed.

Lemma count_systems_ok data acc counts :
  GpLookup.count_systems data acc = Ok counts -> Forall has_system data.
Proof.
  revert acc. induction data as [|row data IH]; intros acc; simpl; [constructor|].
  unfold dict_getitem. destruct (dict_get row "GP_SYSTEM") as [system|] eqn:E;
    simpl; [|discriminate].
  intros H. constructor; [|eauto].
  unfold has_system, dict_contains. now rewrite E.
Qed.

(** C10: on a dataset without records the statistics are returned, with
    total 0 and no supplier; and on no dataset at all does the function
    raise a division by zero, the quotient being computed only for the
    suppliers counted in a non-empty dataset. *)
Theorem C10_empty_dataset_statistics :
  GpLookup.get_statistics [] =
    Ok {| GpLookup.total_practices := 0; GpLookup.systems := [] |} /\
  (forall data : GpLookup.dataset,
      GpLookup.get_statistics data <> Raise ZeroDivisionError).
Proof.
  split; [reflexivity|].
  intros data Hraise.
  destruct (GpLookup.count_systems data []) as [counts|e] eqn:Hcount.
  - apply count_systems_ok in Hcount.
    rewrite (get_statistics_eq _ Hcount) in Hraise. discriminate.
  - unfold GpLookup.get_statistics in Hraise. rewrite Hcount in Hraise.
    simpl in Hraise. injection Hraise as ->.
    clear -Hcount. revert Hcount. generalize (@nil (string * nat)).
    induction data as [|row data IH]; intros acc; simpl; [discriminate|].
    unfold dict_getitem. destruct (dict_get row "GP_SYSTEM"); simpl; [apply IH | discriminate].
Qed.

(** ** The Enricher *)

Section Registry.
Import EnrichGpData.

Lemma append_inj_l (p a b : string) : String.append p a = String.append p b -> a = b.
Proof. induction p as [|ch p IH]; simpl; [auto|]. intros [= H]. auto. Qed.

Lemma api_url_inj a b : api_url a = api_url b -> a = b.
Proof. unfold api_url. intros H. apply append_inj_l in H. now apply append_inj_l in H. Qed.

Lemma with_icb_get row icb : dict_get (with_icb row icb) "ICB Sub location" = Some icb.
Proof. apply dict_get_set_eq. Qed.

(** A query leaves the cache file alone and requests its own URL, once
    or twice. *)
Lemma get_commissioner_code_world net c w :
  map_file (snd (get_commissioner_code net c w)) = map_file w /\
  exists reqs,
    requests (snd (get_commissioner_code net c w)) = requests w ++ reqs /\
    (reqs = [api_url c] \/ reqs = [api_url c; api_url c]).
Proof.
  unfold get_commissioner_code, requests_get.
  repeat match goal with
         | |- context [if ?b then _ else _] => destruct b; simpl
         | |- context [match ?x with _ => _ end] => destruct x; simpl
         end;
    (split; [reflexivity|]);
    first [ exists [api_url c]; split; [reflexivity | now left]
          | exists [api_url c; api_url c]; split;
            [now rewrite <- app_assoc | now right] ].
Qed.

(** Status 404 is "no such organisation": the query returns [None]. *)
Lemma get_commissioner_code_404 net c w :
  always_404 net c -> fst (get_commissioner_code net c w) = JNull.
Proof.
  intros H404. unfold get_commissioner_code, requests_get.
  destruct (H404 (length (requests w))) as [body ->]. reflexivity.
Qed.

End Registry.

Section EnrichLoop.
Import EnrichGpData.
Variable str_of : json -> string.
Variable net : registry.

Lemma enrich_row_key_error st w row :
  dict_get row "GP_ODS_CODE" = None ->
  enrich_row str_of net st w row = (Raise (KeyError "GP_ODS_CODE"), w).
Proof. intros H. unfold enrich_row, dict_getitem. now rewrite H. Qed.

(** A cache hit: the entry is used, no request, no write. *)
Lemma enrich_row_hit st w row c :
  dict_get row "GP_ODS_CODE" = Some c -> cached (ods_map st) c = true ->
  enrich_row str_of net st w row =
  (Ok {| ods_map := ods_map st;
         new_rows := new_rows st ++ [with_icb row (default JNull (ods_map st !! c))];
         processed_count := S (processed_count st);
         api_calls := api_calls st |}, w).
Proof.
  intros Hc Hhit. unfold enrich_row, dict_getitem. rewrite Hc.
  unfold cached in Hhit. now rewrite Hhit.
Qed.

(** A miss that the registry resolves: the code is cached and appended. *)
Lemma enrich_row_found st w row c :
  dict_get row "GP_ODS_CODE" = Some c -> cached (ods_map st) c = false ->
  truthy (fst (get_commissioner_code net c w)) = true ->
  enrich_row str_of net st w row =
  (Ok {| ods_map := <[c := fst (get_commissioner_code net c w)]> (ods_map st);
         new_rows := new_rows st ++ [with_icb row (fst (get_commissioner_code net c w))];
         processed_count := S (processed_count st);
         api_calls := S (api_calls st) |},
   append_to_map str_of c (fst (get_commissioner_code net c w))
                 (snd (get_commissioner_code net c w))).
Proof.
  intros Hc Hmiss Hfound. unfold enrich_row, dict_getitem. rewrite Hc.
  unfold cached in Hmiss. rewrite Hmiss. simpl.
  destruct (get_commissioner_code net c w) as [found w1]. simpl in *.
  now rewrite Hfound.
Qed.

(** A miss that the registry does not resolve: UNKNOWN, nothing cached. *)
Lemma enrich_row_unknown st w row c :
  dict_get row "GP_ODS_CODE" = Some c -> cached (ods_map st) c = false ->
  truthy (fst (get_commissioner_code net c w)) = false ->
  enrich_row str_of net st w row =
  (Ok {| ods_map := ods_map st;
         new_rows := new_rows st ++ [with_icb row (JStr "UNKNOWN")];
         processed_count := S (processed_count st);
         api_calls := S (api_calls st) |},
   snd (get_commissioner_code net c w)).
Proof.
  intros Hc Hmiss Hfound. unfold enrich_row, dict_getitem. rewrite Hc.
  unfold cached in Hmiss. rewrite Hmiss. simpl.
  destruct (get_commissioner_code net c w) as [found w1]. simpl in *.
  now rewrite Hfound.
Qed.

Lemma cached_insert_ne (m : gmap string json) c k v :
  c <> k -> cached (<[c := v]> m) k = cached m k.
Proof. intros Hne. unfold cached. now rewrite lookup_insert_ne. Qed.

Lemma cached_insert_eq (m : gmap string json) c v :
  cached (<[c := v]> m) c = truthy v.
Proof. unfold cached. now rewrite lookup_insert_eq. Qed.

(** What a run of the loop does outside: the requests it makes and the
    rows it appends.  Requests go to codes that missed at the start;
    every appended row is for a code that missed at the start and was
    requested, and no code is appended twice. *)
Lemma enrich_rows_effects rows : forall st w,
  exists reqs appended,
    requests (snd (enrich_rows str_of net st w rows)) = requests w ++ reqs /\
    file_rows (snd (enrich_rows str_of net st w rows)) = file_rows w ++ appended /\
    (appended = [] -> map_file (snd (enrich_rows str_of net st w rows)) = map_file w) /\
    (forall u, In u reqs -> exists k, u = api_url k /\ cached (ods_map st) k = false) /\
    (forall x k, In (x, k) appended ->
                 cached (ods_map st) k = false /\ In (api_url k) reqs) /\
    List.NoDup (map snd appended) /\
    (forall x k, In (x, k) appended ->
                 exists found, truthy found = true /\ x = csv_cell str_of found).
Proof.
  induction rows as [|row rows IH]; intros st w; simpl.
  - exists [], []. rewrite !app_nil_r.
    repeat (split; [first [reflexivity | intros ? ? [] | intros ? []]|]).
    split; [constructor | intros ? ? []].
  - destruct (dict_get row "GP_ODS_CODE") as [c|] eqn:Hc.
    2:{ rewrite enrich_row_key_error by assumption. simpl.
        exists [], []. rewrite !app_nil_r.
        repeat (split; [first [reflexivity | intros ? ? [] | intros ? []]|]).
        split; [constructor | intros ? ? []]. }
    destruct (cached (ods_map st) c) eqn:Hhit.
    { rewrite (enrich_row_hit _ _ _ _ Hc Hhit).
      match goal with |- context [enrich_rows _ _ ?s _ _] => specialize (IH s w) end.
      destruct IH as (reqs & appended & Hr & Hf & He & Hu & Ha & Hnd & Hcell).
      exists reqs, appended. simpl in *.
      repeat (split; [assumption|]). assumption. }
    destruct (get_commissioner_code_world net c w) as (Hfile & first & Hfirst & Hurl).
    assert (forall u, In u first -> u = api_url c) as Hfirst_c
      by (destruct Hurl as [-> | ->]; simpl; intuition).
    assert (In (api_url c) first) as Hc_first
      by (destruct Hurl as [-> | ->]; simpl; auto).
    destruct (truthy (fst (get_commissioner_code net c w))) eqn:Hfound.
    + rewrite (enrich_row_found _ _ _ _ Hc Hhit Hfound).
      match goal with |- context [enrich_rows _ _ ?s ?w1 _] => specialize (IH s w1) end.
      destruct IH as (reqs & appended & Hr & Hf & He & Hu & Ha & Hnd & Hcell).
      exists (first ++ reqs),
             ((csv_cell str_of (fst (get_commissioner_code net c w)), c) :: appended).
      cbn [ods_map] in *.
      split; [rewrite Hr; simpl; rewrite Hfirst; now rewrite app_assoc|].
      split; [rewrite Hf; unfold file_rows, append_to_map; simpl; rewrite Hfile;
              now rewrite <- app_assoc|].
      split; [discriminate|].
      split.
      { intros u Hin. apply in_app_or in Hin. destruct Hin as [Hin|Hin].
        - exists c. auto.
        - destruct (Hu u Hin) as (k & -> & Hk). exists k. split; [reflexivity|].
          destruct (string_dec c k) as [<-|Hne]; [assumption|].
          now rewrite cached_insert_ne in Hk. }
      split.
      { intros x k [[= <- <-]|Hin].
        - split; [assumption | apply in_or_app; now left].
        - destruct (Ha x k Hin) as [Hk Hreq].
          split; [|apply in_or_app; now right].
          destruct (string_dec c k) as [<-|Hne].
          + rewrite cached_insert_eq in Hk. congruence.
          + now rewrite cached_insert_ne in Hk. }
      split.
      { simpl. constructor; [|assumption].
        intros Hin. apply in_map_iff in Hin. destruct Hin as ([x k] & Hk & Hin).
        simpl in Hk. subst k. destruct (Ha x c Hin) as [Hmiss _].
        rewrite cached_insert_eq in Hmiss. congruence. }
      intros x k [[= <- <-]|Hin]; [eauto | now apply (Hcell x k)].
    + rewrite (enrich_row_unknown _ _ _ _ Hc Hhit Hfound).
      match goal with |- context [enrich_rows _ _ ?s ?w1 _] => specialize (IH s w1) end.
      destruct IH as (reqs & appended & Hr & Hf & He & Hu & Ha & Hnd & Hcell).
      exists (first ++ reqs), appended. cbn [ods_map] in *.
      split; [rewrite Hr, Hfirst; now rewrite app_assoc|].
      split; [rewrite Hf; unfold file_rows; now rewrite Hfile|].
      split; [intros Hnil; rewrite (He Hnil); exact Hfile|].
      split.
      { intros u Hin. apply in_app_or in Hin. destruct Hin as [Hin|Hin]; [|auto].
        exists c. auto. }
      split; [|split; assumption].
      intros x k Hin. destruct (Ha x k Hin) as [Hk Hreq].
      split; [assumption | apply in_or_app; now right].
Qed.

End EnrichLoop.

Section EnrichInvariant.
Import EnrichGpData.
Variable str_of : json -> string.
Variable net : registry.

(** One code [c] is followed through the loop: [Inv] is what is known of
    the in-memory cache at [c], [Q] what the output rows of [c] carry. *)
Variable c : string.
Variable Inv : gmap string json -> Prop.
Variable Q : json -> Prop.
Hypothesis Inv_other : forall m k v, k <> c -> Inv m -> Inv (<[k := v]> m).
Hypothesis Inv_at : forall m w,
  Inv m ->
  (cached m c = true /\ Q (default JNull (m !! c))) \/
  (cached m c = false /\ truthy (fst (get_commissioner_code net c w)) = false /\
   Q (JStr "UNKNOWN")).

Lemma enrich_rows_invariant rows : forall st w st',
  Inv (ods_map st) ->
  fst (enrich_rows str_of net st w rows) = Ok st' ->
  Inv (ods_map st') /\
  exists outs appended,
    new_rows st' = new_rows st ++ outs /\ length outs = length rows /\
    (forall i row,
        nth_error rows i = Some row -> dict_get row "GP_ODS_CODE" = Some c ->
        exists out icb,
          nth_error outs i = Some out /\
          dict_get out "ICB Sub location" = Some icb /\ Q icb) /\
    file_rows (snd (enrich_rows str_of net st w rows)) = file_rows w ++ appended /\
    ~ In c (map snd appended).
Proof.
  induction rows as [|row rows IH]; intros st w st' Hinv; simpl.
  - intros [= <-]. split; [assumption|]. exists [], []. rewrite !app_nil_r.
    repeat split; auto. intros [|i] row; discriminate.
  - destruct (dict_get row "GP_ODS_CODE") as [k|] eqn:Hk.
    2:{ rewrite enrich_row_key_error by assumption. discriminate. }
    assert (forall st1 w1 icb appended1,
               Inv (ods_map st1) ->
               new_rows st1 = new_rows st ++ [with_icb row icb] ->
               (k = c -> Q icb) ->
               file_rows w1 = file_rows w ++ appended1 ->
               ~ In c (map snd appended1) ->
               fst (enrich_rows str_of net st1 w1 rows) = Ok st' ->
               Inv (ods_map st') /\
               exists outs appended,
                 new_rows st' = new_rows st ++ outs /\ length outs = S (length rows) /\
                 (forall i r,
                     nth_error (row :: rows) i = Some r ->
                     dict_get r "GP_ODS_CODE" = Some c ->
                     exists out icb0,
                       nth_error outs i = Some out /\
                       dict_get out "ICB Sub location" = Some icb0 /\ Q icb0) /\
                 file_rows (snd (enrich_rows str_of net st1 w1 rows))
                   = file_rows w ++ appended /\
                 ~ In c (map snd appended)) as Hstep.
    { intros st1 w1 icb appended1 Hinv1 Hnew HQ Hfile Hnotin Hrest.
      destruct (IH st1 w1 st' Hinv1 Hrest)
        as (Hinv' & outs & appended & Hnew' & Hlen & Hout & Hfile' & Hnotin').
      split; [assumption|].
      exists (with_icb row icb :: outs), (appended1 ++ appended).
      split; [rewrite Hnew', Hnew; now rewrite <- app_assoc|].
      split; [simpl; now rewrite Hlen|].
      split.
      { intros [|i] r; simpl.
        - intros [= <-] Hr. exists (with_icb row icb), icb.
          repeat split; [apply with_icb_get|]. apply HQ. congruence.
        - apply Hout. }
      split; [rewrite Hfile', Hfile; now rewrite <- app_assoc|].
      rewrite map_app, in_app_iff. tauto. }
    destruct (cached (ods_map st) k) eqn:Hhit.
    { intros Hrest. rewrite (enrich_row_hit _ _ _ _ _ _ Hk Hhit) in Hrest |- *.
      eapply (Hstep _ _ _ []); try reflexivity; try eassumption; simpl.
      - intros ->. destruct (Inv_at _ w Hinv) as [[_ HQ]|[Hmiss _]]; [assumption|congruence].
      - now rewrite app_nil_r.
      - tauto. }
    destruct (truthy (fst (get_commissioner_code net k w))) eqn:Hfound.
    + intros Hrest. rewrite (enrich_row_found _ _ _ _ _ _ Hk Hhit Hfound) in Hrest |- *.
      assert (k <> c) as Hne.
      { intros ->. destruct (Inv_at _ w Hinv) as [[Hc _]|(_ & Hno & _)]; congruence. }
      eapply (Hstep _ _ _ [(csv_cell str_of (fst (get_commissioner_code net k w)), k)]);
        try reflexivity; try eassumption; simpl.
      * now apply Inv_other.
      * intros ->. congruence.
      * unfold file_rows, append_to_map. simpl.
        now rewrite (proj1 (get_commissioner_code_world net k w)).
      * intros [->|[]]. congruence.
    + intros Hrest. rewrite (enrich_row_unknown _ _ _ _ _ _ Hk Hhit Hfound) in Hrest |- *.
      eapply (Hstep _ _ _ []); try reflexivity; try eassumption; simpl.
      * intros ->. destruct (Inv_at _ w Hinv) as [[Hc _]|(_ & _ & HQ)]; [congruence|assumption].
      * unfold file_rows. rewrite (proj1 (get_commissioner_code_world net k w)).
        now rewrite app_nil_r.
      * tauto.
Qed.

End EnrichInvariant.

Section EnrichRun.
Import EnrichGpData.
Variable str_of : json -> string.

Lemma main_snd net rows w :
  snd (main str_of net rows w) = snd (enrich_rows str_of net (initial_state w) w rows).
Proof.
  unfold main. fold (initial_state w).
  now destruct (enrich_rows str_of net (initial_state w) w rows) as [[st'|e] w'].
Qed.

Lemma main_fst net rows w out_rows :
  fst (main str_of net rows w) = Ok out_rows <->
  exists st', fst (enrich_rows str_of net (initial_state w) w rows) = Ok st' /\
              out_rows = new_rows st'.
Proof.
  unfold main. fold (initial_state w).
  destruct (enrich_rows str_of net (initial_state w) w rows) as [[st'|e] w']; simpl.
  - split; [intros [= <-]; eauto | intros (st & [= <-] & ->); reflexivity].
  - split; [discriminate | intros (st & Hst & _); discriminate].
Qed.

Lemma enrich_rows_total net rows : forall st w,
  Forall has_code rows ->
  exists st', fst (enrich_rows str_of net st w rows) = Ok st' /\
              length (new_rows st') = (length (new_rows st) + length rows)%nat.
Proof.
  induction rows as [|row rows IH]; intros st w Hall; simpl.
  - exists st. split; [reflexivity | lia].
  - inversion Hall as [|? ? Hrow Hrest]; subst.
    unfold has_code, dict_contains in Hrow.
    destruct (dict_get row "GP_ODS_CODE") as [k|] eqn:Hk; [|discriminate].
    assert (forall st1 w1,
               length (new_rows st1) = S (length (new_rows st)) ->
               exists st', fst (enrich_rows str_of net st1 w1 rows) = Ok st' /\
                           length (new_rows st') = (length (new_rows st) + S (length rows))%nat)
      as Hstep.
    { intros st1 w1 Hlen. destruct (IH st1 w1 Hrest) as (st' & Hok & Hlen').
      exists st'. split; [assumption | lia]. }
    destruct (cached (ods_map st) k) eqn:Hhit.
    { rewrite (enrich_row_hit _ _ _ _ _ _ Hk Hhit). apply Hstep. simpl.
      rewrite length_app. simpl. lia. }
    destruct (truthy (fst (get_commissioner_code net k w))) eqn:Hfound.
    + rewrite (enrich_row_found _ _ _ _ _ _ Hk Hhit Hfound). apply Hstep. simpl.
      rewrite length_app. simpl. lia.
    + rewrite (enrich_row_unknown _ _ _ _ _ _ Hk Hhit Hfound). apply Hstep. simpl.
      rewrite length_app. simpl. lia.
Qed.

Lemma load_rows_other (rows : list (string * string)) (m : gmap string json) k :
  ~ In k (map snd rows) ->
  fold_left (fun mapping row => <[snd row := JStr (fst row)]> mapping) rows m !! k = m !! k.
Proof.
  revert m. induction rows as [|[x k'] rows IH]; intros m Hnotin; simpl; [reflexivity|].
  simpl in Hnotin. rewrite IH by tauto. apply lookup_insert_ne. tauto.
Qed.

Lemma load_map_file_rows w : load_map (map_file w) = load_map (Some (file_rows w)).
Proof. unfold file_rows. now destruct (map_file w). Qed.

(** Rows appended for other codes leave the entry of a code as it was. *)
Lemma load_map_appended w w' appended k :
  file_rows w' = file_rows w ++ appended -> ~ In k (map snd appended) ->
  load_map (map_file w') !! k = load_map (map_file w) !! k.
Proof.
  intros Hfile Hnotin. rewrite (load_map_file_rows w'), (load_map_file_rows w), Hfile.
  simpl. rewrite fold_left_app. now apply load_rows_other.
Qed.

Lemma cached_entry (m : gmap string json) k X :
  m !! k = Some (JStr X) -> X <> "" -> cached m k = true.
Proof.
  intros Hk HX. unfold cached. rewrite Hk. simpl.
  apply negb_true_iff. now apply String.eqb_neq.
Qed.

(** One run on a cache that holds [X] for [c]. *)
Lemma main_keeps_entry net rows w c X :
  load_map (map_file w) !! c = Some (JStr X) -> X <> "" ->
  load_map (map_file (snd (main str_of net rows w))) !! c = Some (JStr X) /\
  (exists reqs appended,
      requests (snd (main str_of net rows w)) = requests w ++ reqs /\
      ~ In (api_url c) reqs /\
      file_rows (snd (main str_of net rows w)) = file_rows w ++ appended /\
      List.NoDup (map snd appended) /\
      (forall x k, In (x, k) appended ->
                   k <> c /\ cached (load_map (map_file w)) k = false /\
                   In (api_url k) reqs /\
                   exists found, truthy found = true /\ x = csv_cell str_of found)) /\
  (forall out_rows,
      fst (main str_of net rows w) = Ok out_rows ->
      length out_rows = length rows /\
      forall i row,
        nth_error rows i = Some row -> dict_get row "GP_ODS_CODE" = Some c ->
        exists out, nth_error out_rows i = Some out /\
                    dict_get out "ICB Sub location" = Some (JStr X)).
Proof.
  intros Hentry HX.
  pose proof (cached_entry _ _ _ Hentry HX) as Hhit.
  destruct (enrich_rows_effects str_of net rows (initial_state w) w)
    as (reqs & appended & Hreq & Hfile & _ & Hurls & Happ & Hnd & Hcell).
  rewrite <- main_snd in Hreq, Hfile. cbn [initial_state ods_map] in Hurls, Happ.
  assert (~ In c (map snd appended)) as Hnotin.
  { intros Hin. apply in_map_iff in Hin. destruct Hin as ([x k] & Hk & Hin).
    simpl in Hk. subst k. destruct (Happ x c Hin). congruence. }
  split; [rewrite (load_map_appended _ _ _ _ Hfile Hnotin); exact Hentry|].
  split.
  - exists reqs, appended.
    split; [assumption|]. split.
    { intros Hin. destruct (Hurls _ Hin) as (k & Hk & Hmiss).
      apply api_url_inj in Hk. subst k. congruence. }
    split; [assumption|]. split; [assumption|].
    intros x k Hin. destruct (Happ x k Hin) as [Hmiss Hreq_k].
    split; [intros ->; congruence|]. split; [assumption|]. split; [assumption|].
    now apply (Hcell x k).
  - intros out_rows Hout. apply main_fst in Hout. destruct Hout as (st' & Hok & ->).
    destruct (enrich_rows_invariant str_of net c
                (fun m => m !! c = Some (JStr X)) (fun icb => icb = JStr X)) 
      with (rows := rows) (st := initial_state w) (w := w) (st' := st')
      as (_ & outs & _ & Hnew & Hlen & Houts & _); auto.
    + intros m k v Hne Hm. now rewrite lookup_insert_ne.
    + intros m w0 Hm. left. split; [now apply (cached_entry m c X) | now rewrite Hm].
    + simpl in Hnew. subst outs. split; [assumption|].
      intros i row Hrow Hc. destruct (Houts i row Hrow Hc) as (out & icb & Ho & Hi & ->).
      eauto.
Qed.

End EnrichRun.

(** Any number of runs on a cache that holds [X] for [c]. *)
Lemma runs_keep_entry (str_of : EnrichGpData.json -> string)
    (jobs : list (EnrichGpData.registry * list (pydict string))) :
  forall (w : EnrichGpData.world) (c X : string),
    EnrichGpData.load_map (EnrichGpData.map_file w) !! c = Some (EnrichGpData.JStr X) ->
    X <> "" ->
    EnrichGpData.load_map (EnrichGpData.map_file (enrichment_runs str_of jobs w)) !! c
      = Some (EnrichGpData.JStr X) /\
    exists reqs earlier,
      EnrichGpData.requests (enrichment_runs str_of jobs w)
        = EnrichGpData.requests w ++ reqs /\
      ~ In (EnrichGpData.api_url c) reqs /\
      file_rows (enrichment_runs str_of jobs w) = file_rows w ++ earlier /\
      ~ In c (map snd earlier).
Proof.
  induction jobs as [|[net rows] jobs IH]; intros w c X Hentry HX; simpl.
  - split; [assumption|]. exists [], []. rewrite !app_nil_r. simpl. tauto.
  - destruct (main_keeps_entry str_of net rows w c X Hentry HX)
      as (Hentry1 & (reqs1 & appended1 & Hreq1 & Hno1 & Hfile1 & _ & Happ1) & _).
    destruct (IH _ c X Hentry1 HX) as (Hentry2 & reqs2 & later & Hreq2 & Hno2 & Hfile2 & Hnot2).
    split; [assumption|].
    exists (reqs1 ++ reqs2), (appended1 ++ later).
    rewrite Hreq2, Hreq1, Hfile2, Hfile1, <- !app_assoc.
    repeat split; auto.
    + rewrite in_app_iff. tauto.
    + rewrite map_app, in_app_iff. intros [Hin|Hin]; [|tauto].
      apply in_map_iff in Hin. destruct Hin as ([x k] & Hk & Hin). simpl in Hk. subst k.
      now destruct (Happ1 x c Hin).
Qed.

(** C3: let the cache hold a non-empty code [X] for an ODS code [c]
    (to the Enricher an empty cell is a miss, not a code).
    Then after any number of enrichment runs the cache still holds [X]
    for [c] and the file is the old one with rows appended; and in the
    next run, whatever its input and the registry: no request is made
    for [c]; every output row of [c] carries [X]; the file is extended,
    never rewritten; each appended row is for another code, one that
    missed in the cache at the start of the run and was requested, and no
    code is appended twice; the cache still holds [X] for [c] afterwards. *)
Theorem C3_cache_append_only (str_of : EnrichGpData.json -> string)
    (jobs : list (EnrichGpData.registry * list (pydict string)))
    (net : EnrichGpData.registry) (rows : list (pydict string))
    (w : EnrichGpData.world) (c X : string) :
  EnrichGpData.load_map (EnrichGpData.map_file w) !! c = Some (EnrichGpData.JStr X) ->
  X <> "" ->
  let w1 := enrichment_runs str_of jobs w in
  let run := EnrichGpData.main str_of net rows w1 in
  EnrichGpData.load_map (EnrichGpData.map_file w1) !! c = Some (EnrichGpData.JStr X) /\
  (exists earlier, file_rows w1 = file_rows w ++ earlier /\ ~ In c (map snd earlier)) /\
  (exists reqs appended,
      EnrichGpData.requests (snd run) = EnrichGpData.requests w1 ++ reqs /\
      ~ In (EnrichGpData.api_url c) reqs /\
      file_rows (snd run) = file_rows w1 ++ appended /\
      List.NoDup (map snd appended) /\
      (forall x k, In (x, k) appended ->
                   k <> c /\
                   cached (EnrichGpData.load_map (EnrichGpData.map_file w1)) k = false /\
                   In (EnrichGpData.api_url k) reqs /\
                   exists found, EnrichGpData.truthy found = true /\
                                 x = EnrichGpData.csv_cell str_of found)) /\
  (forall out_rows,
      fst run = Ok out_rows ->
      length out_rows = length rows /\
      forall i row,
        nth_error rows i = Some row -> dict_get row "GP_ODS_CODE" = Some c ->
        exists out, nth_error out_rows i = Some out /\
                    dict_get out "ICB Sub location" = Some (EnrichGpData.JStr X)) /\
  EnrichGpData.load_map (EnrichGpData.map_file (snd run)) !! c = Some (EnrichGpData.JStr X).
Proof.
  intros Hentry HX w1 run.
  destruct (runs_keep_entry str_of jobs w c X Hentry HX)
    as (Hentry1 & _ & earlier & _ & _ & Hfile & Hnotin).
  fold w1 in Hentry1, Hfile.
  destruct (main_keeps_entry str_of net rows w1 c X Hentry1 HX) as (Hafter & Heff & Hout).
  split; [assumption|].
  split; [eauto|].
  split; [exact Heff|].
  split; [exact Hout | exact Hafter].
Qed.

(** C4: on an input whose rows all have the GP_ODS_CODE column the run
    returns, whatever the registry answers, with one output row per input
    row.  If moreover the registry answers status 404 to every request
    for a code [c] that misses in the cache, then every output row of [c]
    carries UNKNOWN, no row for [c] is appended to the cache file, and
    the cache entry of [c] is after the run what it was before. *)
Theorem C4_enrichment_resilience_404 (str_of : EnrichGpData.json -> string)
    (net : EnrichGpData.registry) (rows : list (pydict string))
    (w : EnrichGpData.world) :
  Forall has_code rows ->
  exists out_rows w',
    EnrichGpData.main str_of net rows w = (Ok out_rows, w') /\
    length out_rows = length rows /\
    forall c,
      always_404 net c ->
      cached (EnrichGpData.load_map (EnrichGpData.map_file w)) c = false ->
      (forall i row,
          nth_error rows i = Some row -> dict_get row "GP_ODS_CODE" = Some c ->
          exists out, nth_error out_rows i = Some out /\
                      dict_get out "ICB Sub location"
                        = Some (EnrichGpData.JStr "UNKNOWN")) /\
      (exists appended,
          file_rows w' = file_rows w ++ appended /\ ~ In c (map snd appended)) /\
      EnrichGpData.load_map (EnrichGpData.map_file w') !! c
        = EnrichGpData.load_map (EnrichGpData.map_file w) !! c.
Proof.
  intros Hall.
  destruct (enrich_rows_total str_of net rows (initial_state w) w Hall) as (st' & Hok & Hlen).
  exists (EnrichGpData.new_rows st'), (snd (EnrichGpData.main str_of net rows w)).
  assert (fst (EnrichGpData.main str_of net rows w) = Ok (EnrichGpData.new_rows st')) as Hfst
    by (apply main_fst; eauto).
  split; [rewrite <- Hfst; now destruct (EnrichGpData.main str_of net rows w)|].
  split; [exact Hlen|].
  intros c H404 Hmiss.
  destruct (enrich_rows_invariant str_of net c
              (fun m => m !! c = EnrichGpData.load_map (EnrichGpData.map_file w) !! c)
              (fun icb => icb = EnrichGpData.JStr "UNKNOWN"))
    with (rows := rows) (st := initial_state w) (w := w) (st' := st')
    as (_ & outs & appended & Hnew & _ & Houts & Hfile & Hnotin); auto.
  - intros m k v Hne Hm. now rewrite lookup_insert_ne.
  - intros m w0 Hm. right. unfold cached in *. rewrite Hm.
    split; [assumption|]. now rewrite get_commissioner_code_404.
  - rewrite <- main_snd in Hfile. simpl in Hnew. subst outs.
    split; [|split; [eauto | now apply (load_map_appended _ _ appended)]].
    intros i row Hrow Hc. destruct (Houts i row Hrow Hc) as (out & icb & Ho & Hi & ->).
    eauto.
Qed.

(** *** The cells the Enricher writes

    That a cached code is not empty holds of every cache file that
    enrichment runs have built from nothing, as [str] gives no empty
    text for a value that is true. *)

Section WrittenCells.
Import EnrichGpData.
Variable str_of : json -> string.
Hypothesis str_of_true : forall v, truthy v = true -> csv_cell str_of v <> "".

Lemma load_rows_entry (rows : list (string * string)) (m : gmap string json) k X :
  fold_left (fun mapping row => <[snd row := JStr (fst row)]> mapping) rows m !! k
    = Some (JStr X) ->
  m !! k = Some (JStr X) \/ In (X, k) rows.
Proof.
  revert m. induction rows as [|[x k'] rows IH]; intros m; simpl; [auto|].
  intros Hk. destruct (IH _ Hk) as [Hm|Hin]; [|auto].
  destruct (string_dec k' k) as [->|Hne].
  - rewrite lookup_insert_eq in Hm. injection Hm as ->. auto.
  - rewrite lookup_insert_ne in Hm by assumption. auto.
Qed.

Lemma runs_write_nonempty jobs : forall w,
  Forall (fun row => fst row <> "") (file_rows w) ->
  Forall (fun row => fst row <> "") (file_rows (enrichment_runs str_of jobs w)).
Proof.
  induction jobs as [|[net rows] jobs IH]; intros w Hw; simpl; [assumption|].
  apply IH.
  destruct (enrich_rows_effects str_of net rows (initial_state w) w)
    as (reqs & appended & _ & Hfile & _ & _ & _ & _ & Hcell).
  rewrite <- main_snd in Hfile. rewrite Hfile.
  apply Forall_app. split; [assumption|].
  apply List.Forall_forall. intros [x k] Hin.
  destruct (Hcell x k Hin) as (found & Htrue & ->). now apply str_of_true.
Qed.

Lemma built_cache_nonempty jobs w k X :
  map_file w = None ->
  load_map (map_file (enrichment_runs str_of jobs w)) !! k = Some (JStr X) -> X <> "".
Proof.
  intros Hfresh Hk. rewrite load_map_file_rows in Hk. simpl in Hk.
  apply load_rows_entry in Hk. destruct Hk as [Hk|Hin]; [rewrite lookup_empty in Hk; discriminate|].
  assert (Forall (fun row => fst row <> "") (file_rows (enrichment_runs str_of jobs w))) as Hall.
  { apply runs_write_nonempty. unfold file_rows. rewrite Hfresh. constructor. }
  rewrite List.Forall_forall in Hall. exact (Hall _ Hin).
Qed.

End WrittenCells.

Lemma enrichment_example :
  let run := EnrichGpData.main plain_str small_registry four_rows one_row_cache in
  map (fun out => dict_get out "ICB Sub location") (default [] (match fst run with
                                                               | Ok out_rows => Some out_rows
                                                               | Raise _ => None
                                                               end))
  = [Some (EnrichGpData.JStr "15E"); Some (EnrichGpData.JStr "UNKNOWN");
     Some (EnrichGpData.JStr "16C"); Some (EnrichGpData.JStr "UNKNOWN")] /\
  EnrichGpData.requests (snd run)
  = [EnrichGpData.api_url "A81002"; EnrichGpData.api_url "A81003";
     EnrichGpData.api_url "A81004"] /\
  EnrichGpData.map_file (snd run) = Some [("15E", "A81001"); ("16C", "A81003")].
Proof. vm_compute. repeat split. Qed.

Lemma C3_cache_witness :
  EnrichGpData.load_map
    (EnrichGpData.map_file
       (snd (EnrichGpData.main plain_str small_registry four_rows
               (enrichment_runs plain_str [(small_registry, four_rows)] one_row_cache))))
    !! "A81001" = Some (EnrichGpData.JStr "15E").
Proof.
  apply (C3_cache_append_only plain_str [(small_registry, four_rows)]
           small_registry four_rows one_row_cache "A81001" "15E").
  - vm_compute. reflexivity.
  - discriminate.
Defined.

Lemma C4_resilience_witness :
  exists out_rows w',
    EnrichGpData.main plain_str small_registry four_rows one_row_cache = (Ok out_rows, w') /\
    length out_rows = 4%nat /\
    nth_error (map (fun out => dict_get out "ICB Sub location") out_rows) 1
      = Some (Some (EnrichGpData.JStr "UNKNOWN")).
Proof.
  destruct (C4_enrichment_resilience_404 plain_str small_registry four_rows one_row_cache)
    as (out_rows & w' & Hrun & Hlen & H404).
  - repeat constructor.
  - exists out_rows, w'. split; [exact Hrun|]. split; [exact Hlen|].
    destruct (H404 "A81002") as (Hunknown & _).
    + intros t. exists None. reflexivity.
    + vm_compute. reflexivity.
    + destruct (Hunknown 1%nat (supplier_row "A81002" "EMIS") eq_refl eq_refl)
        as (out & Hout & Hicb).
      rewrite nth_error_map, Hout. simpl. now rewrite Hicb.
Defined.

(** * Further properties *)

(** ** The cache file *)

(** X1: a row appended to the cache file is what the next load finds for
    its code, whatever the file held for that code before; the entries
    of the other codes are the ones loaded before; and the file exists
    afterwards with its old rows first. *)
Theorem append_to_map_then_load (str_of : EnrichGpData.json -> string)
    (ods_code k : string) (icb_code : EnrichGpData.json) (w : EnrichGpData.world) :
  let w' := EnrichGpData.append_to_map str_of ods_code icb_code w in
  EnrichGpData.load_map (EnrichGpData.map_file w') !! k =
    (if String.eqb k ods_code
     then Some (EnrichGpData.JStr (EnrichGpData.csv_cell str_of icb_code))
     else EnrichGpData.load_map (EnrichGpData.map_file w) !! k) /\
  EnrichGpData.map_file w' =
    Some (file_rows w ++ [(EnrichGpData.csv_cell str_of icb_code, ods_code)]) /\
  EnrichGpData.requests w' = EnrichGpData.requests w.
Proof.
  cbv zeta. split; [|split; reflexivity].
  rewrite (load_map_file_rows w). unfold EnrichGpData.append_to_map. simpl.
  fold (file_rows w). rewrite fold_left_app. simpl.
  destruct (String.eqb k ods_code) eqn:E.
  - apply String.eqb_eq in E. subst k. apply lookup_insert_eq.
  - apply String.eqb_neq in E. apply lookup_insert_ne. congruence.
Qed.

(** ** Queries to the registry *)

Section RegistryQueries.
Import EnrichGpData.

Lemma get_commissioner_code_requests net c w :
  requests (snd (get_commissioner_code net c w)) =
  requests w ++
    (if is_429 (net (api_url c) (length (requests w)))
     then [api_url c; api_url c] else [api_url c]).
Proof.
  unfold get_commissioner_code, requests_get, is_429.
  destruct (net (api_url c) (length (requests w))) as [|r1]; simpl; [reflexivity|].
  destruct (status_code r1 =? 429)%Z; simpl;
    repeat match goal with
           | |- context [if ?b then _ else _] => destruct b; simpl
           | |- context [match ?x with _ => _ end] => destruct x; simpl
           end; rewrite <- ?app_assoc; reflexivity.
Qed.

Lemma rejected_reply_none net c w :
  let first := net (api_url c) (length (requests w)) in
  let second := net (api_url c) (S (length (requests w))) in
  rejected (if is_429 first then second else first) ->
  fst (get_commissioner_code net c w) = JNull.
Proof.
  cbv zeta. unfold get_commissioner_code, requests_get, is_429, rejected.
  destruct (net (api_url c) (length (requests w))) as [|r1]; simpl; [reflexivity|].
  destruct (status_code r1 =? 429)%Z eqn:E429; simpl.
  - rewrite length_app. simpl. rewrite Nat.add_1_r.
    destruct (net (api_url c) (S (length (requests w)))) as [|r]; simpl; [reflexivity|].
    intros [Hstatus| ->].
    + destruct (status_code r =? 404)%Z; [reflexivity|]. unfold is_http_error.
      replace (400 <=? status_code r)%Z with true by (symmetry; apply Z.leb_le; lia).
      replace (status_code r <? 600)%Z with true by (symmetry; apply Z.ltb_lt; lia).
      reflexivity.
    + destruct (status_code r =? 404)%Z; [reflexivity|].
      now destruct (is_http_error r).
  - intros [Hstatus| ->].
    + destruct (status_code r1 =? 404)%Z; [reflexivity|]. unfold is_http_error.
      replace (400 <=? status_code r1)%Z with true by (symmetry; apply Z.leb_le; lia).
      replace (status_code r1 <? 600)%Z with true by (symmetry; apply Z.ltb_lt; lia).
      reflexivity.
    + destruct (status_code r1 =? 404)%Z; [reflexivity|].
      now destruct (is_http_error r1).
Qed.

End RegistryQueries.

(** X2: a query to the registry requests the URL of its code once, and
    a second time exactly when the first reply is a response with status
    429; it never touches the cache file.  When the reply it settles on
    (the second after a 429, else the first) is no response, has a
    status from 400 to 599 (404 and a repeated 429 among them) or a body
    that is not JSON, the query returns [None]. *)
Theorem get_commissioner_code_retries_once (net : EnrichGpData.registry)
    (ods_code : string) (w : EnrichGpData.world) :
  let url := EnrichGpData.api_url ods_code in
  let first := net url (length (EnrichGpData.requests w)) in
  let second := net url (S (length (EnrichGpData.requests w))) in
  let query := EnrichGpData.get_commissioner_code net ods_code w in
  EnrichGpData.requests (snd query) =
    EnrichGpData.requests w ++ (if is_429 first then [url; url] else [url]) /\
  EnrichGpData.map_file (snd query) = EnrichGpData.map_file w /\
  (rejected (if is_429 first then second else first) ->
   fst query = EnrichGpData.JNull).
Proof.
  cbv zeta. split; [apply get_commissioner_code_requests|].
  split; [apply get_commissioner_code_world | apply rejected_reply_none].
Qed.

Section Relationships.
Import EnrichGpData.

Lemma scan_relationships_passed_over pre rest :
  Forall passed_over pre ->
  scan_relationships (pre ++ rest) = scan_relationships rest.
Proof.
  induction 1 as [|rel pre (items & -> & Hno) _ IH]; simpl; [reflexivity|].
  destruct (eq_str (default JNull (dict_get items "Status")) "Active"); [|exact IH].
  simpl in Hno. now rewrite Hno.
Qed.

Lemma scan_relationships_commissioned rel extension rest :
  commissioned rel extension ->
  scan_relationships (rel :: rest) = Ok (Some extension).
Proof.
  intros (items & target & org_id & -> & Hstatus & Hid & Htarget & Hne & Horg & ->).
  simpl. rewrite Hstatus, Hid, Htarget. simpl.
  destruct target as [|entry target]; [congruence|].
  simpl. now rewrite Horg.
Qed.

Lemma find_commissioner_rels top org rels rel :
  dict_get top "Organisation" = Some (JDict org) ->
  dict_get org "Rels" = Some (JDict rels) ->
  dict_get rels "Rel" = Some rel ->
  find_commissioner (JDict top) =
  let! found := scan_relationships (match rel with JList l => l | other => [other] end) in
  Ok (default JNull found).
Proof.
  intros Htop Horg Hrels. unfold find_commissioner, py_in, py_getitem, dict_contains, dict_getitem.
  rewrite Htop. simpl. rewrite Horg. simpl. now rewrite Hrels.
Qed.

End Relationships.

(** X3: when the registry's reply is a response with a status outside
    400 to 599 whose body lists the relationships of the organisation,
    the query returns the OrgId extension of the first relationship that
    is Active and of type RE4: relationships that are not both are
    passed over, later ones are not looked at; a single relationship
    given as an object instead of a list is read in the same way. *)
Theorem get_commissioner_code_first_active_re4 (net : EnrichGpData.registry)
    (ods_code : string) (w : EnrichGpData.world) (status : Z)
    (top org rels : pydict EnrichGpData.json)
    (pre post : list EnrichGpData.json) (rel listed extension : EnrichGpData.json) :
  net (EnrichGpData.api_url ods_code) (length (EnrichGpData.requests w)) =
    EnrichGpData.Response {| EnrichGpData.status_code := status;
                             EnrichGpData.json_body := Some (EnrichGpData.JDict top) |} ->
  (status < 400 \/ 600 <= status)%Z ->
  dict_get top "Organisation" = Some (EnrichGpData.JDict org) ->
  dict_get org "Rels" = Some (EnrichGpData.JDict rels) ->
  dict_get rels "Rel" = Some listed ->
  (listed = EnrichGpData.JList (pre ++ rel :: post) /\ Forall passed_over pre) \/
  listed = rel ->
  commissioned rel extension ->
  fst (EnrichGpData.get_commissioner_code net ods_code w) = extension.
Proof.
  intros Hreply Hstatus Htop Horg Hrels Hlisted Hrel.
  assert ((status =? 429)%Z = false) as H429 by (apply Z.eqb_neq; lia).
  assert ((status =? 404)%Z = false) as H404 by (apply Z.eqb_neq; lia).
  assert ((400 <=? status)%Z && (status <? 600)%Z = false) as Herr
    by (apply andb_false_iff; rewrite Z.leb_gt, Z.ltb_ge; lia).
  unfold EnrichGpData.get_commissioner_code, EnrichGpData.requests_get.
  rewrite Hreply. cbn [EnrichGpData.status_code]. rewrite H429.
  cbn [EnrichGpData.status_code]. rewrite H404.
  unfold EnrichGpData.is_http_error. cbn [EnrichGpData.status_code EnrichGpData.json_body].
  rewrite Herr.
  rewrite (find_commissioner_rels _ _ _ _ Htop Horg Hrels). cbv zeta.
  destruct Hlisted as [[-> Hpre]| ->].
  - rewrite (scan_relationships_passed_over _ _ Hpre).
    rewrite (scan_relationships_commissioned _ _ _ Hrel). reflexivity.
  - pose proof Hrel as (items & _ & _ & -> & _).
    rewrite (scan_relationships_commissioned _ _ _ Hrel). reflexivity.
Qed.

Lemma get_commissioner_code_first_active_re4_witness :
  fst (EnrichGpData.get_commissioner_code small_registry "A81003" one_row_cache)
  = EnrichGpData.JStr "16C".
Proof.
  eapply (get_commissioner_code_first_active_re4 small_registry "A81003" one_row_cache 200
            _ _ _
            [EnrichGpData.JDict
               [("Status", EnrichGpData.JStr "Inactive");
                ("id", EnrichGpData.JStr "RE4");
                ("Target",
                 EnrichGpData.JDict
                   [("OrgId",
                     EnrichGpData.JDict [("extension", EnrichGpData.JStr "00K")])])]]
            []).
  - reflexivity.
  - lia.
  - reflexivity.
  - reflexivity.
  - reflexivity.
  - left. split; [reflexivity|]. repeat constructor. eexists. split; reflexivity.
  - do 3 eexists. repeat split; try reflexivity. discriminate.
Defined.

(** ** The rows the Enricher writes *)

Section EnrichOutputs.
Import EnrichGpData.
Variable str_of : json -> string.
Variable net : registry.

Lemma dict_get_JStr (row : pydict string) f :
  dict_get (map (fun kv => (fst kv, JStr (snd kv))) row) f = option_map JStr (dict_get row f).
Proof.
  induction row as [|[k v] row IH]; [reflexivity|].
  simpl. rewrite !dict_get_cons. simpl. now destruct (String.eqb k f).
Qed.

Lemma with_icb_other row icb f :
  f <> "ICB Sub location" ->
  dict_get (with_icb row icb) f = option_map JStr (dict_get row f).
Proof.
  intros Hne. unfold with_icb. rewrite dict_get_set_ne by congruence. apply dict_get_JStr.
Qed.

Lemma load_map_strings file k v :
  load_map file !! k = Some v -> exists X, v = JStr X.
Proof.
  destruct file as [rows|]; simpl; [|rewrite lookup_empty; discriminate].
  assert (forall (m : gmap string json),
             (forall k' v', m !! k' = Some v' -> exists X, v' = JStr X) ->
             fold_left (fun mapping row => <[snd row := JStr (fst row)]> mapping) rows m !! k
               = Some v -> exists X, v = JStr X) as Hfold.
  { induction rows as [|[x k0] rows IH]; intros m Hm; simpl; [apply Hm|].
    apply IH. intros k' v'. destruct (string_dec k0 k') as [->|Hne].
    - rewrite lookup_insert_eq. intros [= <-]. eauto.
    - rewrite lookup_insert_ne by assumption. apply Hm. }
  apply Hfold. intros k' v'. rewrite lookup_empty. discriminate.
Qed.

Lemma load_map_after_append w ods_code icb_code k :
  load_map (map_file (append_to_map str_of ods_code icb_code w)) !! k =
  if String.eqb k ods_code then Some (JStr (csv_cell str_of icb_code))
  else load_map (map_file w) !! k.
Proof.
  rewrite (load_map_file_rows w). unfold append_to_map. simpl.
  fold (file_rows w). rewrite fold_left_app. simpl.
  destruct (String.eqb k ods_code) eqn:E.
  - apply String.eqb_eq in E. subst k. apply lookup_insert_eq.
  - apply String.eqb_neq in E. apply lookup_insert_ne. congruence.
Qed.

Lemma cache_backed_initial w : cache_backed str_of (load_map (map_file w)) w.
Proof.
  intros k v Hk _. destruct (load_map_strings _ _ _ Hk) as [X ->]. exact Hk.
Qed.

Lemma cached_true_entry (m : gmap string json) k :
  cached m k = true -> m !! k = Some (default JNull (m !! k)).
Proof. unfold cached. destruct (m !! k); [reflexivity | discriminate]. Qed.

(** What the loop hands to the writer and what it leaves in the cache. *)
Lemma enrich_rows_outputs rows : forall st w st',
  cache_backed str_of (ods_map st) w ->
  fst (enrich_rows str_of net st w rows) = Ok st' ->
  cache_backed str_of (ods_map st') (snd (enrich_rows str_of net st w rows)) /\
  (forall k v, ods_map st !! k = Some v -> truthy v = true -> ods_map st' !! k = Some v) /\
  exists outs,
    new_rows st' = new_rows st ++ outs /\
    Forall2 (fun row out =>
               exists k icb,
                 dict_get row "GP_ODS_CODE" = Some k /\ out = with_icb row icb /\
                 truthy icb = true /\
                 (icb = JStr "UNKNOWN" \/ ods_map st' !! k = Some icb))
            rows outs.
Proof.
  induction rows as [|row rows IH]; intros st w st' Hback; simpl.
  - intros [= <-]. split; [assumption|]. split; [auto|].
    exists []. rewrite app_nil_r. split; [reflexivity | constructor].
  - destruct (dict_get row "GP_ODS_CODE") as [k|] eqn:Hk.
    2:{ rewrite enrich_row_key_error by assumption. discriminate. }
    assert (forall st1 w1 icb,
               cache_backed str_of (ods_map st1) w1 ->
               (forall k' v, ods_map st !! k' = Some v -> truthy v = true ->
                             ods_map st1 !! k' = Some v) ->
               new_rows st1 = new_rows st ++ [with_icb row icb] ->
               truthy icb = true ->
               icb = JStr "UNKNOWN" \/ ods_map st1 !! k = Some icb ->
               fst (enrich_rows str_of net st1 w1 rows) = Ok st' ->
               cache_backed str_of (ods_map st') (snd (enrich_rows str_of net st1 w1 rows)) /\
               (forall k' v, ods_map st !! k' = Some v -> truthy v = true ->
                             ods_map st' !! k' = Some v) /\
               exists outs,
                 new_rows st' = new_rows st ++ outs /\
                 Forall2 (fun row out =>
                            exists k icb,
                              dict_get row "GP_ODS_CODE" = Some k /\ out = with_icb row icb /\
                              truthy icb = true /\
                              (icb = JStr "UNKNOWN" \/ ods_map st' !! k = Some icb))
                         (row :: rows) outs) as Hstep.
    { intros st1 w1 icb Hback1 Hmono1 Hnew Htrue Hicb Hrest.
      destruct (IH st1 w1 st' Hback1 Hrest) as (Hback' & Hmono' & outs & Hnew' & Houts).
      split; [assumption|]. split; [auto|].
      exists (with_icb row icb :: outs).
      split; [rewrite Hnew', Hnew; now rewrite <- app_assoc|].
      constructor; [|assumption].
      exists k, icb. repeat split; auto.
      destruct Hicb as [->|Hentry]; [now left | right; auto]. }
    destruct (cached (ods_map st) k) eqn:Hhit.
    { intros Hrest. rewrite (enrich_row_hit _ _ _ _ _ _ Hk Hhit) in Hrest |- *.
      eapply Hstep; try eassumption; simpl; auto.
      right. now apply cached_true_entry. }
    assert (forall k' v, ods_map st !! k' = Some v -> truthy v = true -> k <> k') as Hother.
    { intros k' v Hentry Htrue ->. unfold cached in Hhit. rewrite Hentry in Hhit.
      simpl in Hhit. congruence. }
    destruct (get_commissioner_code_world net k w) as (Hfile & _).
    destruct (truthy (fst (get_commissioner_code net k w))) eqn:Hfound.
    + intros Hrest. rewrite (enrich_row_found _ _ _ _ _ _ Hk Hhit Hfound) in Hrest |- *.
      eapply Hstep; try eassumption; simpl; auto.
      * intros k' v. rewrite load_map_after_append.
        destruct (String.eqb k' k) eqn:E.
        -- apply String.eqb_eq in E. subst k'. rewrite lookup_insert_eq.
           now intros [= <-].
        -- apply String.eqb_neq in E. rewrite lookup_insert_ne by congruence.
           rewrite Hfile. apply Hback.
      * intros k' v Hentry Htrue. rewrite lookup_insert_ne; [assumption|].
        now apply (Hother k' v).
      * right. apply lookup_insert_eq.
    + intros Hrest. rewrite (enrich_row_unknown _ _ _ _ _ _ Hk Hhit Hfound) in Hrest |- *.
      eapply Hstep; try eassumption; simpl; auto.
      intros k' v. rewrite Hfile. apply Hback.
Qed.

End EnrichOutputs.

(** X4: every row the Enricher hands to the writer is its input row, in
    input order, with the ICB cell set and nothing else changed: the
    other fields are the input's, no field is lost, and the ICB cell is
    a value that is true - a cached code, a code just found or UNKNOWN,
    never an empty cell or [None]. *)
Theorem enricher_rows_keep_input (str_of : EnrichGpData.json -> string)
    (net : EnrichGpData.registry) (rows : list (pydict string))
    (w : EnrichGpData.world) (out_rows : list (pydict EnrichGpData.json)) :
  fst (EnrichGpData.main str_of net rows w) = Ok out_rows ->
  Forall2 (fun row out =>
             (exists icb, dict_get out "ICB Sub location" = Some icb /\
                          EnrichGpData.truthy icb = true) /\
             (forall f, f <> "ICB Sub location" ->
                        dict_get out f = option_map EnrichGpData.JStr (dict_get row f)) /\
             dict_keys out =
               (if existsb (String.eqb "ICB Sub location") (dict_keys row)
                then dict_keys row else dict_keys row ++ ["ICB Sub location"]))
          rows out_rows.
Proof.
  intros Hout. apply main_fst in Hout. destruct Hout as (st' & Hok & ->).
  destruct (enrich_rows_outputs str_of net rows (initial_state w) w st'
              (cache_backed_initial str_of w) Hok) as (_ & _ & outs & Hnew & Houts).
  simpl in Hnew. subst outs.
  eapply Forall2_impl; [exact Houts|].
  intros row out (k & icb & _ & -> & Htrue & _).
  split; [exists icb; split; [apply with_icb_get | assumption]|].
  split; [intros f Hf; now apply with_icb_other|].
  unfold with_icb. rewrite dict_set_keys. unfold dict_keys. now rewrite map_map.
Qed.

Lemma enricher_rows_keep_input_witness :
  exists out_rows,
    fst (EnrichGpData.main plain_str small_registry four_rows one_row_cache) = Ok out_rows /\
    Forall2 (fun row out =>
               (exists icb, dict_get out "ICB Sub location" = Some icb /\
                            EnrichGpData.truthy icb = true) /\
               (forall f, f <> "ICB Sub location" ->
                          dict_get out f = option_map EnrichGpData.JStr (dict_get row f)) /\
               dict_keys out =
                 (if existsb (String.eqb "ICB Sub location") (dict_keys row)
                  then dict_keys row else dict_keys row ++ ["ICB Sub location"]))
            four_rows out_rows.
Proof.
  eexists. split; [vm_compute; reflexivity|].
  apply (enricher_rows_keep_input plain_str small_registry four_rows one_row_cache).
  vm_compute. reflexivity.
Defined.

(** X5: after a run that returns, the cache file accounts for every
    commissioner written: the ICB cell of each output row is UNKNOWN, or
    else its text is what a load of the cache file now gives for the
    row's code. *)
Theorem enricher_outputs_are_cached (str_of : EnrichGpData.json -> string)
    (net : EnrichGpData.registry) (rows : list (pydict string))
    (w : EnrichGpData.world) (out_rows : list (pydict EnrichGpData.json)) :
  fst (EnrichGpData.main str_of net rows w) = Ok out_rows ->
  Forall2 (fun row out =>
             exists k icb,
               dict_get row "GP_ODS_CODE" = Some k /\
               dict_get out "ICB Sub location" = Some icb /\
               (icb = EnrichGpData.JStr "UNKNOWN" \/
                EnrichGpData.load_map
                  (EnrichGpData.map_file (snd (EnrichGpData.main str_of net rows w))) !! k
                = Some (EnrichGpData.JStr (EnrichGpData.csv_cell str_of icb))))
          rows out_rows.
Proof.
  intros Hout. apply main_fst in Hout. destruct Hout as (st' & Hok & ->).
  destruct (enrich_rows_outputs str_of net rows (initial_state w) w st'
              (cache_backed_initial str_of w) Hok) as (Hback & _ & outs & Hnew & Houts).
  simpl in Hnew. subst outs. rewrite main_snd.
  eapply Forall2_impl; [exact Houts|].
  intros row out (k & icb & Hk & -> & Htrue & Hicb).
  exists k, icb. split; [assumption|]. split; [apply with_icb_get|].
  destruct Hicb as [->|Hentry]; [now left | right; now apply Hback].
Qed.

Lemma enricher_outputs_are_cached_witness :
  exists out_rows,
    fst (EnrichGpData.main plain_str small_registry four_rows one_row_cache) = Ok out_rows /\
    Forall2 (fun row out =>
               exists k icb,
                 dict_get row "GP_ODS_CODE" = Some k /\
                 dict_get out "ICB Sub location" = Some icb /\
                 (icb = EnrichGpData.JStr "UNKNOWN" \/
                  EnrichGpData.load_map
                    (EnrichGpData.map_file
                       (snd (EnrichGpData.main plain_str small_registry four_rows
                               one_row_cache))) !! k
                  = Some (EnrichGpData.JStr (EnrichGpData.csv_cell plain_str icb))))
            four_rows out_rows.
Proof.
  eexists. split; [vm_compute; reflexivity|].
  apply (enricher_outputs_are_cached plain_str small_registry four_rows one_row_cache).
  vm_compute. reflexivity.
Defined.

Lemma enrich_rows_all_hits (str_of : EnrichGpData.json -> string)
    (net : EnrichGpData.registry) (rows : list (pydict string)) :
  forall (st : EnrichGpData.run_state) (w : EnrichGpData.world),
    Forall (fun row => exists k, dict_get row "GP_ODS_CODE" = Some k /\
                                 cached (EnrichGpData.ods_map st) k = true) rows ->
    exists st' outs,
      EnrichGpData.enrich_rows str_of net st w rows = (Ok st', w) /\
      EnrichGpData.ods_map st' = EnrichGpData.ods_map st /\
      EnrichGpData.new_rows st' = EnrichGpData.new_rows st ++ outs /\
      Forall2 (fun row out =>
                 exists k, dict_get row "GP_ODS_CODE" = Some k /\
                           out = with_icb row
                                   (default EnrichGpData.JNull (EnrichGpData.ods_map st !! k)))
              rows outs.
Proof.
  induction rows as [|row rows IH]; intros st w Hall; simpl.
  - exists st, []. rewrite app_nil_r. repeat split. constructor.
  - inversion Hall as [|? ? (k & Hk & Hhit) Hrest]; subst.
    rewrite (enrich_row_hit _ _ _ _ _ _ Hk Hhit).
    match goal with |- context [EnrichGpData.enrich_rows _ _ ?s _ _] => destruct (IH s w) as (st' & outs & Hrun & Hmap & Hnew & Houts) end.
    { exact Hrest. }
    exists st', (with_icb row (default EnrichGpData.JNull (EnrichGpData.ods_map st !! k)) :: outs).
    simpl in *. split; [assumption|]. split; [assumption|].
    split; [rewrite Hnew; now rewrite <- app_assoc|].
    constructor; [eauto | assumption].
Qed.

(** X6: a run on an input whose codes all hit in the cache makes no
    request and writes nothing to the cache file, whatever the registry
    would answer: the world is left as it was, and every output row
    carries the cached code of its row. *)
Theorem fully_cached_run_is_offline (str_of : EnrichGpData.json -> string)
    (net : EnrichGpData.registry) (rows : list (pydict string)) (w : EnrichGpData.world) :
  Forall (fun row =>
            exists k, dict_get row "GP_ODS_CODE" = Some k /\
                      cached (EnrichGpData.load_map (EnrichGpData.map_file w)) k = true)
         rows ->
  exists out_rows,
    EnrichGpData.main str_of net rows w = (Ok out_rows, w) /\
    Forall2 (fun row out =>
               exists k, dict_get row "GP_ODS_CODE" = Some k /\
                         out = with_icb row
                                 (default EnrichGpData.JNull
                                    (EnrichGpData.load_map (EnrichGpData.map_file w) !! k)))
            rows out_rows.
Proof.
  intros Hall.
  destruct (enrich_rows_all_hits str_of net rows (initial_state w) w Hall)
    as (st' & outs & Hrun & _ & Hnew & Houts).
  exists outs. unfold EnrichGpData.main. fold (initial_state w). rewrite Hrun.
  simpl in Hnew. subst outs. split; [reflexivity | exact Houts].
Qed.

Lemma fully_cached_run_is_offline_witness :
  exists out_rows,
    EnrichGpData.main plain_str small_registry [supplier_row "A81001" "TPP"] one_row_cache
      = (Ok out_rows, one_row_cache) /\
    Forall2 (fun row out =>
               exists k, dict_get row "GP_ODS_CODE" = Some k /\
                         out = with_icb row
                                 (default EnrichGpData.JNull
                                    (EnrichGpData.load_map
                                       (EnrichGpData.map_file one_row_cache) !! k)))
            [supplier_row "A81001" "TPP"] out_rows.
Proof.
  apply (fully_cached_run_is_offline plain_str small_registry
           [supplier_row "A81001" "TPP"] one_row_cache).
  repeat constructor. exists "A81001". split; [reflexivity | vm_compute; reflexivity].
Defined.

(** ** The query engine: filters and searches *)

Section Filters.
Import GpLookup.

Lemma filter_rows_filter term data : forall results,
  Forall has_system data ->
  filter_rows term results data =
  Ok (results ++ List.filter (fun row => String.eqb (system_of row) term) data).
Proof.
  induction data as [|row data IH]; intros results Hall; simpl.
  - now rewrite app_nil_r.
  - inversion Hall as [|? ? Hrow Hrest]; subst.
    unfold has_system, dict_contains in Hrow. unfold dict_getitem, system_of.
    destruct (dict_get row "GP_SYSTEM") as [system|]; [|discriminate]. simpl.
    destruct (String.eqb system term); rewrite IH by assumption;
      [now rewrite <- app_assoc | reflexivity].
Qed.

Lemma filter_rows_members term data : forall results found row,
  filter_rows term results data = Ok found ->
  In row found -> In row results \/ (In row data /\ dict_get row "GP_SYSTEM" = Some term).
Proof.
  induction data as [|r data IH]; intros results found row; simpl.
  - intros [= <-]. auto.
  - unfold dict_getitem. destruct (dict_get r "GP_SYSTEM") as [system|] eqn:Hsys;
      simpl; [|discriminate].
    destruct (String.eqb system term) eqn:E; intros Hrun Hin;
      destruct (IH _ _ _ Hrun Hin) as [Hres|[Hdata Hrow]]; auto.
    apply in_app_or in Hres. destruct Hres as [Hres|[<-|[]]]; auto.
    apply String.eqb_eq in E. subst. auto.
Qed.

Lemma filter_length_count (term : string) (column : list string) (data : dataset) :
  column = map system_of data ->
  length (List.filter (fun row => String.eqb (system_of row) term) data)
  = count_occ string_dec column term.
Proof.
  intros ->. induction data as [|row data IH]; [reflexivity|].
  simpl. destruct (string_dec (system_of row) term) as [Heq|Hne].
  - apply String.eqb_eq in Heq. rewrite Heq. simpl. now rewrite IH.
  - apply String.eqb_neq in Hne. now rewrite Hne.
Qed.

Lemma search_rows_filter term exact data : forall results,
  Forall has_name data ->
  search_rows term exact results data =
  Ok (results ++
      List.filter (fun row => if exact then String.eqb (str_upper (name_of row)) term
                              else str_in term (str_upper (name_of row))) data).
Proof.
  induction data as [|row data IH]; intros results Hall; simpl.
  - now rewrite app_nil_r.
  - inversion Hall as [|? ? Hrow Hrest]; subst.
    unfold has_name, dict_contains in Hrow. unfold dict_getitem, name_of.
    destruct (dict_get row "GP_NAME") as [name|]; [|discriminate]. simpl.
    destruct exact.
    + destruct (String.eqb (str_upper name) term); rewrite IH by assumption;
        [now rewrite <- app_assoc | reflexivity].
    + destruct (str_in term (str_upper name)); rewrite IH by assumption;
        [now rewrite <- app_assoc | reflexivity].
Qed.

Lemma prefix_refl s : String.prefix s s = true.
Proof. induction s as [|c s IH]; simpl; [reflexivity|]. now destruct (ascii_dec c c). Qed.

Lemma str_in_refl s : str_in s s = true.
Proof. destruct s; simpl; [reflexivity|]. rewrite prefix_refl. now destruct (ascii_dec a a). Qed.

Lemma str_in_empty s : str_in "" s = true.
Proof. now destruct s. Qed.

End Filters.

(** X7: on a dataset whose rows have the GP_SYSTEM column,
    [filter_by_system] returns, in file order, the rows whose GP_SYSTEM
    cell equals the upper-cased query; their number is the count that
    [get_statistics] reports for that supplier name. *)
Theorem filter_by_system_agrees_with_statistics (data : GpLookup.dataset) (system : string) :
  Forall has_system data ->
  exists results,
    GpLookup.filter_by_system data system = Ok results /\
    results = List.filter (fun row => String.eqb (system_of row) (str_upper system)) data /\
    length results = count_occ string_dec (map system_of data) (str_upper system) /\
    (forall stats e,
        GpLookup.get_statistics data = Ok stats ->
        In (str_upper system, e) (GpLookup.systems stats) ->
        GpLookup.count e = length results).
Proof.
  intros Hall. eexists.
  split; [unfold GpLookup.filter_by_system; now rewrite filter_rows_filter|].
  split; [reflexivity|].
  assert (length (List.filter (fun row => String.eqb (system_of row) (str_upper system)) data)
          = count_occ string_dec (map system_of data) (str_upper system)) as Hlen
    by now apply filter_length_count.
  split; [exact Hlen|].
  intros stats e Hstats Hin. rewrite (get_statistics_eq _ Hall) in Hstats.
  injection Hstats as <-. cbn [GpLookup.systems] in Hin.
  apply in_map_iff in Hin. destruct Hin as ([s n] & Heq & Hin).
  unfold to_stats in Heq. cbn [fst snd] in Heq. injection Heq as -> <-.
  cbn [GpLookup.count].
  apply (proj1 (sorted_In _ _ _)) in Hin.
  destruct (counted_items _ _ _ Hin) as [-> _]. symmetry. exact Hlen.
Qed.

Lemma filter_by_system_agrees_with_statistics_witness :
  exists results,
    GpLookup.filter_by_system four_practices "tpp" = Ok results /\
    results = List.filter (fun row => String.eqb (system_of row) (str_upper "tpp"))
                          four_practices /\
    length results = count_occ string_dec (map system_of four_practices) (str_upper "tpp") /\
    (forall stats e,
        GpLookup.get_statistics four_practices = Ok stats ->
        In (str_upper "tpp", e) (GpLookup.systems stats) ->
        GpLookup.count e = length results).
Proof.
  apply (filter_by_system_agrees_with_statistics four_practices "tpp").
  repeat constructor.
Defined.

(** X8: on a dataset whose rows have the GP_NAME column, a search
    returns, in file order, the rows whose upper-cased name equals (exact)
    or contains (otherwise) the upper-cased term; so the letter case of
    the term is immaterial, the exact matches are among the substring
    matches, and the empty term matches every row. *)
Theorem search_by_name_results (data : GpLookup.dataset) (name : string) :
  Forall has_name data ->
  exists exact_matches matches,
    GpLookup.search_by_name data name true = Ok exact_matches /\
    GpLookup.search_by_name data name false = Ok matches /\
    exact_matches =
      List.filter (fun row => String.eqb (str_upper (name_of row)) (str_upper name)) data /\
    matches =
      List.filter (fun row => str_in (str_upper name) (str_upper (name_of row))) data /\
    exact_matches =
      List.filter (fun row => String.eqb (str_upper (name_of row)) (str_upper name)) matches /\
    (forall exact, GpLookup.search_by_name data (str_upper name) exact
                   = GpLookup.search_by_name data name exact) /\
    GpLookup.search_by_name data "" false = Ok data.
Proof.
  intros Hall. do 2 eexists.
  split; [unfold GpLookup.search_by_name; now rewrite search_rows_filter|].
  split; [unfold GpLookup.search_by_name; now rewrite search_rows_filter|].
  split; [reflexivity|]. split; [reflexivity|].
  split.
  - clear Hall. induction data as [|row data IH]; [reflexivity|]. simpl.
    destruct (String.eqb (str_upper (name_of row)) (str_upper name)) eqn:E.
    + apply String.eqb_eq in E. rewrite <- E, str_in_refl. simpl.
      rewrite String.eqb_refl. f_equal. rewrite E. exact IH.
    + destruct (str_in (str_upper name) (str_upper (name_of row))); [|exact IH].
      simpl. rewrite E. exact IH.
  - split.
    + intros exact. unfold GpLookup.search_by_name. now rewrite upper_idem.
    + unfold GpLookup.search_by_name. rewrite search_rows_filter by assumption. simpl.
      f_equal. clear Hall. induction data as [|row data IH]; [reflexivity|].
      simpl. rewrite str_in_empty. now rewrite IH.
Qed.

Lemma search_by_name_results_witness :
  exists exact_matches matches,
    GpLookup.search_by_name four_practices "park medical" true = Ok exact_matches /\
    GpLookup.search_by_name four_practices "park medical" false = Ok matches /\
    exact_matches =
      List.filter (fun row => String.eqb (str_upper (name_of row)) (str_upper "park medical"))
                  four_practices /\
    matches =
      List.filter (fun row => str_in (str_upper "park medical") (str_upper (name_of row)))
                  four_practices /\
    exact_matches =
      List.filter (fun row => String.eqb (str_upper (name_of row)) (str_upper "park medical"))
                  matches /\
    (forall exact, GpLookup.search_by_name four_practices (str_upper "park medical") exact
                   = GpLookup.search_by_name four_practices "park medical" exact) /\
    GpLookup.search_by_name four_practices "" false = Ok four_practices.
Proof.
  apply (search_by_name_results four_practices "park medical").
  repeat constructor.
Defined.

(** X9: only the query is upper-cased, never the stored cell: a record
    returned by [lookup_by_ods_code] has an ODS code that is its own
    upper case, and every record returned by [filter_by_system] has a
    GP_SYSTEM cell that is its own upper case.  A record stored with a
    lower-case letter in the cell is returned for no query at all. *)
Theorem stored_lower_case_is_unreachable (data : GpLookup.dataset) (row : pydict string) :
  (forall ods_code,
      GpLookup.lookup_by_ods_code data ods_code = Ok (Some row) ->
      exists code, dict_get row "GP_ODS_CODE" = Some code /\ str_upper code = code) /\
  (forall system results,
      GpLookup.filter_by_system data system = Ok results -> In row results ->
      exists cell, dict_get row "GP_SYSTEM" = Some cell /\ str_upper cell = cell).
Proof.
  split.
  - intros ods_code Hfound.
    destruct (lookup_found _ _ _ Hfound) as (_ & _ & _ & _ & Hcode).
    exists (str_upper ods_code). split; [assumption | apply upper_idem].
  - intros system results Hrun Hin. unfold GpLookup.filter_by_system in Hrun.
    destruct (filter_rows_members _ _ _ _ _ Hrun Hin) as [[]|[_ Hcell]].
    exists (str_upper system). split; [assumption | apply upper_idem].
Qed.

(** ** The canonical supplier, again *)

Lemma str_split_token_whole sep s t : In t (str_split sep s) -> str_split sep t = [t].
Proof.
  revert t. induction s as [|c rest IH]; intros t; simpl.
  - intros [<-|[]]. reflexivity.
  - destruct (Ascii.eqb c sep) eqn:E.
    + intros [<-|Hin]; [reflexivity | now apply IH].
    + pose proof (str_split_nonempty sep rest) as Hne.
      destruct (str_split sep rest) as [|tok toks]; [congruence|].
      intros [<-|Hin].
      * simpl. rewrite E. rewrite (IH tok) by now left. reflexivity.
      * apply IH. now right.
Qed.

Lemma str_split_whole_free sep t :
  str_split sep t = [t] -> str_in (String sep "") t = false.
Proof.
  induction t as [|c rest IH]; simpl; [reflexivity|].
  destruct (Ascii.eqb c sep) eqn:E; [discriminate|].
  pose proof (str_split_nonempty sep rest) as Hne.
  destruct (str_split sep rest) as [|tok toks] eqn:Hs; [congruence|].
  intros [= -> ->]. rewrite IH by reflexivity.
  destruct (ascii_dec sep c) as [->|Hne']; [rewrite Ascii.eqb_refl in E; discriminate|].
  reflexivity.
Qed.

(** X10: the canonical supplier of any raw field contains no slash and
    is its own canonical supplier, so that resolving a GP_SYSTEM cell
    again changes nothing; and it is EVERGREENLIFE only for the field
    EVERGREENLIFE alone or a field whose first two tokens are both
    EVERGREENLIFE. *)
Theorem canonical_supplier_is_a_fixed_point (value : string) :
  exists t,
    Helpers.get_main_system_from_value value = Ok t /\
    str_in "/" t = false /\
    Helpers.get_main_system_from_value t = Ok t /\
    (t = Helpers.EVERGREENLIFE <->
     match str_split "/" value with
     | [] => False
     | [only] => only = Helpers.EVERGREENLIFE
     | first :: second :: _ =>
         first = Helpers.EVERGREENLIFE /\ second = Helpers.EVERGREENLIFE
     end).
Proof.
  destruct (get_main_system_resolves value) as (t & Hc & Hr & Hin).
  exists t. split; [exact Hr|].
  pose proof (str_split_token_whole _ _ _ Hin) as Hwhole.
  split; [now apply (str_split_whole_free "/")|].
  split.
  - unfold Helpers.get_main_system_from_value. rewrite Hwhole. reflexivity.
  - destruct (str_split "/" value) as [|a [|b rest]]; simpl in Hc; [discriminate| |].
    + injection Hc as ->. tauto.
    + destruct (String.eqb a Helpers.EVERGREENLIFE) eqn:E; injection Hc as ->.
      * apply String.eqb_eq in E. tauto.
      * apply String.eqb_neq in E. tauto.
Qed.

(** ** The order of the region rows *)

Section FirstOccurrence.
Context {V : Type}.
Implicit Types (d : pydict V) (k : string) (v : V) (kvs : list (string * V)).

Lemma setdefaults_get_In kvs : forall d k v,
  dict_get (setdefaults kvs d) k = Some v -> dict_get d k = Some v \/ In (k, v) kvs.
Proof.
  induction kvs as [|[k0 v0] kvs IH]; intros d k v; simpl; [auto|].
  intros H. apply IH in H. destruct H as [H|H]; [|auto].
  destruct (string_dec k0 k) as [->|Hne].
  - rewrite setdefault_get_same in H. destruct (dict_get d k); [auto|].
    injection H as ->. auto.
  - rewrite setdefault_get_other in H by assumption. auto.
Qed.

Lemma first_occurrence kvs k :
  In k (map fst kvs) ->
  exists pre v post, kvs = pre ++ (k, v) :: post /\ ~ In k (map fst pre).
Proof.
  induction kvs as [|[k0 v0] kvs IH]; simpl; [tauto|].
  destruct (string_dec k0 k) as [->|Hne].
  - intros _. exists [], v0, kvs. simpl. tauto.
  - intros [?|Hin]; [congruence|].
    destruct (IH Hin) as (pre & v & post & -> & Hpre).
    exists ((k0, v0) :: pre), v, post. simpl. split; [reflexivity|tauto].
Qed.

Lemma setdefaults_single_valued kvs k v :
  (forall k v1 v2, In (k, v1) kvs -> In (k, v2) kvs -> v1 = v2) ->
  dict_get (setdefaults kvs []) k = Some v <-> In (k, v) kvs.
Proof.
  intros Hfun. split.
  - intros H. apply setdefaults_get_In in H. destruct H as [H|H]; [discriminate|exact H].
  - intros Hin.
    destruct (first_occurrence kvs k) as (pre & v0 & post & Heq & Hpre).
    { change k with (fst (k, v)). now apply in_map. }
    assert (v0 = v) as <-.
    { apply (Hfun k); [|exact Hin]. rewrite Heq. apply in_or_app. right. now left. }
    rewrite Heq. now apply setdefaults_first.
Qed.

(** Two lists in strictly ascending order of key with the same members
    are one list. *)
Lemma ascending_keys_unique (l1 : list (string * V)) : forall l2,
  StronglySorted (fun a b => String.ltb a b = true) (map fst l1) ->
  StronglySorted (fun a b => String.ltb a b = true) (map fst l2) ->
  (forall x, In x l1 <-> In x l2) ->
  l1 = l2.
Proof.
  induction l1 as [|x l1 IH]; intros [|y l2] H1 H2 Hmem.
  - reflexivity.
  - exfalso. apply (proj2 (Hmem y)). now left.
  - exfalso. apply (proj1 (Hmem x)). now left.
  - simpl in H1, H2.
    apply StronglySorted_inv in H1. destruct H1 as [H1 Hx].
    apply StronglySorted_inv in H2. destruct H2 as [H2 Hy].
    rewrite List.Forall_forall in Hx, Hy.
    assert (forall z, In z l1 -> String.ltb (fst x) (fst z) = true) as Hx'
      by (intros z Hz; apply Hx; now apply in_map).
    assert (forall z, In z l2 -> String.ltb (fst y) (fst z) = true) as Hy'
      by (intros z Hz; apply Hy; now apply in_map).
    assert (x = y) as <-.
    { destruct (proj1 (Hmem x) (or_introl eq_refl)) as [Heq|Hin]; [now symmetry|].
      destruct (proj2 (Hmem y) (or_introl eq_refl)) as [Heq|Hin']; [assumption|].
      apply Hy' in Hin. apply Hx' in Hin'.
      rewrite (string_ltb_asym _ _ Hin) in Hin'. discriminate. }
    f_equal. apply IH; try assumption.
    intros z. split; intros Hz.
    + destruct (proj1 (Hmem z) (or_intror Hz)) as [<-|Hin]; [|exact Hin].
      apply Hx' in Hz. rewrite string_ltb_irrefl in Hz. discriminate.
    + destruct (proj2 (Hmem z) (or_intror Hz)) as [<-|Hin]; [|exact Hin].
      apply Hy' in Hz. rewrite string_ltb_irrefl in Hz. discriminate.
Qed.

End FirstOccurrence.

Section RowOrder.
Import DownloadGpad.

Lemma data_items_records files :
  map data_item (data_rows files) = map data_of_record (records files).
Proof. unfold records. now rewrite map_map. Qed.

Lemma name_items_records files :
  map name_item (data_rows files) = map name_of_record (records files).
Proof. unfold records. now rewrite map_map. Qed.

Lemma raw_data_members files k v :
  one_record_per_code (records files) ->
  dict_get (raw_data files) k = Some v <-> In (k, v) (map data_of_record (records files)).
Proof.
  intros Hone. unfold raw_data. rewrite data_items_records.
  apply setdefaults_single_valued.
  intros c v1 v2 H1 H2. apply in_map_iff in H1, H2.
  destruct H1 as ([c1 [n1 a1]] & [= <- <-] & H1).
  destruct H2 as ([c2 [n2 a2]] & [= -> <-] & H2). simpl in *.
  pose proof (Hone _ _ _ H1 H2) as Heq. congruence.
Qed.

Lemma raw_names_members files k v :
  one_record_per_code (records files) ->
  dict_get (raw_names files) k = Some v <-> In (k, v) (map name_of_record (records files)).
Proof.
  intros Hone. unfold raw_names. rewrite name_items_records.
  apply setdefaults_single_valued.
  intros c v1 v2 H1 H2. apply in_map_iff in H1, H2.
  destruct H1 as ([c1 [n1 a1]] & [= <- <-] & H1).
  destruct H2 as ([c2 [n2 a2]] & [= -> <-] & H2). simpl in *.
  pose proof (Hone _ _ _ H1 H2) as Heq. congruence.
Qed.

Lemma same_members_map {A B} (f : A -> B) (l l' : list A) y :
  (forall x, In x l' <-> In x l) -> In y (map f l') <-> In y (map f l).
Proof.
  intros H. rewrite !in_map_iff. split; intros (x & Hx & Hin); exists x; split; auto;
    now apply H.
Qed.

Lemma sorted_data_members files x :
  In x (sorted item_lt (raw_data files)) <-> dict_get (raw_data files) (fst x) = Some (snd x).
Proof.
  rewrite (sorted_In item_lt). destruct x as [k v]. simpl. split.
  - apply dict_get_In_NoDup, raw_data_NoDup.
  - apply dict_get_Some_In.
Qed.

Lemma row_order_data files files' :
  one_record_per_code (records files) ->
  (forall rec, In rec (records files') <-> In rec (records files)) ->
  sorted item_lt (raw_data files') = sorted item_lt (raw_data files).
Proof.
  intros Hone Hmem.
  assert (one_record_per_code (records files')) as Hone'.
  { intros c v1 v2 H1 H2. apply Hmem in H1, H2. eauto. }
  apply ascending_keys_unique; try (apply sorted_items_ascending, raw_data_NoDup).
  intros [k v]. rewrite !sorted_data_members. simpl.
  rewrite !raw_data_members by assumption. now apply same_members_map.
Qed.

Lemma row_order_names files files' k :
  one_record_per_code (records files) ->
  (forall rec, In rec (records files') <-> In rec (records files)) ->
  dict_get (raw_names files') k = dict_get (raw_names files) k.
Proof.
  intros Hone Hmem.
  assert (one_record_per_code (records files')) as Hone'.
  { intros c v1 v2 H1 H2. apply Hmem in H1, H2. eauto. }
  destruct (dict_get (raw_names files) k) as [n|] eqn:E.
  - apply raw_names_members; [assumption|].
    apply raw_names_members in E; [|assumption].
    now apply (same_members_map name_of_record _ _ _ Hmem).
  - destruct (dict_get (raw_names files') k) as [n|] eqn:E'; [|reflexivity].
    apply raw_names_members in E'; [|assumption].
    apply (same_members_map name_of_record _ _ _ Hmem) in E'.
    apply raw_names_members in E'; [|assumption]. congruence.
Qed.

End RowOrder.

(** X11: when the rows that repeat a code repeat its name and its raw
    supplier field, the output of the Normalizer depends only on the
    set of (code, name, supplier field) records of the kept rows:
    reordering the region files or their rows, or repeating rows,
    gives the same sorted dict and the same written file. *)
Theorem normalizer_ignores_row_order (files files' : list DownloadGpad.csv_file) :
  one_record_per_code (records files) ->
  (forall rec, In rec (records files') <-> In rec (records files)) ->
  DownloadGpad.normalize_and_write files' = DownloadGpad.normalize_and_write files /\
  exists data names names',
    DownloadGpad.process_data_files files = Ok (data, names) /\
    DownloadGpad.process_data_files files' = Ok (data, names') /\
    forall c, dict_get names' c = dict_get names c.
Proof.
  intros Hone Hmem. split.
  - rewrite !normalize_and_write_eq. rewrite (row_order_data _ _ Hone Hmem).
    do 2 f_equal. apply map_ext. intros item. unfold output_row.
    now rewrite (row_order_names _ _ _ Hone Hmem).
  - exists (sorted item_lt (raw_data files)), (raw_names files), (raw_names files').
    rewrite !process_data_files_eq. rewrite (row_order_data _ _ Hone Hmem).
    repeat split. intros c. now apply row_order_names.
Qed.

Lemma normalizer_ignores_row_order_witness :
  DownloadGpad.normalize_and_write shuffled_regions
    = DownloadGpad.normalize_and_write ordered_regions /\
  exists data names names',
    DownloadGpad.process_data_files ordered_regions = Ok (data, names) /\
    DownloadGpad.process_data_files shuffled_regions = Ok (data, names') /\
    forall c, dict_get names' c = dict_get names c.
Proof.
  apply (normalizer_ignores_row_order ordered_regions shuffled_regions).
  - intros c v1 v2 H1 H2. simpl in H1, H2.
    destruct H1 as [[= <- <-]|[[= <- <-]|[]]];
      destruct H2 as [[= <-]|[[= <-]|[]]]; try reflexivity; discriminate.
  - intros rec. simpl. tauto.
Defined.

(** ** The latest dataset file *)

Section StringCompare.

Lemma str_app_cons x (a b : string) : (String x a ++ b)%string = String x (a ++ b).
Proof. reflexivity. Qed.

Lemma str_app_assoc (a b c : string) : ((a ++ b) ++ c = a ++ (b ++ c))%string.
Proof.
  induction a as [|x a IH]; [reflexivity|]. rewrite !str_app_cons. now rewrite IH.
Qed.

Lemma compare_app_prefix p a b :
  String.compare (p ++ a)%string (p ++ b)%string = String.compare a b.
Proof.
  induction p as [|c p IH]; [reflexivity|]. rewrite !str_app_cons. simpl.
  now rewrite ascii_compare_refl.
Qed.

Lemma compare_app_same_length a : forall b s t,
  String.length a = String.length b ->
  String.compare (a ++ s)%string (b ++ t)%string =
  match String.compare a b with Eq => String.compare s t | c => c end.
Proof.
  induction a as [|x a IH]; intros [|y b] s t Hlen; simpl in Hlen; try discriminate.
  - reflexivity.
  - rewrite !str_app_cons. simpl. destruct (Ascii.compare x y); auto.
Qed.

Lemma digit_compare a b :
  (a < 10)%nat -> (b < 10)%nat -> Ascii.compare (digit a) (digit b) = Nat.compare a b.
Proof.
  intros Ha Hb. unfold Ascii.compare, digit.
  rewrite <- (Nat2N.id (48 + a)), <- (Nat2N.id (48 + b)).
  unfold ascii_of_nat. rewrite !N2Nat.id.
  rewrite !N_ascii_embedding by lia.
  rewrite <- Nat2N.inj_compare.
  destruct (Nat.compare_spec a b); destruct (Nat.compare_spec (48 + a) (48 + b));
    try reflexivity; lia.
Qed.

Lemma zero_padded_length w : forall n, String.length (zero_padded w n) = w.
Proof. induction w as [|w IH]; intros n; simpl; [reflexivity | now rewrite IH]. Qed.

Lemma zero_padded_compare w : forall a b,
  (a < 10 ^ w)%nat -> (b < 10 ^ w)%nat ->
  String.compare (zero_padded w a) (zero_padded w b) = Nat.compare a b.
Proof.
  induction w as [|w IH]; intros a b Ha Hb.
  - rewrite Nat.pow_0_r in Ha, Hb.
    assert (a = 0 /\ b = 0)%nat as [-> ->] by lia. reflexivity.
  - rewrite Nat.pow_succ_r' in Ha, Hb. cbn [zero_padded String.compare].
    assert (10 ^ w <> 0)%nat as Hpos by (apply Nat.pow_nonzero; lia).
    remember (10 ^ w)%nat as p eqn:Hp.
    pose proof (Nat.div_mod_eq a p) as Hqa.
    pose proof (Nat.div_mod_eq b p) as Hqb.
    pose proof (Nat.mod_upper_bound a p Hpos) as Hra.
    pose proof (Nat.mod_upper_bound b p Hpos) as Hrb.
    assert (a / p < 10)%nat as Hda by (apply Nat.Div0.div_lt_upper_bound; lia).
    assert (b / p < 10)%nat as Hdb by (apply Nat.Div0.div_lt_upper_bound; lia).
    rewrite digit_compare by assumption. rewrite IH by assumption.
    remember (a / p)%nat as qa. remember (b / p)%nat as qb.
    remember (a mod p)%nat as ra. remember (b mod p)%nat as rb.
    destruct (Nat.compare_spec qa qb) as [Heq|Hlt|Hgt].
    + destruct (Nat.compare_spec ra rb) as [Heq'|Hlt'|Hgt']; symmetry.
      * apply Nat.compare_eq_iff. congruence.
      * apply Nat.compare_lt_iff. rewrite Hqa, Hqb, Heq. lia.
      * apply Nat.compare_gt_iff. rewrite Hqa, Hqb, Heq. lia.
    + symmetry. apply Nat.compare_lt_iff. nia.
    + symmetry. apply Nat.compare_gt_iff. nia.
Qed.

Lemma iso_month_ltb (p : string) (a b : nat * nat) :
  in_calendar a -> in_calendar b ->
  String.ltb (p ++ iso_month a ++ ".csv")%string (p ++ iso_month b ++ ".csv")%string
  = month_before a b.
Proof.
  intros [Hya Hma] [Hyb Hmb]. unfold String.ltb, iso_month, month_before.
  rewrite compare_app_prefix. rewrite !str_app_assoc.
  rewrite compare_app_same_length by now rewrite !zero_padded_length.
  rewrite zero_padded_compare by assumption.
  rewrite (compare_app_prefix "-").
  rewrite compare_app_same_length by now rewrite !zero_padded_length.
  rewrite zero_padded_compare by assumption.
  rewrite string_compare_refl.
  destruct (Nat.compare_spec (fst a) (fst b)) as [Heq|Hlt|Hgt].
  - rewrite Heq, Nat.ltb_irrefl, Nat.eqb_refl. simpl.
    destruct (Nat.compare_spec (snd a) (snd b)) as [Heq'|Hlt'|Hgt']; symmetry.
    + rewrite Heq'. apply Nat.ltb_irrefl.
    + now apply Nat.ltb_lt.
    + apply Nat.ltb_ge. lia.
  - apply Nat.ltb_lt in Hlt. now rewrite Hlt.
  - assert ((fst a <? fst b)%nat = false) as -> by (apply Nat.ltb_ge; lia).
    assert ((fst a =? fst b)%nat = false) as -> by (apply Nat.eqb_neq; lia).
    reflexivity.
Qed.

Lemma dataset_path_app dir :
  exists p, forall ym, dataset_path dir ym = (p ++ iso_month ym ++ ".csv")%string.
Proof.
  unfold dataset_path, path_join. simpl.
  destruct (String.eqb dir "" || str_endswith "/" dir).
  - exists (dir ++ "icb_gp_suppliers_")%string. intros ym. now rewrite str_app_assoc.
  - exists (dir ++ "/icb_gp_suppliers_")%string. intros ym. now rewrite str_app_assoc.
Qed.

End StringCompare.

Section Maximum.

Lemma string_ge_trans a b c :
  String.ltb b a = false -> String.ltb c b = false -> String.ltb c a = false.
Proof.
  intros Hab Hbc. destruct (String.ltb c a) eqn:E; [|reflexivity].
  destruct (string_dec a b) as [<-|Hne]; [congruence|].
  pose proof (string_ltb_total _ _ Hab Hne) as Hlt.
  rewrite (string_ltb_trans _ _ _ E Hlt) in Hbc. discriminate.
Qed.

Lemma max_from_ge l : forall best, String.ltb (max_from best l) best = false.
Proof.
  induction l as [|x l IH]; intros best; simpl; [apply string_ltb_irrefl|].
  destruct (String.ltb best x) eqn:E; [|apply IH].
  apply (string_ge_trans _ x); [now apply string_ltb_asym | apply IH].
Qed.

Lemma max_from_spec l : forall best,
  In (max_from best l) (best :: l) /\
  forall x, In x (best :: l) -> String.ltb (max_from best l) x = false.
Proof.
  induction l as [|y l IH]; intros best.
  - simpl. split; [now left|]. intros x [<-|[]]. apply string_ltb_irrefl.
  - cbn [max_from]. destruct (String.ltb best y) eqn:E.
    + destruct (IH y) as [Hin Hmax]. split.
      * right. exact Hin.
      * intros x [<-|Hx]; [|now apply Hmax].
        apply (string_ge_trans _ y); [now apply string_ltb_asym | apply max_from_ge].
    + destruct (IH best) as [Hin Hmax]. split.
      * destruct Hin as [Hin|Hin]; [now left | right; now right].
      * intros x [<-|[<-|Hx]].
        -- apply Hmax. now left.
        -- apply (string_ge_trans _ best); [exact E | apply max_from_ge].
        -- apply Hmax. now right.
Qed.

Lemma py_max_latest (p : string) (months : list (nat * nat)) :
  months <> [] -> Forall in_calendar months ->
  exists latest,
    In latest months /\
    Forall (fun ym => month_before latest ym = false) months /\
    py_max (map (fun ym => p ++ iso_month ym ++ ".csv")%string months)
      = Some (p ++ iso_month latest ++ ".csv")%string.
Proof.
  intros Hne Hcal. destruct months as [|first rest]; [congruence|].
  cbn [map py_max].
  destruct (max_from_spec (map (fun ym => p ++ iso_month ym ++ ".csv")%string rest)
              (p ++ iso_month first ++ ".csv")%string) as [Hin Hmax].
  change ((p ++ iso_month first ++ ".csv")%string
            :: map (fun ym => (p ++ iso_month ym ++ ".csv")%string) rest)
    with (map (fun ym => (p ++ iso_month ym ++ ".csv")%string) (first :: rest)) in Hin, Hmax.
  apply in_map_iff in Hin. destruct Hin as (latest & Heq & Hin).
  exists latest. split; [exact Hin|]. split; [|now rewrite Heq].
  rewrite List.Forall_forall in Hcal |- *. intros ym Hym.
  rewrite <- (iso_month_ltb p) by auto. rewrite Heq. apply Hmax.
  apply in_map_iff. exists ym. split; [reflexivity | exact Hym].
Qed.

End Maximum.

Lemma month_before_antisym a b :
  month_before a b = false -> month_before b a = false -> a = b.
Proof.
  unfold month_before. destruct a as [ya ma], b as [yb mb]. simpl.
  intros H1 H2. apply orb_false_iff in H1, H2.
  destruct H1 as [H1 H1'], H2 as [H2 H2'].
  apply Nat.ltb_ge in H1, H2. assert (ya = yb) as -> by lia.
  rewrite Nat.eqb_refl in H1', H2'. simpl in *.
  apply Nat.ltb_ge in H1', H2'. f_equal. lia.
Qed.

(** X12: when the dataset files of the data directory are named after
    months written YYYY-MM (four digits, two digits, zeros in front),
    the file chosen when no month is asked for - by the server's
    [_find_data_file] and by [main] of the command line alike - is the
    file of the latest month: comparing the paths as strings is
    comparing the months. *)
Theorem latest_month_is_chosen (DATA_DIR : string) (fs : filesystem)
    (months : list (nat * nat)) :
  months <> [] -> Forall in_calendar months ->
  exists latest,
    In latest months /\
    Forall (fun ym => month_before latest ym = false) months /\
    (glob fs (path_join DATA_DIR "icb_gp_suppliers_*.csv")
       = map (dataset_path DATA_DIR) months ->
     Server._find_data_file DATA_DIR fs None = Found (dataset_path DATA_DIR latest)) /\
    (glob fs (path_join GpLookupFiles.DATA_DIR "icb_gp_suppliers_*.csv")
       = map (dataset_path GpLookupFiles.DATA_DIR) months ->
     GpLookupFiles.main_data_file fs None
       = Found (dataset_path GpLookupFiles.DATA_DIR latest)).
Proof.
  intros Hne Hcal.
  destruct (dataset_path_app DATA_DIR) as (p & Hp).
  destruct (dataset_path_app GpLookupFiles.DATA_DIR) as (q & Hq).
  destruct (py_max_latest p months Hne Hcal) as (latest & Hin & Hlast & Hmax).
  destruct (py_max_latest q months Hne Hcal) as (latest' & Hin' & Hlast' & Hmax').
  assert (latest' = latest) as ->.
  { rewrite List.Forall_forall in Hlast, Hlast'.
    apply month_before_antisym; auto. }
  exists latest. split; [exact Hin|]. split; [exact Hlast|]. split.
  - intros Hglob. unfold Server._find_data_file. cbn [given]. rewrite Hglob.
    rewrite (map_ext _ _ Hp), Hmax, Hp. reflexivity.
  - intros Hglob. unfold GpLookupFiles.main_data_file. cbn [given]. rewrite Hglob.
    rewrite (map_ext _ _ Hq), Hmax', Hq. reflexivity.
Qed.

Lemma latest_month_is_chosen_witness :
  iso_month (2025, 2) = "2025-02" /\
  (exists latest,
    In latest three_months /\
    Forall (fun ym => month_before latest ym = false) three_months /\
    (glob (three_files "/srv/gp/execution/data")
          (path_join "/srv/gp/execution/data" "icb_gp_suppliers_*.csv")
       = map (dataset_path "/srv/gp/execution/data") three_months ->
     Server._find_data_file "/srv/gp/execution/data" (three_files "/srv/gp/execution/data") None
       = Found (dataset_path "/srv/gp/execution/data" latest)) /\
    (glob (three_files "/srv/gp/execution/data")
          (path_join GpLookupFiles.DATA_DIR "icb_gp_suppliers_*.csv")
       = map (dataset_path GpLookupFiles.DATA_DIR) three_months ->
     GpLookupFiles.main_data_file (three_files "/srv/gp/execution/data") None
       = Found (dataset_path GpLookupFiles.DATA_DIR latest))) /\
  Server._find_data_file "/srv/gp/execution/data" (three_files "/srv/gp/execution/data") None
    = Found "/srv/gp/execution/data/icb_gp_suppliers_2025-02.csv" /\
  GpLookupFiles.main_data_file (three_files GpLookupFiles.DATA_DIR) None
    = Found "execution/data/icb_gp_suppliers_2025-02.csv".
Proof.
  assert (Forall in_calendar three_months) as Hcal.
  { assert (forall y m, Nat.ltb y (10 ^ 4) = true -> Nat.ltb m (10 ^ 2) = true ->
                        in_calendar (y, m)) as Hcal
      by (intros y m Hy Hm; split; now apply Nat.ltb_lt).
    unfold three_months.
    apply List.Forall_cons; [apply Hcal; vm_compute; reflexivity|].
    apply List.Forall_cons; [apply Hcal; vm_compute; reflexivity|].
    apply List.Forall_cons; [apply Hcal; vm_compute; reflexivity|].
    apply List.Forall_nil. }
  assert (three_months <> []) as Hne by discriminate.
  assert (forall latest,
             In latest three_months ->
             Forall (fun ym => month_before latest ym = false) three_months ->
             latest = (2025, 2)) as Hlatest.
  { intros latest Hin Hlast. unfold three_months in Hin, Hlast.
    inversion Hlast as [|? ? _ Hlast']; subst.
    inversion Hlast' as [|? ? Hfeb _]; subst.
    destruct Hin as [<-|[<-|[<-|[]]]]; [vm_compute in Hfeb; discriminate | reflexivity
                                        | vm_compute in Hfeb; discriminate]. }
  split; [vm_compute; reflexivity|].
  split; [exact (latest_month_is_chosen "/srv/gp/execution/data"
                   (three_files "/srv/gp/execution/data") three_months Hne Hcal)|].
  split.
  - destruct (latest_month_is_chosen "/srv/gp/execution/data"
                (three_files "/srv/gp/execution/data") three_months Hne Hcal)
      as (latest & Hin & Hlast & Hserver & _).
    rewrite (Hserver eq_refl). rewrite (Hlatest latest Hin Hlast).
    vm_compute. reflexivity.
  - destruct (latest_month_is_chosen GpLookupFiles.DATA_DIR
                (three_files GpLookupFiles.DATA_DIR) three_months Hne Hcal)
      as (latest & Hin & Hlast & _ & Hcli).
    rewrite (Hcli eq_refl). rewrite (Hlatest latest Hin Hlast).
    vm_compute. reflexivity.
Defined.

(** ** The server's cache *)

Section ServerCache.
Import GpLookupFiles Server.
Variable DATA_DIR : string.

Lemma month_eqb_eq a b : month_eqb a b = true <-> a = b.
Proof.
  destruct a as [x|], b as [y|]; simpl; try (split; [discriminate|congruence]).
  - rewrite String.eqb_eq. split; congruence.
  - tauto.
Qed.

(** The two ways a call to [_get_lookup] can go. *)
Lemma _get_lookup_cases fs st month :
  (exists instance,
      _lookup_instance st = Some instance /\ _lookup_month st = month /\
      _get_lookup DATA_DIR fs st month = (Found instance, st)) \/
  ((_lookup_instance st = None \/ _lookup_month st <> month) /\
   _get_lookup DATA_DIR fs st month =
     match fresh DATA_DIR fs month with
     | Found instance =>
         (Found instance,
          {| _lookup_instance := Some instance; _lookup_month := month |})
     | Failed e => (Failed e, st)
     end).
Proof.
  unfold _get_lookup, fresh.
  destruct (_lookup_instance st) as [instance|] eqn:Hinst.
  - destruct (month_eqb month (_lookup_month st)) eqn:E; simpl.
    + apply month_eqb_eq in E. left. exists instance. auto.
    + right. split.
      * right. intros Heq. rewrite Heq in E.
        assert (month_eqb month month = true) as E' by now apply month_eqb_eq.
        congruence.
      * destruct (_find_data_file DATA_DIR fs month); [|reflexivity].
        destruct (GPSupplierLookup fs (Some a)); reflexivity.
  - right. split; [now left|].
    destruct (_find_data_file DATA_DIR fs month); [|reflexivity].
    destruct (GPSupplierLookup fs (Some a)); reflexivity.
Qed.

Lemma after_snoc calls c :
  after DATA_DIR (calls ++ [c]) = apply_call DATA_DIR (after DATA_DIR calls) c.
Proof. unfold after. now rewrite fold_left_app. Qed.

Lemma snapshots_snoc calls c :
  snapshots (calls ++ [c]) =
  snapshots calls ++ match c with Query fs _ => [fs] | Invalidate => [] end.
Proof. unfold snapshots. rewrite flat_map_app. simpl. now rewrite app_nil_r. Qed.

(** What the globals hold was loaded from scratch, for the month they
    name, on a file system one of the calls saw. *)
Lemma cache_was_loaded calls instance :
  _lookup_instance (after DATA_DIR calls) = Some instance ->
  exists fs0, In fs0 (snapshots calls) /\
              fresh DATA_DIR fs0 (_lookup_month (after DATA_DIR calls)) = Found instance.
Proof.
  revert instance. induction calls as [|c calls IH] using rev_ind; intros instance.
  - discriminate.
  - rewrite after_snoc, snapshots_snoc. destruct c as [fs month|]; simpl; [|discriminate].
    destruct (_get_lookup_cases fs (after DATA_DIR calls) month)
      as [(inst & Hinst & Hmonth & ->)|[_ ->]]; simpl.
    + intros Heq. destruct (IH _ Heq) as (fs0 & Hin & Hfresh).
      exists fs0. split; [apply in_or_app; now left | exact Hfresh].
    + destruct (fresh DATA_DIR fs month) as [inst|e] eqn:Hfresh; simpl.
      * intros [= <-]. exists fs. split; [apply in_or_app; right; now left | exact Hfresh].
      * intros Heq. destruct (IH _ Heq) as (fs0 & Hin & Hfresh0).
        exists fs0. split; [apply in_or_app; now left | exact Hfresh0].
Qed.

Lemma fresh_of_month fs month m instance :
  given month = Some m -> fresh DATA_DIR fs month = Found instance ->
  data_file instance = Some (month_file DATA_DIR m) /\
  path_exists fs (month_file DATA_DIR m) = true /\
  read_dicts fs (month_file DATA_DIR m) = Some (data instance).
Proof.
  unfold fresh, _find_data_file. intros ->. fold (month_file DATA_DIR m).
  destruct (path_exists fs (month_file DATA_DIR m)) eqn:E; [|discriminate].
  unfold GPSupplierLookup.
  destruct (given (Some (month_file DATA_DIR m))) as [path|] eqn:Hpath; [|discriminate].
  assert (path = month_file DATA_DIR m) as ->.
  { simpl in Hpath. destruct (String.eqb (month_file DATA_DIR m) ""); congruence. }
  rewrite E. simpl. destruct (read_dicts fs (month_file DATA_DIR m)); [|discriminate].
  intros [= <-]. auto.
Qed.

End ServerCache.

(** X13: after any series of queries and invalidations on a fresh
    server, with the file system changing freely between them, the
    instance a query obtains is what a load from scratch for the month
    asked for gave, on the file system of this call or of an earlier
    one; for a month that is given, its data are the rows of that
    month's file, never those of another month. *)
Theorem query_is_answered_from_its_month (DATA_DIR : string) (calls : list call)
    (fs : filesystem) (month : option string) (instance : GpLookupFiles.lookup) :
  fst (Server._get_lookup DATA_DIR fs (after DATA_DIR calls) month) = Found instance ->
  exists fs0,
    In fs0 (fs :: snapshots calls) /\
    fresh DATA_DIR fs0 month = Found instance /\
    (forall m, given month = Some m ->
               GpLookupFiles.data_file instance = Some (month_file DATA_DIR m) /\
               path_exists fs0 (month_file DATA_DIR m) = true /\
               read_dicts fs0 (month_file DATA_DIR m) = Some (GpLookupFiles.data instance)).
Proof.
  intros Hget.
  assert (exists fs0, In fs0 (fs :: snapshots calls) /\
                      fresh DATA_DIR fs0 month = Found instance) as (fs0 & Hin & Hfresh).
  { destruct (_get_lookup_cases DATA_DIR fs (after DATA_DIR calls) month)
      as [(inst & Hinst & Hmonth & Heq)|[_ Heq]]; rewrite Heq in Hget.
    - simpl in Hget. injection Hget as ->.
      destruct (cache_was_loaded DATA_DIR calls instance Hinst) as (fs0 & Hin & Hfresh).
      exists fs0. rewrite Hmonth in Hfresh. split; [now right | exact Hfresh].
    - exists fs. split; [now left|].
      destruct (fresh DATA_DIR fs month); simpl in Hget; congruence. }
  exists fs0. split; [exact Hin|]. split; [exact Hfresh|].
  intros m Hm. now apply (fresh_of_month DATA_DIR fs0 month).
Qed.

Lemma query_is_answered_from_its_month_witness :
  let dir := "/srv/gp/execution/data" in
  let calls := [Query (three_files dir) None; Query empty_directory (Some "2025-01");
                Query (three_files dir) (Some "2024-12")] in
  exists instance fs0,
    fst (Server._get_lookup dir empty_directory (after dir calls) (Some "2024-12"))
      = Found instance /\
    In fs0 (empty_directory :: snapshots calls) /\
    fresh dir fs0 (Some "2024-12") = Found instance /\
    (forall m, given (Some "2024-12") = Some m ->
               GpLookupFiles.data_file instance = Some (month_file dir m) /\
               path_exists fs0 (month_file dir m) = true /\
               read_dicts fs0 (month_file dir m) = Some (GpLookupFiles.data instance)).
Proof.
  intros dir calls. eexists.
  assert (fst (Server._get_lookup dir empty_directory (after dir calls) (Some "2024-12"))
          = Found {| GpLookupFiles.data_file := Some (month_file dir "2024-12");
                     GpLookupFiles.data :=
                       [[("GP_ODS_CODE", month_file dir "2024-12")]] |}) as Hget
    by (vm_compute; reflexivity).
  destruct (query_is_answered_from_its_month dir calls empty_directory (Some "2024-12") _ Hget)
    as (fs0 & H).
  exists fs0. split; [exact Hget | exact H].
Defined.

(** X14: once a query for a month has obtained an instance, every
    further query for that month returns this instance and leaves the
    globals alone whatever the file system holds by then (a file
    replaced, deleted or a newer month added is not seen); a query that
    fails is one for another month, fails as a load from scratch does
    and leaves the loaded instance in place; after [_invalidate_cache]
    the next query loads from scratch. *)
Theorem loaded_month_is_served_from_memory (DATA_DIR : string) (fs : filesystem)
    (st : Server.cache) (month : option string) (instance : GpLookupFiles.lookup) :
  fst (Server._get_lookup DATA_DIR fs st month) = Found instance ->
  let st' := snd (Server._get_lookup DATA_DIR fs st month) in
  (forall fs', Server._get_lookup DATA_DIR fs' st' month = (Found instance, st')) /\
  (forall fs' month' e,
      fst (Server._get_lookup DATA_DIR fs' st' month') = Failed e ->
      month' <> month /\ fresh DATA_DIR fs' month' = Failed e /\
      snd (Server._get_lookup DATA_DIR fs' st' month') = st') /\
  (forall fs', fst (Server._get_lookup DATA_DIR fs' (Server._invalidate_cache st') month)
               = fresh DATA_DIR fs' month).
Proof.
  intros Hget st'.
  assert (Server._lookup_instance st' = Some instance /\ Server._lookup_month st' = month)
    as [Hinst Hmonth].
  { subst st'.
    destruct (_get_lookup_cases DATA_DIR fs st month)
      as [(inst & Hinst & Hmonth & Heq)|[_ Heq]]; rewrite Heq in Hget |- *.
    - simpl in *. injection Hget as ->. auto.
    - destruct (fresh DATA_DIR fs month); simpl in *; [|discriminate].
      injection Hget as ->. auto. }
  split; [|split].
  - intros fs'.
    destruct (_get_lookup_cases DATA_DIR fs' st' month)
      as [(inst & Hinst' & _ & Heq)|[[Hnone|Hne] _]]; try congruence.
  - intros fs' month' e Hfail.
    destruct (_get_lookup_cases DATA_DIR fs' st' month')
      as [(inst & _ & _ & Heq)|[Hcond Heq]]; rewrite Heq in Hfail |- *.
    + discriminate.
    + destruct Hcond as [Hnone|Hne]; [congruence|].
      destruct (fresh DATA_DIR fs' month'); simpl in *; [discriminate|].
      injection Hfail as ->. repeat split; congruence.
  - intros fs'.
    destruct (_get_lookup_cases DATA_DIR fs' (Server._invalidate_cache st') month)
      as [(inst & Hnone & _)|[_ ->]]; [discriminate|].
    now destruct (fresh DATA_DIR fs' month).
Qed.

Lemma loaded_month_is_served_from_memory_witness :
  let dir := "/srv/gp/execution/data" in
  exists instance,
    fst (Server._get_lookup dir (three_files dir) no_cache None) = Found instance /\
    let st' := snd (Server._get_lookup dir (three_files dir) no_cache None) in
    (forall fs', Server._get_lookup dir fs' st' None = (Found instance, st')) /\
    (forall fs' month' e,
        fst (Server._get_lookup dir fs' st' month') = Failed e ->
        month' <> None /\ fresh dir fs' month' = Failed e /\
        snd (Server._get_lookup dir fs' st' month') = st') /\
    (forall fs', fst (Server._get_lookup dir fs' (Server._invalidate_cache st') None)
                 = fresh dir fs' None).
Proof.
  intros dir. eexists.
  assert (fst (Server._get_lookup dir (three_files dir) no_cache None)
          = Found {| GpLookupFiles.data_file := Some (month_file dir "2025-02");
                     GpLookupFiles.data :=
                       [[("GP_ODS_CODE", month_file dir "2025-02")]] |}) as Hget
    by (vm_compute; reflexivity).
  split; [exact Hget|].
  exact (loaded_month_is_served_from_memory dir (three_files dir) no_cache None _ Hget).
Defined.

(** ** The three stages together *)

Section PipelineFacts.
Import DownloadGpad EnrichGpData Pipeline.
Variable str_of : json -> string.
Variable net : registry.

Lemma next_dicts_normalized (names : pydict string) (items : list (string * (string * string))) :
  next_dicts OUTPUT_HEADER (map (output_row names) items) =
  Done (map (fun item => normalized_record (fst item) (default "" (dict_get names (fst item)))
                           (fst (snd item)) (snd (snd item))) items).
Proof.
  induction items as [|item items IH]; [reflexivity|].
  cbn [map next_dicts output_row]. rewrite IH. reflexivity.
Qed.

Lemma normalized_has_code code name systems system :
  has_code (normalized_record code name systems system).
Proof. reflexivity. Qed.

Lemma dict_to_list_enriched icb code name systems system :
  dict_to_list str_of ("ICB Sub location" :: OUTPUT_HEADER)
    (with_icb (normalized_record code name systems system) icb) =
  Done [csv_cell str_of icb; code; name; systems; system].
Proof. reflexivity. Qed.

Lemma next_dicts_enriched icb code name systems system rest :
  next_dicts ("ICB Sub location" :: OUTPUT_HEADER) ([icb; code; name; systems; system] :: rest) =
  match next_dicts ("ICB Sub location" :: OUTPUT_HEADER) rest with
  | Done dicts => Done (enriched_record icb code name systems system :: dicts)
  | Stopped s => Stopped s
  end.
Proof. reflexivity. Qed.

Lemma write_then_load (names : pydict string) (items : list (string * (string * string))) :
  forall outs,
    Forall2 (fun item out =>
               exists icb, truthy icb = true /\
                 out = with_icb (normalized_record (fst item)
                                   (default "" (dict_get names (fst item)))
                                   (fst (snd item)) (snd (snd item))) icb)
            items outs ->
    exists rows dataset,
      writerows str_of ("ICB Sub location" :: OUTPUT_HEADER) outs = Done rows /\
      next_dicts ("ICB Sub location" :: OUTPUT_HEADER) rows = Done dataset /\
      Forall2 (fun item rec =>
                 exists icb, truthy icb = true /\ rec = record_of_item str_of names icb item)
              items dataset.
Proof.
  induction items as [|item items IH]; intros outs Houts.
  - inversion Houts; subst. exists [], []. repeat split. constructor.
  - inversion Houts as [|? out ? outs' (icb & Htrue & ->) Hrest]; subst.
    destruct (IH _ Hrest) as (rows & dataset & Hw & Hr & Hrel).
    eexists. eexists. cbn [writerows]. rewrite dict_to_list_enriched, Hw.
    split; [reflexivity|]. rewrite next_dicts_enriched, Hr.
    split; [reflexivity|]. constructor; [|exact Hrel].
    exists icb. split; [exact Htrue | reflexivity].
Qed.

Lemma enriched_outputs (names : pydict string) (items : list (string * (string * string))) w :
  exists outs,
    fst (main str_of net
           (map (fun item => normalized_record (fst item)
                               (default "" (dict_get names (fst item)))
                               (fst (snd item)) (snd (snd item))) items) w) = Ok outs /\
    Forall2 (fun item out =>
               exists icb, truthy icb = true /\
                 out = with_icb (normalized_record (fst item)
                                   (default "" (dict_get names (fst item)))
                                   (fst (snd item)) (snd (snd item))) icb)
            items outs.
Proof.
  set (dicts := map _ items).
  destruct (enrich_rows_total str_of net dicts (initial_state w) w) as (st' & Hok & _).
  { subst dicts. apply Forall_map. apply List.Forall_forall. intros item _.
    apply normalized_has_code. }
  destruct (enrich_rows_outputs str_of net dicts (initial_state w) w st'
              (cache_backed_initial str_of w) Hok) as (_ & _ & outs & Hnew & Houts).
  simpl in Hnew. subst outs.
  exists (new_rows st'). split; [apply main_fst; eauto|].
  subst dicts. remember (new_rows st') as outs eqn:E. clear E Hok.
  revert outs Houts. induction items as [|item items IH]; intros outs Houts.
  - inversion Houts. constructor.
  - cbn [map] in Houts.
    inversion Houts as [|? out ? outs' (k & icb & _ & -> & Htrue & _) Hrest]; subst.
    constructor; [exists icb; auto | now apply IH].
Qed.

(** The pipeline never stops, and its dataset holds one record per item
    of the Normalizer's dict, in its order. *)
Lemma pipeline_dataset files w :
  exists dataset,
    fst (pipeline str_of net files w) = Done dataset /\
    Forall2 (fun item rec =>
               exists icb, truthy icb = true /\
                           rec = record_of_item str_of (raw_names files) icb item)
            (sorted item_lt (raw_data files)) dataset.
Proof.
  unfold pipeline. rewrite normalize_and_write_eq. unfold enrich_file.
  rewrite next_dicts_normalized.
  destruct (enriched_outputs (raw_names files) (sorted item_lt (raw_data files)) w)
    as (outs & Hmain & Houts).
  destruct (main str_of net _ w) as [[outs'|e] w'] eqn:Hrun; simpl in Hmain; [|discriminate].
  injection Hmain as ->.
  destruct (write_then_load (raw_names files) _ _ Houts) as (rows & dataset & Hw & Hr & Hrel).
  rewrite Hw. cbn [load_data fst]. exists dataset. split; [exact Hr | exact Hrel].
Qed.

Lemma lookup_in_dataset (names : pydict string) c v :
  str_upper c = c ->
  forall items dataset,
    Forall2 (fun item rec =>
               exists icb, truthy icb = true /\ rec = record_of_item str_of names icb item)
            items dataset ->
    dict_get items c = Some v ->
    exists icb, truthy icb = true /\
      GpLookup.lookup_by_ods_code dataset c =
        Ok (Some (record_of_item str_of names icb (c, v))).
Proof.
  intros Hup. induction 1 as [|[k v0] rec items dataset (icb & Htrue & ->) _ IH].
  - discriminate.
  - rewrite dict_get_cons. cbn [GpLookup.lookup_by_ods_code].
    unfold record_of_item at 1. unfold enriched_record, normalized_record.
    unfold dict_getitem. rewrite !dict_get_cons. cbn [String.eqb Ascii.eqb Bool.eqb fst snd].
    cbn [fst snd bind]. rewrite Hup.
    destruct (String.eqb k c) eqn:E.
    + apply String.eqb_eq in E. subst k. intros [= ->]. exists icb. split; [exact Htrue|].
      reflexivity.
    + exact IH.
Qed.

End PipelineFacts.

(** X15: the three stages compose.  On any region files, registry and
    cache, the Normalizer, the Enricher run on the file the Normalizer
    wrote and the load of the file the Enricher wrote never stop; the
    loaded dataset holds one record per entry of the Normalizer's dict,
    in its order, with the five columns ICB Sub location, GP_ODS_CODE,
    GP_NAME, GP_GPAD_SYSTEMS and GP_SYSTEM; and a lookup of any code
    spelt in upper case that a kept row carries returns the record with
    the name, the raw supplier field and the canonical supplier of the
    first such row, and a commissioner cell written from a true
    value. *)
Theorem pipeline_serves_every_practice (str_of : EnrichGpData.json -> string)
    (net : EnrichGpData.registry) (files : list DownloadGpad.csv_file)
    (w : EnrichGpData.world) :
  exists dataset data names,
    fst (Pipeline.pipeline str_of net files w) = Pipeline.Done dataset /\
    DownloadGpad.process_data_files files = Ok (data, names) /\
    Forall2 (fun item rec =>
               exists icb, EnrichGpData.truthy icb = true /\
                           rec = record_of_item str_of names icb item)
            data dataset /\
    (forall pre row post,
        data_rows files = pre ++ row :: post ->
        ~ In (gp_code row) (map gp_code pre) ->
        str_upper (gp_code row) = gp_code row ->
        exists icb,
          EnrichGpData.truthy icb = true /\
          GpLookup.lookup_by_ods_code dataset (gp_code row) =
            Ok (Some (enriched_record (EnrichGpData.csv_cell str_of icb)
                        (gp_code row) (gp_name row) (appointments_systems row)
                        (main_system_of (appointments_systems row))))).
Proof.
  destruct (pipeline_dataset str_of net files w) as (dataset & Hrun & Hrel).
  exists dataset, (sorted item_lt (raw_data files)), (raw_names files).
  split; [exact Hrun|]. split; [apply process_data_files_eq|]. split; [exact Hrel|].
  intros pre row post Hrows Hfirst Hup.
  assert (dict_get (sorted item_lt (raw_data files)) (gp_code row) =
          Some (appointments_systems row, main_system_of (appointments_systems row)))
    as Hdata.
  { rewrite dict_get_sorted by apply raw_data_NoDup.
    unfold raw_data. rewrite Hrows, map_app. simpl.
    apply (setdefaults_first (map data_item pre)); [|reflexivity].
    now rewrite map_map. }
  assert (dict_get (raw_names files) (gp_code row) = Some (gp_name row)) as Hname.
  { unfold raw_names. rewrite Hrows, map_app. simpl.
    apply (setdefaults_first (map name_item pre)); [|reflexivity].
    now rewrite map_map. }
  destruct (lookup_in_dataset str_of (raw_names files) _ _ Hup _ _ Hrel Hdata)
    as (icb & Htrue & Hlook).
  exists icb. split; [exact Htrue|]. rewrite Hlook.
  unfold record_of_item. cbn [fst snd]. now rewrite Hname.
Qed.

Lemma pipeline_example :
  fst (Pipeline.pipeline plain_str small_registry duplicated_code one_row_cache) =
  Pipeline.Done
    [enriched_record "15E" "A81001" "DENSHAM SURGERY" "TPP" "TPP";
     enriched_record "UNKNOWN" "A81002" "PARK MEDICAL" "EVERGREENLIFE/EMIS" "EMIS"].
Proof. vm_compute. reflexivity. Qed.

(** ** The region files of a month *)

Section Months.
Import HelpersMonths.

Lemma digit_not_hyphen q : (q < 10)%nat -> Ascii.eqb (digit q) "-" = false.
Proof.
  intros Hq. do 10 (destruct q as [|q]; [reflexivity|]). lia.
Qed.

Lemma str_app_nil_r (s : string) : (s ++ "")%string = s.
Proof. induction s as [|c s IH]; [reflexivity|]. rewrite str_app_cons. now rewrite IH. Qed.

Lemma split_padded w : forall n rest,
  (n < 10 ^ w)%nat ->
  str_split "-" (zero_padded w n ++ rest)%string =
  match str_split "-" rest with
  | tok :: toks => (zero_padded w n ++ tok)%string :: toks
  | [] => [(zero_padded w n ++ rest)%string]
  end.
Proof.
  induction w as [|w IH]; intros n rest Hn.
  - cbn [zero_padded]. change ("" ++ rest)%string with rest.
    pose proof (str_split_nonempty "-" rest) as Hne.
    now destruct (str_split "-" rest).
  - rewrite Nat.pow_succ_r' in Hn. cbn [zero_padded]. rewrite str_app_cons.
    assert (10 ^ w <> 0)%nat as Hpos by (apply Nat.pow_nonzero; lia).
    cbn [str_split]. rewrite digit_not_hyphen
      by (apply Nat.Div0.div_lt_upper_bound; lia).
    rewrite IH by now apply Nat.mod_upper_bound.
    pose proof (str_split_nonempty "-" rest) as Hne.
    destruct (str_split "-" rest); [congruence|]. now rewrite str_app_cons.
Qed.

Lemma iso_month_split y m :
  (y < 10 ^ 4)%nat -> (m < 10 ^ 2)%nat ->
  str_split "-" (iso_month (y, m)) = [zero_padded 4 y; zero_padded 2 m].
Proof.
  intros Hy Hm. unfold iso_month. cbn [fst snd].
  rewrite split_padded by assumption.
  rewrite str_app_cons. change ("" ++ zero_padded 2 m)%string with (zero_padded 2 m).
  cbn [str_split]. cbn [Ascii.eqb Bool.eqb].
  rewrite <- (str_app_nil_r (zero_padded 2 m)) at 1.
  rewrite split_padded by assumption. cbn [str_split].
  now rewrite !str_app_nil_r.
Qed.

Lemma two_digits m :
  (m < 10 ^ 2)%nat ->
  zero_padded 2 m = String (digit (m / 10)) (String (digit (m mod 10)) "").
Proof.
  intros _. cbn [zero_padded]. rewrite Nat.pow_1_r, Nat.pow_0_r, Nat.div_1_r. reflexivity.
Qed.

Lemma py_int_two_digits a b :
  (a < 10)%nat -> (b < 10)%nat ->
  py_int (String (digit a) (String (digit b) "")) = Some (Z.of_nat (10 * a + b)).
Proof.
  intros Ha Hb.
  do 10 (destruct a as [|a]; [do 10 (destruct b as [|b]; [reflexivity|]); lia|]). lia.
Qed.

Lemma py_int_padded m : (m < 10 ^ 2)%nat -> py_int (zero_padded 2 m) = Some (Z.of_nat m).
Proof.
  intros Hm. rewrite two_digits by assumption.
  assert (m < 100)%nat as Hm' by exact Hm.
  rewrite py_int_two_digits.
  - do 2 f_equal. pose proof (Nat.div_mod_eq m 10). lia.
  - apply Nat.Div0.div_lt_upper_bound. lia.
  - apply Nat.mod_upper_bound. lia.
Qed.

Lemma month_to_name_padded m :
  (m < 10 ^ 2)%nat ->
  month_to_name (zero_padded 2 m) =
  if (1 <=? m)%nat && (m <=? 12)%nat then Returns (month_name m)
  else Raises (KeyError (Z.of_nat m)).
Proof.
  intros Hm. unfold month_to_name. rewrite py_int_padded by assumption.
  do 13 (destruct m as [|m]; [reflexivity|]).
  change ((1 <=? _)%nat && (_ <=? 12)%nat) with false.
  destruct (find _ MONTH_NAMES) as [entry|] eqn:E; [|reflexivity].
  apply find_some in E. destruct E as [Hin Heq]. apply Z.eqb_eq in Heq.
  exfalso. unfold MONTH_NAMES in Hin. simpl in Hin.
  repeat (destruct Hin as [<-|Hin]; [simpl in Heq; lia|]). exact Hin.
Qed.

Lemma abbreviation_of_name m :
  (1 <= m <= 12)%nat ->
  str_capitalize (substring 0 3 (month_name m)) = month_abbreviation m.
Proof.
  intros [H1 H2]. destruct m as [|m]; [lia|].
  do 12 (destruct m as [|m]; [reflexivity|]). lia.
Qed.

Lemma last_two_digits y :
  (y < 10 ^ 4)%nat -> substring 2 2 (zero_padded 4 y) = zero_padded 2 (y mod 100).
Proof.
  intros _. cbn [zero_padded substring].
  rewrite !Nat.pow_1_r, !Nat.pow_0_r, !Nat.div_1_r.
  change (10 ^ 2)%nat with 100%nat. change (10 ^ 3)%nat with (10 * 100)%nat.
  assert ((y mod (10 * 100)) mod 100 = y mod 100)%nat as ->.
  { pose proof (Nat.div_mod_eq y (10 * 100)) as H1.
    pose proof (Nat.div_mod_eq (y mod (10 * 100)) 100) as H2.
    pose proof (Nat.div_mod_eq y 100) as H3.
    pose proof (Nat.mod_upper_bound (y mod (10 * 100)) 100).
    pose proof (Nat.mod_upper_bound y 100).
    assert (y = 100 * (10 * (y / (10 * 100)) + (y mod (10 * 100)) / 100)
                + (y mod (10 * 100)) mod 100)%nat as Hy by lia.
    apply (Nat.mod_unique y 100
             (10 * (y / (10 * 100)) + (y mod (10 * 100)) / 100)); [lia | exact Hy]. }
  reflexivity.
Qed.

End Months.

(** X16: for a month written YYYY-MM (four digits, two digits),
    [get_month_and_year_from_iso_month] returns the month's English name
    and the year as written, and [get_data_file_paths] returns, joined
    to the directory and in the order of the listing, exactly the
    listed names that end with the month's three-letter abbreviation,
    an underscore, the last two digits of the year and .csv - so the
    century of the year plays no part; for a month number outside
    1..12 both raise [KeyError] with that number. *)
Theorem data_files_of_a_month (listdir : list string) (unzip_dir : string) (y m : nat) :
  (y < 10 ^ 4)%nat -> (m < 10 ^ 2)%nat ->
  HelpersMonths.get_month_and_year_from_iso_month (iso_month (y, m)) =
    (if (1 <=? m)%nat && (m <=? 12)%nat
     then HelpersMonths.Returns (month_name m, zero_padded 4 y)
     else HelpersMonths.Raises (HelpersMonths.KeyError (Z.of_nat m))) /\
  HelpersMonths.get_data_file_paths listdir unzip_dir (iso_month (y, m)) =
    (if (1 <=? m)%nat && (m <=? 12)%nat
     then HelpersMonths.Returns
            (map (path_join unzip_dir)
                 (List.filter (str_endswith (search_suffix y m)) listdir))
     else HelpersMonths.Raises (HelpersMonths.KeyError (Z.of_nat m))).
Proof.
  intros Hy Hm.
  assert (HelpersMonths.get_month_and_year_from_iso_month (iso_month (y, m)) =
          (if (1 <=? m)%nat && (m <=? 12)%nat
           then HelpersMonths.Returns (month_name m, zero_padded 4 y)
           else HelpersMonths.Raises (HelpersMonths.KeyError (Z.of_nat m)))) as Hmy.
  { unfold HelpersMonths.get_month_and_year_from_iso_month.
    rewrite iso_month_split by assumption.
    rewrite month_to_name_padded by assumption.
    now destruct ((1 <=? m)%nat && (m <=? 12)%nat). }
  split; [exact Hmy|].
  unfold HelpersMonths.get_data_file_paths. rewrite Hmy.
  destruct ((1 <=? m)%nat && (m <=? 12)%nat) eqn:E; [|reflexivity].
  apply andb_true_iff in E. destruct E as [H1 H2].
  apply Nat.leb_le in H1, H2.
  rewrite abbreviation_of_name by lia. rewrite last_two_digits by assumption.
  reflexivity.
Qed.

Lemma data_files_of_a_month_witness :
  iso_month (2025, 1) = "2025-01" /\
  search_suffix 2025 1 = "Jan_25.csv" /\
  HelpersMonths.get_month_and_year_from_iso_month (iso_month (2025, 1)) =
    HelpersMonths.Returns (month_name 1, zero_padded 4 2025) /\
  HelpersMonths.get_data_file_paths january_listing ".tmp/2025-01" (iso_month (2025, 1)) =
    HelpersMonths.Returns
      (map (path_join ".tmp/2025-01")
           (List.filter (str_endswith (search_suffix 2025 1)) january_listing)).
Proof.
  split; [vm_compute; reflexivity|]. split; [vm_compute; reflexivity|].
  apply (data_files_of_a_month january_listing ".tmp/2025-01" 2025 1).
  - apply Nat.ltb_lt. vm_compute. reflexivity.
  - apply Nat.ltb_lt. vm_compute. reflexivity.
Defined.

(** ** The texts of the query tools *)

Section ToolFacts.
Import GpLookupFiles Server ServerTools.
Variable DATA_DIR : string.

Lemma count_by_icb_bumps results :
  count_by_icb results = fold_left bump (map icb_of results) [].
Proof.
  unfold count_by_icb. generalize (@nil (string * nat)).
  induction results as [|row results IH]; intros acc; [reflexivity|].
  cbn [fold_left map]. rewrite IH. reflexivity.
Qed.

Lemma _format_practice_printable row :
  printable row -> _format_practice row = Ok (practice_text row).
Proof.
  intros (Hname & Hcode & Hsystem). unfold _format_practice, practice_text, cell.
  unfold dict_contains in *. unfold dict_getitem.
  destruct (dict_get row "GP_NAME") as [gp_name|]; [|discriminate].
  destruct (dict_get row "GP_ODS_CODE") as [gp_ods_code|]; [|discriminate].
  destruct (dict_get row "GP_SYSTEM") as [gp_system|]; [|discriminate].
  destruct (dict_get row "ICB Sub location") as [icb|]; [|reflexivity].
  change (default "" (Some icb)) with icb.
  destruct (String.eqb icb ""); reflexivity.
Qed.

Lemma search_lines_closed total rows : forall i k lines,
  (i + k = 51)%nat -> (1 <= k)%nat ->
  Forall printable (firstn k rows) ->
  search_lines total i rows lines =
  Ok (lines ++ concat (map search_entry (combine (seq i (length (firstn k rows)))
                                                 (firstn k rows)))
            ++ (if (k <=? length rows)%nat then [more_results_note (total - 50)] else [])).
Proof.
  induction rows as [|row rows IH]; intros i k lines Hik Hk Hall.
  - destruct k as [|k]; [lia|]. cbn. now rewrite app_nil_r.
  - destruct k as [|k]; [lia|]. cbn [firstn] in Hall |- *.
    inversion Hall as [|? ? Hrow Hrest]; subst.
    cbn [search_lines]. rewrite (_format_practice_printable _ Hrow). cbn [bind].
    cbn [length seq combine map concat].
    destruct (50 <=? i)%nat eqn:E.
    + apply Nat.leb_le in E. assert (k = 0)%nat as -> by lia.
      change (firstn 0 rows) with (@nil (pydict string)).
      cbn [length seq combine map concat]. rewrite app_nil_r.
      change (1 <=? S (length rows))%nat with true. cbv iota.
      change (search_entry (i, row))
        with [(str_of_nat i ++ ". " ++ practice_text row)%string; ""].
      rewrite <- !app_assoc. reflexivity.
    + apply Nat.leb_gt in E.
      rewrite (IH (S i) k) by (try lia; assumption).
      change (S k <=? length (row :: rows))%nat with (k <=? length rows)%nat.
      change (search_entry (i, row))
        with [(str_of_nat i ++ ". " ++ practice_text row)%string; ""].
      rewrite <- !app_assoc. reflexivity.
Qed.

Lemma descending_counts (items : list (string * nat)) :
  StronglySorted (fun x y => GpLookup.count_desc y x = false) items ->
  StronglySorted (fun a b => (snd b <= snd a)%nat) items.
Proof.
  induction 1 as [|x l Hl IH Hx]; constructor; [exact IH|].
  rewrite List.Forall_forall in *. intros y Hy. specialize (Hx y Hy).
  unfold GpLookup.count_desc in Hx. now apply Nat.ltb_ge in Hx.
Qed.

End ToolFacts.

(** X17: when [gp_filter_by_system] finds practices, its text is the
    four head lines, with the number of practices found, and one table
    line per commissioner; the commissioners are the distinct ICB cells
    of the practices found (Unknown for a practice without the
    column), each once, each with the number of its practices; the
    counts add up to the number in the head line; and the lines are in
    descending order of count.  The globals are left as [_get_lookup]
    leaves them. *)
Theorem filter_report_adds_up (DATA_DIR : string) (fs : filesystem) (st : Server.cache)
    (system : string) (month : option string) (lookup : GpLookupFiles.lookup)
    (results : list (pydict string)) :
  fst (Server._get_lookup DATA_DIR fs st month) = Found lookup ->
  GpLookup.filter_by_system (GpLookupFiles.data lookup) system = Ok results ->
  results <> [] ->
  exists breakdown : list (string * nat),
    ServerTools.gp_filter_by_system DATA_DIR fs st system month =
      (ServerTools.Text
         (ServerTools.str_join ServerTools.NL
            (breakdown_head (length results) (str_upper system)
             ++ map breakdown_line breakdown)),
       snd (Server._get_lookup DATA_DIR fs st month)) /\
    list_sum (map snd breakdown) = length results /\
    List.NoDup (map fst breakdown) /\
    (forall icb, In icb (map icb_of results) -> In icb (map fst breakdown)) /\
    (forall icb n, In (icb, n) breakdown ->
                   n = count_occ string_dec (map icb_of results) icb /\ (0 < n)%nat) /\
    StronglySorted (fun a b => (snd b <= snd a)%nat) breakdown.
Proof.
  intros Hget Hfilter Hne.
  set (counts := fold_left bump (map icb_of results) []).
  assert (Permutation (sorted GpLookup.count_desc counts) counts) as Hperm
    by apply sorted_perm.
  exists (sorted GpLookup.count_desc counts).
  split.
  { unfold ServerTools.gp_filter_by_system.
    destruct (Server._get_lookup DATA_DIR fs st month) as [[inst|e] st'];
      simpl in Hget; [|discriminate].
    injection Hget as ->. rewrite Hfilter.
    destruct results as [|row results]; [congruence|].
    rewrite count_by_icb_bumps. reflexivity. }
  split.
  { rewrite (Permutation_list_sum (Permutation_map snd Hperm)).
    unfold counts. rewrite bumps_sum. now rewrite length_map. }
  split.
  { eapply Permutation_NoDup; [apply Permutation_map; symmetry; exact Hperm|].
    apply (bumps_NoDup (map icb_of results) []). constructor. }
  split.
  { intros icb Hin.
    apply (Permutation_in _ (Permutation_sym (Permutation_map fst Hperm))).
    now apply counted_keys. }
  split.
  { intros icb n Hin. apply (Permutation_in _ Hperm) in Hin.
    now apply counted_items. }
  apply descending_counts.
  apply (sorted_sorted GpLookup.count_desc count_desc_asym count_desc_ge_trans).
Qed.

Lemma filter_report_adds_up_witness :
  exists lookup results breakdown,
    fst (Server._get_lookup "data" (data_only four_practices) no_cache None) = Found lookup /\
    GpLookup.filter_by_system (GpLookupFiles.data lookup) "tpp" = Ok results /\
    length results = 2%nat /\
    ServerTools.gp_filter_by_system "data" (data_only four_practices) no_cache "tpp" None =
      (ServerTools.Text
         (ServerTools.str_join ServerTools.NL
            (breakdown_head (length results) (str_upper "tpp")
             ++ map breakdown_line breakdown)),
       snd (Server._get_lookup "data" (data_only four_practices) no_cache None)) /\
    list_sum (map snd breakdown) = length results /\
    List.NoDup (map fst breakdown) /\
    (forall icb, In icb (map icb_of results) -> In icb (map fst breakdown)) /\
    (forall icb n, In (icb, n) breakdown ->
                   n = count_occ string_dec (map icb_of results) icb /\ (0 < n)%nat) /\
    StronglySorted (fun a b => (snd b <= snd a)%nat) breakdown.
Proof.
  eexists. eexists.
  assert (fst (Server._get_lookup "data" (data_only four_practices) no_cache None)
          = Found {| GpLookupFiles.data_file := Some "data/icb_gp_suppliers_*.csv";
                     GpLookupFiles.data := four_practices |}) as Hget
    by (vm_compute; reflexivity).
  assert (GpLookup.filter_by_system four_practices "tpp"
          = Ok [practice "A81002" "PARK MEDICAL" "TPP";
                practice "A81004" "ACKLAM MEDICAL" "TPP"]) as Hfilter
    by (vm_compute; reflexivity).
  destruct (filter_report_adds_up "data" (data_only four_practices) no_cache "tpp" None
              _ _ Hget Hfilter) as (breakdown & H); [discriminate|].
  exists breakdown. split; [exact Hget|]. split; [exact Hfilter|].
  split; [reflexivity | exact H].
Defined.

(** X18: when [gp_search_by_name] finds practices, its text is the head
    line with the number found and the first fifty of them, numbered
    from 1 in the order found, each followed by an empty line; the note
    on further results follows exactly when fifty or more were found,
    and says how many beyond fifty - none, for exactly fifty.  Only the
    first fifty rows are formatted: a later row without the columns
    does no harm. *)
Theorem search_report_lists_fifty (DATA_DIR : string) (fs : filesystem) (st : Server.cache)
    (name : string) (exact : bool) (month : option string) (lookup : GpLookupFiles.lookup)
    (results : list (pydict string)) :
  fst (Server._get_lookup DATA_DIR fs st month) = Found lookup ->
  GpLookup.search_by_name (GpLookupFiles.data lookup) name exact = Ok results ->
  results <> [] ->
  Forall printable (firstn 50 results) ->
  ServerTools.gp_search_by_name DATA_DIR fs st name exact month =
    (ServerTools.Text
       (ServerTools.str_join ServerTools.NL
          (search_head (length results) name
           :: concat (map search_entry (numbered 1 (firstn 50 results)))
           ++ (if (50 <=? length results)%nat
               then [more_results_note (length results - 50)] else []))),
     snd (Server._get_lookup DATA_DIR fs st month)).
Proof.
  intros Hget Hsearch Hne Hall.
  unfold ServerTools.gp_search_by_name.
  destruct (Server._get_lookup DATA_DIR fs st month) as [[inst|e] st'];
    simpl in Hget; [|discriminate].
  injection Hget as ->. rewrite Hsearch.
  destruct results as [|row results]; [congruence|].
  rewrite (search_lines_closed _ _ 1 50) by (try lia; assumption).
  reflexivity.
Qed.

Lemma search_report_lists_fifty_witness :
  (  exists lookup results,
    fst (Server._get_lookup "data" (data_only four_practices) no_cache None) = Found lookup /\
    GpLookup.search_by_name (GpLookupFiles.data lookup) "medical" false = Ok results /\
    length results = 2%nat /\
    ServerTools.gp_search_by_name "data" (data_only four_practices) no_cache "medical" false None =
      (ServerTools.Text
         (ServerTools.str_join ServerTools.NL
            (search_head (length results) "medical"
             :: concat (map search_entry (numbered 1 (firstn 50 results)))
             ++ (if (50 <=? length results)%nat
                 then [more_results_note (length results - 50)] else []))),
       snd (Server._get_lookup "data" (data_only four_practices) no_cache None))) /\
  length fifty_one_practices = 51%nat /\
  ServerTools.gp_search_by_name "data" (data_only fifty_one_practices) no_cache "park" false
      None =
    (ServerTools.Text
       (ServerTools.str_join ServerTools.NL
          (search_head 51 "park"
           :: concat (map search_entry (numbered 1 (firstn 50 fifty_one_practices)))
           ++ [more_results_note 1])),
     snd (Server._get_lookup "data" (data_only fifty_one_practices) no_cache None)).
Proof.
  split.
  - eexists. eexists.
    assert (fst (Server._get_lookup "data" (data_only four_practices) no_cache None)
            = Found {| GpLookupFiles.data_file := Some "data/icb_gp_suppliers_*.csv";
                       GpLookupFiles.data := four_practices |}) as Hget
      by (vm_compute; reflexivity).
    assert (GpLookup.search_by_name four_practices "medical" false
            = Ok [practice "A81002" "PARK MEDICAL" "TPP";
                  practice "A81004" "ACKLAM MEDICAL" "TPP"]) as Hsearch
      by (vm_compute; reflexivity).
    split; [exact Hget|]. split; [exact Hsearch|]. split; [reflexivity|].
    apply (search_report_lists_fifty "data" (data_only four_practices) no_cache "medical"
             false None _ _ Hget Hsearch).
    + discriminate.
    + repeat constructor.
  - split; [reflexivity|].
    assert (fst (Server._get_lookup "data" (data_only fifty_one_practices) no_cache None)
            = Found {| GpLookupFiles.data_file := Some "data/icb_gp_suppliers_*.csv";
                       GpLookupFiles.data := fifty_one_practices |}) as Hget
      by (vm_compute; reflexivity).
    assert (GpLookup.search_by_name fifty_one_practices "park" false
            = Ok fifty_one_practices) as Hsearch
      by (vm_compute; reflexivity).
    apply (search_report_lists_fifty "data" (data_only fifty_one_practices) no_cache "park"
             false None _ _ Hget Hsearch).
    + discriminate.
    + assert (firstn 50 fifty_one_practices
              = repeat (practice "A81002" "PARK MEDICAL" "TPP") 50) as -> by reflexivity.
      apply List.Forall_forall. intros row Hrow.
      apply repeat_spec in Hrow. subst row. repeat split.
Defined.

Lemma search_report_example :
  ServerTools.str_of_nat 0 = "0" /\ ServerTools.str_of_nat 50 = "50" /\
  fst (ServerTools.gp_search_by_name "data" (data_only four_practices) no_cache
         "victoria" false None) =
  ServerTools.Text
    ("Found **1** practices matching 'victoria':" ++ ServerTools.NL ++ ServerTools.NL
     ++ "1. **VICTORIA ROAD** (`A81003`)" ++ ServerTools.NL
     ++ "- IT System: VISION" ++ ServerTools.NL
     ++ "- Raw Systems: VISION" ++ ServerTools.NL
     ++ "- ICB Sub Location: 15E" ++ ServerTools.NL)%string /\
  fst (ServerTools.gp_filter_by_system "data" (data_only four_practices) no_cache
         "tpp" None) =
  ServerTools.Text
    ("**2** practices use **TPP**" ++ ServerTools.NL ++ ServerTools.NL
     ++ "### Breakdown by ICB Sub Location" ++ ServerTools.NL ++ ServerTools.NL
     ++ "| ICB Sub Location | Count |" ++ ServerTools.NL
     ++ "|---|---|" ++ ServerTools.NL
     ++ "| 15E | 2 |")%string.
Proof. repeat split; vm_compute; reflexivity. Qed.
